(** * DocumentAnalyzer: classification, field completeness, validity, Q&A

    A shallow embedding of the heuristic core of the repository:

    - [FunctionApp]  : class [DocumentAnalyzer] and the [/api/qa] handler of
                       [function-app.js];
    - [AI]           : class [AIDocumentAnalyzer] of [ai-document-analyzer.js];
    - [SimpleServer] : the validity checker of class [DocumentAnalyzer] in
                       [simple-server.js];
    - [MLPlugins]    : class [DocumentClassifier] of the ML plugins file;
    - [Chat]         : class [EnhancedChatSystem].

    Conventions.  A JavaScript string is a [string]; [toUpperCase],
    [toLowerCase] and the [i] flag act on the letters A-Z / a-z, and the
    bytes of a character outside ASCII are carried as they are (the case
    mappings and the white space of characters outside ASCII are not
    modelled).  Integer-valued numbers are [Z]; ratios are exact rationals
    [Q]: on the tables of the program (five to seven required fields per
    profile) binary64 arithmetic gives the same rounded scores and decides
    the same comparisons.  An object used as a lookup table keyed by names
    that the program itself produces is a [gmap]: its lookup is [obj[key]]
    for every key that is not the name of a member inherited from
    [Object.prototype] ([JS.inherited]); for those names the program reads
    the inherited member, and the properties about a fallback
    [obj[key] || d] exclude them.  A [Map] or an object that is
    iterated is an association list in insertion order.  Regular-expression
    literals are terms of [RegExp.regex], run by a backtracking matcher that
    follows the priorities of the ECMAScript matcher.  The clock and
    [new Date(string)] belong to the host and are parameters. *)

From Stdlib Require Import String Ascii List ZArith QArith Qround Bool Lia Lqa.
From Stdlib Require Import DecimalString.
From stdpp Require Import gmap strings.
Import ListNotations.

Open Scope string_scope.

(** ** JavaScript strings *)

Module JS.

Definition is_upper (a : ascii) : bool :=
  let n := nat_of_ascii a in (65 <=? n)%nat && (n <=? 90)%nat.

Definition is_lower (a : ascii) : bool :=
  let n := nat_of_ascii a in (97 <=? n)%nat && (n <=? 122)%nat.

Definition lower_char (a : ascii) : ascii :=
  if is_upper a then ascii_of_nat (nat_of_ascii a + 32) else a.

Definition upper_char (a : ascii) : ascii :=
  if is_lower a then ascii_of_nat (nat_of_ascii a - 32) else a.

Fixpoint map_string (f : ascii -> ascii) (s : string) : string :=
  match s with
  | EmptyString => EmptyString
  | String a s' => String (f a) (map_string f s')
  end.

(** [s.toLowerCase()] and [s.toUpperCase()] *)
Definition toLowerCase : string -> string := map_string lower_char.
Definition toUpperCase : string -> string := map_string upper_char.

(** [s.startsWith(p)] *)
Fixpoint startsWith (p s : string) : bool :=
  match p, s with
  | EmptyString, _ => true
  | String a p', String b s' => Ascii.eqb a b && startsWith p' s'
  | String _ _, EmptyString => false
  end.

(** [s.includes(sub)] *)
Fixpoint includes (s sub : string) : bool :=
  startsWith sub s ||
  match s with
  | EmptyString => false
  | String _ s' => includes s' sub
  end.

(** [s.substring(0, n)] *)
Fixpoint take (n : nat) (s : string) : string :=
  match n, s with
  | S n', String a s' => String a (take n' s')
  | _, _ => EmptyString
  end.

(** [parts.join(sep)] *)
Fixpoint join (sep : string) (parts : list string) : string :=
  match parts with
  | [] => ""
  | [p] => p
  | p :: rest => p ++ sep ++ join sep rest
  end.

(** The decimal rendering of an integer-valued number in a template
    literal. *)
Definition string_of_Z (z : Z) : string :=
  NilEmpty.string_of_int (Z.to_int z).

(** The character U+0022, which no string literal of this file contains. *)
Definition dquote : string :=
  String (Ascii false true false false false true false false) EmptyString.

(** [a || b] on values that are a string, [undefined] or [null]: the
    empty string and [None] are falsy. *)
Definition truthy (a : option string) : bool :=
  match a with
  | Some s => negb (String.eqb s "")
  | None => false
  end.

Definition or (a b : option string) : option string :=
  if truthy a then a else b.

(** [x?.f], and [x && x.f] for an object [x] *)
Definition member {A B} (x : option A) (f : A -> option B) : option B :=
  match x with
  | Some a => f a
  | None => None
  end.

(** [a || b] on values that are an object or [undefined]. *)
Definition or_obj {A} (a b : option A) : option A :=
  match a with
  | Some _ => a
  | None => b
  end.

(** The names of the members that an object literal inherits from
    [Object.prototype].  For such a key [obj[key]] is the inherited member
    (a function, or the prototype itself for [__proto__]) unless the
    literal has a property of that name; it is truthy, so
    [obj[key] || d] is not [d].  The lookup tables of the program are read
    with [!!], which is [obj[key]] for every other key; what is proved of
    a fallback [obj[key] || d] is stated for keys outside these names. *)
Definition inherited (key : string) : bool :=
  existsb (String.eqb key)
    ["constructor"; "__defineGetter__"; "__defineSetter__"; "hasOwnProperty";
     "__lookupGetter__"; "__lookupSetter__"; "isPrototypeOf"; "propertyIsEnumerable";
     "toString"; "valueOf"; "__proto__"; "toLocaleString"].

(** The line feed written [\n] in the program's literals. *)
Definition nl : string := String (ascii_of_nat 10) EmptyString.

(** [Math.round(x)]: the integer nearest to [x], ties towards +infinity. *)
Definition Math_round (x : Q) : Z := Qfloor (x + (1 # 2))%Q.

Definition Qlt_bool (x y : Q) : bool := negb (Qle_bool y x).

Definition Qmin (x y : Q) : Q := if Qle_bool x y then x else y.

End JS.

(** ** Regular expressions *)

Module RegExp.

(** Abstract syntax.  [Star true r] is the greedy [r*], [Star false r] the
    lazy [r*?]; [Group n r] is the [n]-th capturing group; [Bol] is the
    assertion [^] (no [m] flag is used anywhere in the program). *)
Inductive regex : Type :=
| Empty
| Char (p : ascii -> bool)
| Seq (r1 r2 : regex)
| Alt (r1 r2 : regex)
| Star (greedy : bool) (r : regex)
| Group (n : nat) (r : regex)
| Bol.

(** *** Character classes *)

Definition one (c : ascii) : ascii -> bool := Ascii.eqb c.

(** a letter under the [i] flag *)
Definition onei (c : ascii) : ascii -> bool :=
  fun a => Ascii.eqb (JS.lower_char c) (JS.lower_char a).

Definition range (lo hi : ascii) : ascii -> bool :=
  fun a => let n := nat_of_ascii a in
           (nat_of_ascii lo <=? n)%nat && (n <=? nat_of_ascii hi)%nat.

(** [\d] *)
Definition is_digit : ascii -> bool := range "0" "9".

(** [\s] *)
Definition is_space (a : ascii) : bool :=
  let n := nat_of_ascii a in
  ((9 <=? n)%nat && (n <=? 13)%nat) || (n =? 32)%nat.

(** [\w] *)
Definition is_word (a : ascii) : bool :=
  range "a" "z" a || range "A" "Z" a || is_digit a || one "_" a.

(** [.] (no [s] flag): anything but a line terminator *)
Definition is_dot (a : ascii) : bool :=
  let n := nat_of_ascii a in negb ((n =? 10)%nat || (n =? 13)%nat).

(** [[...]] *)
Definition cls (items : list (ascii -> bool)) : ascii -> bool :=
  fun a => existsb (fun p => p a) items.

(** *** Derived forms *)

Fixpoint cat (rs : list regex) : regex :=
  match rs with
  | [] => Empty
  | [r] => r
  | r :: rs' => Seq r (cat rs')
  end.

Fixpoint alt (rs : list regex) : regex :=
  match rs with
  | [] => Empty
  | [r] => r
  | r :: rs' => Alt r (alt rs')
  end.

Definition chr (c : ascii) : regex := Char (one c).
Definition star (r : regex) : regex := Star true r.
Definition lazy_star (r : regex) : regex := Star false r.
Definition plus (r : regex) : regex := Seq r (Star true r).
Definition opt (r : regex) : regex := Alt r Empty.

(** [r{n}] *)
Fixpoint times (n : nat) (r : regex) : regex :=
  match n with
  | O => Empty
  | S O => r
  | S n' => Seq r (times n' r)
  end.

(** [r{1,2}] *)
Definition one_or_two (r : regex) : regex := Seq r (opt r).

(** a literal, without and with the [i] flag *)
Fixpoint lit (s : string) : regex :=
  match s with
  | EmptyString => Empty
  | String a EmptyString => Char (one a)
  | String a s' => Seq (Char (one a)) (lit s')
  end.

Fixpoint liti (s : string) : regex :=
  match s with
  | EmptyString => Empty
  | String a EmptyString => Char (onei a)
  | String a s' => Seq (Char (onei a)) (liti s')
  end.

Definition ws : regex := Char is_space.
Definition digit : regex := Char is_digit.
Definition dot : regex := Char is_dot.

(** *** The matcher *)

Definition captures := list (nat * string).

Fixpoint capture (n : nat) (c : captures) : option string :=
  match c with
  | [] => None
  | (k, v) :: c' => if (k =? n)%nat then Some v else capture n c'
  end.

Definition orElse {A} (x y : option A) : option A :=
  match x with
  | Some _ => x
  | None => y
  end.

(** [run r i s c k]: match [r] at index [i], where [s] is the input from
    [i] on and [c] the captures so far; [k] is the continuation, called
    with the end index, the rest of the input and the captures.
    Alternatives are tried left to right and a failing continuation makes
    the matcher back up, as in the ECMAScript semantics.  An iteration of
    a star that consumes nothing is rejected. *)
Fixpoint run {A} (r : regex) (i : nat) (s : string) (c : captures)
    (k : nat -> string -> captures -> option A) : option A :=
  match r with
  | Empty => k i s c
  | Char p =>
      match s with
      | String a s' => if p a then k (S i) s' c else None
      | EmptyString => None
      end
  | Seq r1 r2 => run r1 i s c (fun i' s' c' => run r2 i' s' c' k)
  | Alt r1 r2 => orElse (run r1 i s c k) (run r2 i s c k)
  | Star greedy r1 =>
      (fix loop (fuel : nat) (i : nat) (s : string) (c : captures) : option A :=
         let again :=
           match fuel with
           | O => None
           | S fuel' =>
               run r1 i s c
                 (fun i' s' c' => if (i <? i')%nat then loop fuel' i' s' c' else None)
           end in
         if greedy then orElse again (k i s c) else orElse (k i s c) again)
        (String.length s) i s c
  | Group n r1 =>
      run r1 i s c (fun i' s' c' => k i' s' ((n, JS.take (i' - i) s) :: c'))
  | Bol => if (i =? 0)%nat then k i s c else None
  end.

(** A successful match: where it starts and ends, the matched text, the
    input after it, and the captures. *)
Record result : Type := mkResult {
  r_start : nat;
  r_end : nat;
  r_text : string;
  r_rest : string;
  r_caps : captures
}.

Definition match_at (r : regex) (i : nat) (s : string) : option result :=
  run r i s [] (fun i' s' c' => Some (mkResult i i' (JS.take (i' - i) s) s' c')).

(** The leftmost match at or after index [i]. *)
Fixpoint search (r : regex) (i : nat) (s : string) : option result :=
  match match_at r i s with
  | Some m => Some m
  | None =>
      match s with
      | String _ s' => search r (S i) s'
      | EmptyString => None
      end
  end.

(** [r.test(s)] for a regex whose [lastIndex] is 0 (a fresh literal, or
    one without the [g] flag). *)
Definition test (r : regex) (s : string) : bool :=
  match search r 0 s with
  | Some _ => true
  | None => false
  end.

(** [s.match(r)] without the [g] flag: the captures of the leftmost match
    ([None] is [null]). *)
Definition exec (r : regex) (s : string) : option result := search r 0 s.

(** [s.match(r)] with the [g] flag: the texts of the successive matches;
    after an empty match the scan moves one character on.  The empty
    list stands for [null]. *)
Fixpoint match_all_from (fuel : nat) (r : regex) (i : nat) (s : string) : list string :=
  match fuel with
  | O => []
  | S fuel' =>
      match search r i s with
      | None => []
      | Some m =>
          r_text m ::
          (if (r_start m =? r_end m)%nat
           then match r_rest m with
                | String _ s' => match_all_from fuel' r (S (r_end m)) s'
                | EmptyString => []
                end
           else match_all_from fuel' r (r_end m) (r_rest m))
      end
  end.

Definition match_all (r : regex) (s : string) : list string :=
  match_all_from (S (String.length s)) r 0 s.

(** [s.replace(r, rep)] with the [g] flag and a replacement text without
    [$] patterns. *)
Fixpoint replace_all_from (fuel : nat) (r : regex) (rep : string) (i : nat) (s : string) : string :=
  match fuel with
  | O => s
  | S fuel' =>
      match search r i s with
      | None => s
      | Some m =>
          JS.take (r_start m - i) s ++ rep ++
          (if (r_start m =? r_end m)%nat
           then match r_rest m with
                | String a s' => String a (replace_all_from fuel' r rep (S (r_end m)) s')
                | EmptyString => EmptyString
                end
           else replace_all_from fuel' r rep (r_end m) (r_rest m))
      end
  end.

Definition replace_all (r : regex) (rep : string) (s : string) : string :=
  replace_all_from (S (String.length s)) r rep 0 s.

(** A regular-expression object: its pattern and its [g] flag. *)
Record RegExpObj : Type := mkRegExp {
  source : regex;
  global : bool
}.

(** The number of capturing groups of a pattern. *)
Fixpoint group_count (r : regex) : nat :=
  match r with
  | Seq r1 r2 | Alt r1 r2 => Nat.max (group_count r1) (group_count r2)
  | Star _ r1 => group_count r1
  | Group n r1 => Nat.max n (group_count r1)
  | _ => O
  end.

(** [s.match(re)]: [None] is [null]; an element [None] of the array is
    [undefined] (a group that took no part in the match).  With the [g]
    flag the array holds the successive matches; without it, the match
    followed by its groups. *)
Definition String_match (re : RegExpObj) (s : string) : option (list (option string)) :=
  if global re then
    match match_all (source re) s with
    | [] => None
    | ms => Some (map Some ms)
    end
  else
    match exec (source re) s with
    | None => None
    | Some m =>
        Some (Some (r_text m)
              :: map (fun n => capture n (r_caps m)) (seq 1 (group_count (source re))))
    end.

(** [array[i]], [undefined] out of range *)
Definition at_index (array : list (option string)) (i : nat) : option string :=
  match nth_error array i with
  | Some x => x
  | None => None
  end.

End RegExp.

(** ** function-app.js: class DocumentAnalyzer and the Q&A handler *)

Module FunctionApp.
Import RegExp.

Record ValidityRules : Type := mkRules {
  maxAge : Z;
  requiredSignatures : list string
}.

Record DocConfig : Type := mkConfig {
  requiredFields : list string;
  validityRules : ValidityRules
}.

Definition APS : string := "Agreement of Purchase and Sale (APS)".

Definition APS_config : DocConfig :=
  mkConfig ["purchasePrice"; "closingDate"; "buyerName"; "sellerName"; "propertyAddress"; "depositAmount"]
           (mkRules 365 ["buyer"; "seller"]).

Definition Lease_config : DocConfig :=
  mkConfig ["rentAmount"; "leaseStartDate"; "leaseEndDate"; "tenantName"; "landlordName"; "propertyAddress"]
           (mkRules 365 ["tenant"; "landlord"]).

Definition LTB_config : DocConfig :=
  mkConfig ["formNumber"; "tenantName"; "landlordName"; "propertyAddress"; "issueDate"]
           (mkRules 30 ["applicant"]).

(** [this.documentTypes], set once by the constructor *)
Definition documentTypes_entries : list (string * DocConfig) :=
  [ (APS, APS_config);
    ("Residential Lease Agreement", Lease_config);
    ("Landlord and Tenant Board Form", LTB_config) ].

Definition documentTypes : gmap string DocConfig := list_to_map documentTypes_entries.

(** [this.documentTypes[documentType] || this.documentTypes[APS]], for a
    type outside [JS.inherited] (the types that [identifyDocumentType]
    answers are); for one of those names the program gets the inherited
    member and both checks throw. *)
Definition docConfig (documentType : string) : DocConfig :=
  default APS_config (documentTypes !! documentType).

(** The table [patterns] of [isFieldPresent]. *)
Definition fieldPatterns_entries : list (string * regex) :=
  [ ("purchasePrice", alt [cat [chr "$"; plus (Char (cls [is_digit; one ","]))];
                           cat [liti "purchase"; star ws; liti "price"]]);
    ("closingDate", alt [cat [liti "closing"; star ws; liti "date"];
                         cat [liti "closes"; star ws; liti "on"]]);
    ("buyerName", alt [liti "buyer"; liti "purchaser"]);
    ("sellerName", alt [liti "seller"; liti "vendor"]);
    ("propertyAddress", alt [liti "address"; cat [liti "property"; star ws; liti "located"]]);
    ("depositAmount", alt [liti "deposit"; cat [liti "down"; star ws; liti "payment"]]);
    ("rentAmount", alt [liti "rent"; cat [liti "rental"; star ws; liti "amount"]]);
    ("leaseStartDate", alt [cat [liti "lease"; star ws; liti "start"]; liti "commencing"]);
    ("leaseEndDate", alt [cat [liti "lease"; star ws; liti "end"]; liti "expiring"]);
    ("tenantName", alt [liti "tenant"; liti "lessee"]);
    ("landlordName", alt [liti "landlord"; liti "lessor"]);
    ("formNumber", alt [cat [lit "form"; star ws;
                             Char (cls [one "n"; one "N"; one "t"; one "T"]); plus digit];
                        cat [Bol; Char (cls [one "n"; one "N"; one "t"; one "T"]); plus digit]]);
    ("issueDate", alt [cat [liti "issue"; star ws; liti "date"]; liti "dated"]) ].

Definition fieldPatterns : gmap string regex := list_to_map fieldPatterns_entries.

Definition isFieldPresent (text fieldName : string) : bool :=
  match fieldPatterns !! fieldName with
  | Some pattern => test pattern text
  | None => false
  end.

(** The table [patterns] of [checkSignature]. *)
Definition signaturePatterns_entries : list (string * regex) :=
  [ ("buyer", alt [cat [liti "buyer"; star ws; liti "signature"];
                   cat [liti "signed"; star ws; liti "by"; star ws; liti "buyer"]]);
    ("seller", alt [cat [liti "seller"; star ws; liti "signature"];
                    cat [liti "signed"; star ws; liti "by"; star ws; liti "seller"]]);
    ("tenant", alt [cat [liti "tenant"; star ws; liti "signature"];
                    cat [liti "signed"; star ws; liti "by"; star ws; liti "tenant"]]);
    ("landlord", alt [cat [liti "landlord"; star ws; liti "signature"];
                      cat [liti "signed"; star ws; liti "by"; star ws; liti "landlord"]]);
    ("applicant", alt [cat [liti "applicant"; star ws; liti "signature"];
                       cat [liti "signed"; star ws; liti "by"; star ws; liti "applicant"]]) ].

Definition signaturePatterns : gmap string regex := list_to_map signaturePatterns_entries.

Definition checkSignature (text signatureType : string) : bool :=
  match signaturePatterns !! JS.toLowerCase signatureType with
  | Some pattern => test pattern text
  | None => false
  end.

(** *** Function 1: field completeness *)

Record Completeness : Type := mkCompleteness {
  score : Z;
  status : string;
  missingRequired : list string;
  presentRequired : list string
}.

Record FieldStatus : Type := mkFieldStatus {
  completeness : Completeness
}.

(** One turn of the loop over [requiredFields]: [push] on one of the two
    lists. *)
Definition completeness_step (text : string) (c : Completeness) (field : string) : Completeness :=
  if isFieldPresent text field
  then mkCompleteness (score c) (status c) (missingRequired c) (presentRequired c ++ [field])
  else mkCompleteness (score c) (status c) (missingRequired c ++ [field]) (presentRequired c).

(** The chain of comparisons that sets [completeness.status]. *)
Definition completeness_status (score : Z) : string :=
  if (90 <=? score)%Z then "Complete"
  else if (70 <=? score)%Z then "Mostly Complete"
  else if (50 <=? score)%Z then "Partially Complete"
  else "Incomplete".

Definition checkFieldCompleteness (documentText documentType : string) : FieldStatus :=
  let docConfig := docConfig documentType in
  let requiredFields := requiredFields docConfig in
  let c0 := mkCompleteness 0 "Incomplete" [] [] in
  let c1 := fold_left (completeness_step documentText) requiredFields c0 in
  let score :=
    JS.Math_round
      ((inject_Z (Z.of_nat (List.length (presentRequired c1)))
        / inject_Z (Z.of_nat (List.length requiredFields))) * 100)%Q in
  mkFieldStatus
    (mkCompleteness score (completeness_status score) (missingRequired c1) (presentRequired c1)).

(** *** Function 2: document type *)

Record Classification : Type := mkClassification {
  documentType : string;
  confidence : Q;
  jurisdiction : string
}.

Definition identifyDocumentType (documentText filename : string) : Classification :=
  let filename_lower := JS.toLowerCase filename in
  if JS.includes filename_lower "purchase" || JS.includes filename_lower "sale"
     || JS.includes filename_lower "aps"
  then mkClassification APS (90 # 100) "Ontario"
  else if JS.includes filename_lower "lease" || JS.includes filename_lower "rental"
  then mkClassification "Residential Lease Agreement" (85 # 100) "Ontario"
  else if JS.includes filename_lower "n1" || JS.includes filename_lower "n4"
          || JS.includes filename_lower "ltb"
  then mkClassification "Landlord and Tenant Board Form" (88 # 100) "Ontario"
  else mkClassification "Legal Document" (60 # 100) "Ontario".

(** *** Function 3: validity *)

Record ExpiryInfo : Type := mkExpiry {
  isExpired : bool;
  ageInDays : option Z
}.

Record ValidityCheck : Type := mkValidity {
  v_status : string;
  v_score : Z;
  issues : list string;
  warnings : list string;
  expiryInfo : ExpiryInfo
}.

(** One turn of the loop over [requiredSignatures]. *)
Definition signature_step (text : string) (v : ValidityCheck) (sig : string) : ValidityCheck :=
  if negb (checkSignature text sig)
  then mkValidity (v_status v) (v_score v - 20)
                  (issues v ++ ["Missing required signature: " ++ sig])
                  (warnings v) (expiryInfo v)
  else v.

(** [/date|dated|created|issued/i] *)
Definition date_word : regex :=
  alt [liti "date"; liti "dated"; liti "created"; liti "issued"].

Definition checkDocumentValidity (documentText documentType : string) : ValidityCheck :=
  let docConfig := docConfig documentType in
  let validityRules := validityRules docConfig in
  let v0 := mkValidity "Valid" 100 [] [] (mkExpiry false None) in
  let v1 := fold_left (signature_step documentText) (requiredSignatures validityRules) v0 in
  let hasDate := test date_word documentText in
  let v2 :=
    if negb hasDate
    then mkValidity (v_status v1) (v_score v1 - 10) (issues v1)
                    (warnings v1 ++ ["No date found in document"]) (expiryInfo v1)
    else v1 in
  if (v_score v2 <? 80)%Z
  then mkValidity "Potentially Invalid" (v_score v2) (issues v2) (warnings v2) (expiryInfo v2)
  else if (0 <? List.length (issues v2))%nat
  then mkValidity "Valid with Issues" (v_score v2) (issues v2) (warnings v2) (expiryInfo v2)
  else v2.

(** *** The handler of [POST /api/qa]

    [extractedData] is the analysis result sent back by the client; the
    handler reads its [fieldCompleteness] and [validityCheck] members and
    nothing else.  [answerMarkdown] is the text of the reply. *)

Record ExtractedData : Type := mkExtracted {
  fieldCompleteness : option FieldStatus;
  validityCheck : option ValidityCheck;
  purchasePrice : option string
}.

Definition percent (z : Z) : string := JS.string_of_Z z ++ "%".

Definition answerMarkdown (question documentType : string)
    (extractedData : option ExtractedData) : string :=
  let fc := JS.member extractedData fieldCompleteness in
  let vc := JS.member extractedData validityCheck in
  let missing :=
    match fc with
    | Some f => missingRequired (completeness f)
    | None => []
    end in
  let problems :=
    match vc with
    | Some v => issues v
    | None => []
    end in
  let q := JS.toLowerCase question in
  let answer := "### Document Analysis Summary" ++ JS.nl ++ JS.nl in
  let answer := answer ++ "**Document Type:** " ++ documentType ++ JS.nl ++ JS.nl in
  let answer :=
    match fc with
    | Some f =>
        let answer := answer ++ "**Completeness:** " ++ status (completeness f)
                        ++ " (" ++ percent (score (completeness f)) ++ ")" ++ JS.nl in
        if (0 <? List.length missing)%nat
        then answer ++ "**Missing Required Fields:** " ++ JS.join ", " missing ++ JS.nl
        else answer
    | None => answer
    end in
  let answer :=
    match vc with
    | Some v =>
        let answer := answer ++ "**Validity Status:** " ++ v_status v
                        ++ " (" ++ percent (v_score v) ++ ")" ++ JS.nl in
        if (0 <? List.length problems)%nat
        then answer ++ "**Issues:** " ++ JS.join ", " problems ++ JS.nl
        else answer
    | None => answer
    end in
  let answer := answer ++ JS.nl ++ "### Answer" ++ JS.nl ++ JS.nl in
  let answer :=
    if JS.includes q "what" && JS.includes q "document" then
      let answer := answer ++ "This is a **" ++ documentType ++ "** document. " in
      let answer :=
        match fc with
        | Some f =>
            answer ++ "The document is " ++ JS.toLowerCase (status (completeness f))
              ++ " with a completeness score of " ++ percent (score (completeness f)) ++ ". "
        | None => answer
        end in
      match vc with
      | Some v => answer ++ "The validity status is " ++ JS.toLowerCase (v_status v) ++ "."
      | None => answer
      end
    else if JS.includes q "missing" || JS.includes q "incomplete" then
      let answer :=
        if (0 <? List.length missing)%nat
        then answer ++ "The following required fields are missing: "
               ++ JS.join ", " missing ++ ". "
        else answer ++ "No missing required fields detected. " in
      if (0 <? List.length problems)%nat
      then answer ++ "However, there are validity issues: " ++ JS.join ", " problems ++ "."
      else answer
    else if JS.includes q "valid" || JS.includes q "ready" then
      match vc with
      | Some v =>
          let answer := answer ++ "The document validity status is **" ++ v_status v
                          ++ "** with a score of " ++ percent (v_score v) ++ ". " in
          if (List.length (issues v) =? 0)%nat
          then answer ++ "The document appears to be ready for use."
          else answer ++ "Please address the following issues: "
                 ++ JS.join ", " (issues v) ++ "."
      | None => answer
      end
    else
      answer ++ "Based on the document analysis, I can provide information about the document type, completeness, and validity. Please ask specific questions about what you need to know." in
  let answer := answer ++ JS.nl ++ JS.nl ++ "### Next Steps" ++ JS.nl ++ JS.nl in
  let answer :=
    if (0 <? List.length missing)%nat
    then answer ++ "- Complete the missing required fields: " ++ JS.join ", " missing ++ JS.nl
    else answer in
  let answer :=
    if (0 <? List.length problems)%nat
    then answer ++ "- Address the validity issues: " ++ JS.join ", " problems ++ JS.nl
    else answer in
  let answer := answer ++ "- Review the document one final time" ++ JS.nl in
  let answer := answer ++ "- Ensure all parties have signed if required" ++ JS.nl in
  answer ++ "- Make copies for your records" ++ JS.nl.

End FunctionApp.

(** ** ai-document-analyzer.js: class AIDocumentAnalyzer *)

Module AI.
Import RegExp.

Record Pattern : Type := mkPattern {
  visualIndicators : list string;
  textPatterns : list regex;
  requiredFields : list string;
  documentType : string;
  description : string
}.

Record Classification : Type := mkClassification {
  c_documentType : string;
  c_confidence : Q;
  c_description : string
}.

Record Completeness : Type := mkCompleteness {
  score : Z;
  status : string;
  missingRequired : list string;
  presentRequired : list string
}.

Record FieldStatus : Type := mkFieldStatus {
  completeness : Completeness
}.

Record Validity : Type := mkValidity {
  v_status : string;
  issues : list string;
  warnings : list string;
  v_score : Z
}.

Record LearningEntry : Type := mkEntry {
  l_filename : string;
  l_classification : Classification;
  l_completeness : FieldStatus;
  l_validity : Validity;
  l_timestamp : string
}.

(** The fields of [this] that the analysis reads or writes.
    [documentPatterns] is a [Map], kept in insertion order. *)
Record Analyzer : Type := mkAnalyzer {
  documentPatterns : list (string * Pattern);
  learningHistory : list LearningEntry
}.

(** The clock and the date parser of the host: [Date_now] is the time
    value of [new Date()], [Date_parse s] the time value of [new Date(s)],
    [None] for an invalid date. *)
Record Host : Type := mkHost {
  Date_now : Z;
  Date_parse : string -> option Z
}.

(** Methods are state transformers on the analyzer. *)
Definition M (A : Type) : Type := Analyzer -> A * Analyzer.

Definition ret {A} (x : A) : M A := fun this => (x, this).

Definition bind {A B} (m : M A) (f : A -> M B) : M B :=
  fun this => let (x, this') := m this in f x this'.

Definition gets {A} (f : Analyzer -> A) : M A := fun this => (f this, this).

Definition modify (f : Analyzer -> Analyzer) : M unit := fun this => (tt, f this).

Notation "x <- m ;; k" := (bind m (fun x => k))
  (at level 100, m at next level, right associativity).

(** [map.set(name, pattern)]: an existing key keeps its place. *)
Fixpoint Map_set {V} (name : string) (v : V) (m : list (string * V)) : list (string * V) :=
  match m with
  | [] => [(name, v)]
  | (k, v') :: m' => if String.eqb k name then (k, v) :: m' else (k, v') :: Map_set name v m'
  end.

Definition addDocumentPattern (name : string) (pattern : Pattern) : M unit :=
  modify (fun this => mkAnalyzer (Map_set name pattern (documentPatterns this))
                                 (learningHistory this)).

(** [\$?[\d,]+], which ends several of the patterns below *)
Definition amount : regex := cat [opt (chr "$"); plus (Char (cls [is_digit; one ","]))].

(** [\s*:?\s*] *)
Definition sep : regex := cat [star ws; opt (chr ":"); star ws].

(** [\d{1,2}\/\d{1,2}\/\d{4}] *)
Definition mdy : regex :=
  cat [one_or_two digit; chr "/"; one_or_two digit; chr "/"; times 4 digit].

Definition APS_pattern : Pattern :=
  mkPattern
    ["AGREEMENT OF PURCHASE AND SALE"; "PURCHASE PRICE"; "CLOSING DATE"; "DEPOSIT";
     "BUYER"; "SELLER"; "PROPERTY ADDRESS"]
    [ cat [liti "purchase"; plus ws; liti "price"; sep; amount];
      cat [liti "closing"; plus ws; liti "date"; sep; mdy];
      cat [liti "deposit"; plus ws; liti "amount"; sep; amount];
      cat [liti "between"; plus ws; lazy_star dot; plus ws; liti "(buyer)"; plus ws;
           liti "and"; plus ws; lazy_star dot; plus ws; liti "(seller)"] ]
    ["purchasePrice"; "closingDate"; "buyerName"; "sellerName";
     "propertyAddress"; "depositAmount"; "irrevocableDate"]
    "Agreement of Purchase and Sale (APS)"
    "Legal contract for real estate transactions outlining purchase terms, conditions, and closing details.".

Definition A2_pattern : Pattern :=
  mkPattern
    ["APPLICATION TO INCREASE RENT"; "LANDLORD AND TENANT BOARD"; "FORM A2";
     "RENT INCREASE"; "ABOVE GUIDELINE"]
    [ cat [liti "application"; plus ws; liti "to"; plus ws; liti "increase"; plus ws; liti "rent"];
      cat [liti "form"; plus ws; liti "a2"];
      cat [liti "landlord"; plus ws; liti "and"; plus ws; liti "tenant"; plus ws; liti "board"];
      cat [liti "above"; plus ws; liti "guideline"; plus ws; liti "increase"] ]
    ["landlordName"; "tenantName"; "propertyAddress"; "currentRent";
     "proposedRent"; "increaseReason"; "applicationDate"]
    "A2 Form (Landlord and Tenant Board)"
    "LTB application form for rent increases above guideline, requiring board approval.".

Definition L1_pattern : Pattern :=
  mkPattern
    ["APPLICATION TO TERMINATE A TENANCY"; "FORM L1"; "LANDLORD AND TENANT BOARD"; "EVICTION"]
    [ cat [liti "application"; plus ws; liti "to"; plus ws; liti "terminate"; plus ws;
           liti "a"; plus ws; liti "tenancy"];
      cat [liti "form"; plus ws; liti "l1"];
      liti "eviction" ]
    ["landlordName"; "tenantName"; "propertyAddress"; "terminationReason";
     "noticeDate"; "hearingDate"]
    "L1 Form (Landlord and Tenant Board)"
    "LTB application form for terminating tenancy and eviction proceedings.".

Definition Lease_pattern : Pattern :=
  mkPattern
    ["RESIDENTIAL LEASE AGREEMENT"; "TENANT"; "LANDLORD"; "RENT"; "LEASE TERM";
     "SECURITY DEPOSIT"]
    [ cat [liti "residential"; plus ws; liti "lease"; plus ws; liti "agreement"];
      cat [liti "monthly"; plus ws; liti "rent"; sep; amount];
      cat [liti "lease"; plus ws; liti "term"; sep; plus digit; plus ws; liti "month";
           opt (Char (onei "s"))];
      cat [liti "security"; plus ws; liti "deposit"; sep; amount] ]
    ["tenantName"; "landlordName"; "propertyAddress"; "monthlyRent";
     "leaseStartDate"; "leaseEndDate"; "securityDeposit"]
    "Residential Lease Agreement"
    "Legal contract between landlord and tenant for residential property rental.".

Definition Mortgage_pattern : Pattern :=
  mkPattern
    ["MORTGAGE"; "PRINCIPAL AMOUNT"; "INTEREST RATE"; "AMORTIZATION"; "LENDER"]
    [ cat [liti "mortgage"; plus ws; liti "agreement"];
      cat [liti "principal"; plus ws; liti "amount"; sep; amount];
      cat [liti "interest"; plus ws; liti "rate"; sep;
           plus (Char (cls [is_digit; one "."])); chr "%"];
      cat [liti "amortization"; plus ws; liti "period"; sep; plus digit; plus ws;
           liti "year"; opt (Char (onei "s"))] ]
    ["borrowerName"; "lenderName"; "propertyAddress"; "principalAmount";
     "interestRate"; "amortizationPeriod"; "monthlyPayment"]
    "Mortgage Document"
    "Legal contract securing a loan with real estate property as collateral.".

Definition Insurance_pattern : Pattern :=
  mkPattern
    ["INSURANCE POLICY"; "POLICY NUMBER"; "COVERAGE"; "PREMIUM"; "DEDUCTIBLE"]
    [ cat [liti "insurance"; plus ws; liti "policy"];
      cat [liti "policy"; plus ws; liti "number"; sep;
           plus (Char (cls [is_word; is_digit; one "-"]))];
      cat [liti "coverage"; plus ws; liti "amount"; sep; amount];
      cat [liti "annual"; plus ws; liti "premium"; sep; amount] ]
    ["policyNumber"; "insuredName"; "coverageType"; "coverageAmount";
     "premiumAmount"; "effectiveDate"; "expirationDate"]
    "Insurance Policy"
    "Contract providing financial protection against specified risks.".

Definition initializeDocumentDatabase : M unit :=
  _ <- addDocumentPattern "Agreement of Purchase and Sale" APS_pattern ;;
  _ <- addDocumentPattern "A2 Form" A2_pattern ;;
  _ <- addDocumentPattern "L1 Form" L1_pattern ;;
  _ <- addDocumentPattern "Residential Lease" Lease_pattern ;;
  _ <- addDocumentPattern "Mortgage Document" Mortgage_pattern ;;
  addDocumentPattern "Insurance Policy" Insurance_pattern.

(** [new AIDocumentAnalyzer()] *)
Definition new : Analyzer := snd (initializeDocumentDatabase (mkAnalyzer [] [])).

(** *** classifyDocument *)

(** [indicator.toLowerCase().replace(/\s+/g, '')] *)
Definition squash (indicator : string) : string :=
  replace_all (plus ws) "" (JS.toLowerCase indicator).

(** The body of the loop over [this.documentPatterns]. *)
Definition classify_step (documentText filename : string)
    (bestMatch : Classification) (entry : string * Pattern) : Classification :=
  let pattern := snd entry in
  let '(score, totalChecks) :=
    fold_left
      (fun (st : Q * nat) (indicator : string) =>
         let '(score, totalChecks) := st in
         if JS.includes (JS.toUpperCase documentText) indicator
         then ((score + 1)%Q, S totalChecks)
         else (score, S totalChecks))
      (visualIndicators pattern) (0%Q, O) in
  let '(score, totalChecks) :=
    fold_left
      (fun (st : Q * nat) (regex : regex) =>
         let '(score, totalChecks) := st in
         if test regex documentText
         then ((score + 1)%Q, S totalChecks)
         else (score, S totalChecks))
      (textPatterns pattern) (score, totalChecks) in
  let filenameLower := JS.toLowerCase filename in
  let score :=
    if existsb (fun indicator => JS.includes filenameLower (squash indicator))
               (visualIndicators pattern)
    then (score + (1 # 2))%Q
    else score in
  let confidence :=
    if (0 <? totalChecks)%nat then (score / inject_Z (Z.of_nat totalChecks))%Q else 0%Q in
  if JS.Qlt_bool (c_confidence bestMatch) confidence
  then mkClassification (documentType pattern) (JS.Qmin confidence 1) (description pattern)
  else bestMatch.

Definition unknown_document : Classification :=
  mkClassification "Unknown Document" 0 "Unable to determine document type".

Definition classifyDocument (documentText filename : string) : M Classification :=
  patterns <- gets documentPatterns ;;
  ret (fold_left (classify_step documentText filename) patterns unknown_document).

(** *** analyzeFieldCompleteness *)

(** The table [patterns] of [getFieldPatterns]. *)
Definition letters : regex :=
  Group 1 (plus (Char (cls [range "A" "Z"; range "a" "z"; is_space]))).

Definition address_text : regex :=
  Group 1 (plus (Char (cls [range "A" "Z"; range "a" "z"; range "0" "9"; is_space;
                            one ","; one "."; one "-"]))).

Definition fieldPatterns_entries : list (string * list regex) :=
  [ ("purchasePrice", [ cat [amount; opt (cat [chr "."; times 2 digit])];
                        cat [liti "purchase"; plus ws; liti "price"; sep; amount] ]);
    ("closingDate", [ mdy; cat [liti "closing"; plus ws; liti "date"; sep; mdy] ]);
    ("buyerName", [ cat [liti "buyer"; sep; letters]; cat [liti "purchaser"; sep; letters] ]);
    ("sellerName", [ cat [liti "seller"; sep; letters]; cat [liti "vendor"; sep; letters] ]);
    ("propertyAddress", [ cat [liti "property"; plus ws; liti "address"; sep; address_text];
                          cat [liti "premises"; sep; address_text] ]);
    ("depositAmount", [ cat [liti "deposit"; sep; amount];
                        cat [liti "earnest"; plus ws; liti "money"; sep; amount] ]);
    ("monthlyRent", [ cat [liti "monthly"; plus ws; liti "rent"; sep; amount];
                      cat [liti "rent"; sep; amount] ]);
    ("landlordName", [ cat [liti "landlord"; sep; letters]; cat [liti "lessor"; sep; letters] ]);
    ("tenantName", [ cat [liti "tenant"; sep; letters]; cat [liti "lessee"; sep; letters] ]) ].

Definition fieldPatterns : gmap string (list regex) := list_to_map fieldPatterns_entries.

(** [patterns[fieldName] || [/.*/i]], for a field name outside
    [JS.inherited]; for one of those names the program gets the inherited
    member, which [analyzeFieldCompleteness] cannot iterate (it throws). *)
Definition getFieldPatterns (fieldName : string) : list regex :=
  default [star dot] (fieldPatterns !! fieldName).

(** The inner loop: does one of the field's patterns match? *)
Definition field_found (documentText field : string) : bool :=
  existsb (fun fieldPattern => test fieldPattern documentText) (getFieldPatterns field).

(** One turn of the loop over [pattern.requiredFields]; the state is
    [(presentFields, missingFields)]. *)
Definition completeness_step (documentText : string)
    (st : list string * list string) (field : string) : list string * list string :=
  let '(presentFields, missingFields) := st in
  if field_found documentText field
  then ((presentFields ++ [field])%list, missingFields)
  else (presentFields, (missingFields ++ [field])%list).

(** The chain of comparisons on the unrounded [score]. *)
Definition completeness_status (score : Q) : string :=
  if JS.Qlt_bool score 50 then "Incomplete"
  else if JS.Qlt_bool score 80 then "Partially Complete"
  else if JS.Qlt_bool score 100 then "Mostly Complete"
  else "Complete".

Definition analyzeFieldCompleteness (documentText documentType' : string) : M FieldStatus :=
  patterns <- gets documentPatterns ;;
  match find (fun p => String.eqb (documentType p) documentType') (map snd patterns) with
  | None => ret (mkFieldStatus (mkCompleteness 0 "Unknown Document Type" [] []))
  | Some pattern =>
      let '(presentFields, missingFields) :=
        fold_left (completeness_step documentText) (requiredFields pattern) ([], []) in
      let score :=
        (inject_Z (Z.of_nat (List.length presentFields))
         / inject_Z (Z.of_nat (List.length (requiredFields pattern))) * 100)%Q in
      ret (mkFieldStatus
             (mkCompleteness (JS.Math_round score) (completeness_status score)
                             missingFields presentFields))
  end.

(** *** analyzeValidity *)

Definition isDocumentExpired (host : Host) (documentText : string) : bool :=
  let dates := match_all mdy documentText in
  existsb
    (fun dateStr =>
       match Date_parse host dateStr with
       | Some date => (date <? Date_now host)%Z
       | None => false
       end)
    dates.

Definition hasMissingSignatures (documentText : string) : bool :=
  negb (existsb (fun pattern => test pattern documentText)
                [liti "signature"; liti "signed"; liti "witness"]).

Definition hasIncompleteSections (documentText : string) : bool :=
  existsb (fun pattern => test pattern documentText)
          [ cat [chr "["; lazy_star dot; chr "]"];
            cat [lit "__"; plus (chr "_")];
            liti "to be completed";
            liti "tbd" ].

Definition analyzeValidity (host : Host) (documentText documentType' : string) : M Validity :=
  let issues := [] in
  let warnings := [] in
  let score := 100%Z in
  let '(issues, score) :=
    if isDocumentExpired host documentText
    then ((issues ++ ["Document appears to be expired"])%list, (score - 30)%Z)
    else (issues, score) in
  let '(issues, score) :=
    if hasMissingSignatures documentText
    then ((issues ++ ["Required signatures may be missing"])%list, (score - 20)%Z)
    else (issues, score) in
  let '(warnings, score) :=
    if hasIncompleteSections documentText
    then ((warnings ++ ["Some sections appear incomplete"])%list, (score - 10)%Z)
    else (warnings, score) in
  let status :=
    if (0 <? List.length issues)%nat then "Invalid"
    else if (0 <? List.length warnings)%nat then "Valid with Warnings"
    else "Valid" in
  ret (mkValidity status issues warnings (Z.max 0 score)).

(** *** learnFromAnalysis *)

(** [history.slice(-n)] *)
Definition last_n {A} (n : nat) (l : list A) : list A :=
  skipn (List.length l - n) l.

Definition learnFromAnalysis (filename : string) (classification : Classification)
    (completeness : FieldStatus) (validity : Validity) (timestamp : string) : M unit :=
  modify (fun this =>
    let history :=
      (learningHistory this
         ++ [mkEntry filename classification completeness validity timestamp])%list in
    mkAnalyzer (documentPatterns this)
               (if (1000 <? List.length history)%nat then last_n 1000 history else history)).

End AI.

(** ** simple-server.js: the validity checker of class DocumentAnalyzer *)

Module SimpleServer.
Import RegExp.

Record ValidityRules : Type := mkRules {
  maxAge : Z;
  requiredSignatures : list string;
  minDepositPercent : option Z;
  minLeaseTerm : option Z;
  validFormNumbers : option (list string);
  minBalance : option Z;
  validTaxYears : option (list Z)
}.

Record DocConfig : Type := mkConfig {
  requiredFields : list string;
  optionalFields : list string;
  validityRules : ValidityRules
}.

Definition APS : string := "Agreement of Purchase and Sale (APS)".
Definition LTB : string := "Landlord and Tenant Board Form".

Definition APS_config : DocConfig :=
  mkConfig
    ["purchasePrice"; "closingDate"; "buyerName"; "sellerName"; "propertyAddress"; "depositAmount"]
    ["irrevocableDate"; "scheduleA"; "financingCondition"; "inspectionCondition"]
    (mkRules 365 ["buyer"; "seller"] (Some 5%Z) None None None None).

Definition Lease_config : DocConfig :=
  mkConfig
    ["rentAmount"; "leaseStartDate"; "leaseEndDate"; "tenantName"; "landlordName"; "propertyAddress"]
    ["securityDeposit"; "utilities"; "pets"; "maintenance"]
    (mkRules 365 ["tenant"; "landlord"] None (Some 30%Z) None None None).

Definition LTB_config : DocConfig :=
  mkConfig
    ["formNumber"; "tenantName"; "landlordName"; "propertyAddress"; "issueDate"]
    ["hearingDate"; "reason"; "amount"]
    (mkRules 30 ["applicant"] None None
       (Some ["N1"; "N2"; "N3"; "N4"; "N5"; "N6"; "N7"; "N8"; "N9"; "N10"; "N11"; "N12";
              "N13"; "N14"; "T1"; "T2"; "T3"; "T4"; "T5"; "T6"; "T7"])
       None None).

Definition MortgageStatement_config : DocConfig :=
  mkConfig
    ["accountNumber"; "statementDate"; "principalBalance"; "interestRate"; "paymentAmount"]
    ["maturityDate"; "propertyAddress"; "lenderName"]
    (mkRules 90 [] None None None (Some 0%Z) None).

Definition NoticeOfAssessment_config : DocConfig :=
  mkConfig
    ["taxYear"; "assessmentDate"; "totalIncome"; "taxOwed"; "refundAmount"]
    ["sin"; "filingDate"]
    (mkRules 1095 [] None None None None (Some [2021; 2022; 2023; 2024]%Z)).

Definition documentTypes_entries : list (string * DocConfig) :=
  [ (APS, APS_config);
    ("Residential Lease Agreement", Lease_config);
    (LTB, LTB_config);
    ("Mortgage Statement", MortgageStatement_config);
    ("Notice of Assessment (CRA)", NoticeOfAssessment_config) ].

Definition documentTypes : gmap string DocConfig := list_to_map documentTypes_entries.

Definition docConfig (documentType : string) : DocConfig :=
  default APS_config (documentTypes !! documentType).

(** [n || d] on numbers: 0 is falsy. *)
Definition Z_or (n : option Z) (d : Z) : Z :=
  match n with
  | Some z => if (z =? 0)%Z then d else z
  | None => d
  end.

(** The clock and the date parser of the host, as time values in
    milliseconds; [Date_parse s = None] when [new Date(s)] is invalid. *)
Record Host : Type := mkHost {
  Date_now : Z;
  Date_parse : string -> option Z
}.

Record ExpiryInfo : Type := mkExpiry {
  isExpired : bool;
  expiryDate : option string;
  daysUntilExpiry : option Z;
  ageInDays : option Z
}.

Record SignatureCheck : Type := mkSigCheck {
  sc_required : list string;
  sc_present : list string;
  sc_missing : list string;
  sc_valid : bool
}.

Record FieldValidation : Type := mkFieldValidation {
  fv_valid : bool;
  fv_errors : list string
}.

(** [validityCheck]; a number that is [NaN] or [null] is [None]. *)
Record ValidityCheck : Type := mkValidity {
  status : string;
  score : Z;
  issues : list string;
  warnings : list string;
  expiryInfo : ExpiryInfo;
  signatureCheck : SignatureCheck;
  fieldValidation : FieldValidation
}.

(** Assignments to the members of [validityCheck]. *)
Definition set_status (x : string) (v : ValidityCheck) : ValidityCheck :=
  mkValidity x (score v) (issues v) (warnings v) (expiryInfo v) (signatureCheck v)
             (fieldValidation v).

Definition sub_score (n : Z) (v : ValidityCheck) : ValidityCheck :=
  mkValidity (status v) (score v - n) (issues v) (warnings v) (expiryInfo v)
             (signatureCheck v) (fieldValidation v).

Definition push_issue (x : string) (v : ValidityCheck) : ValidityCheck :=
  mkValidity (status v) (score v) (issues v ++ [x]) (warnings v) (expiryInfo v)
             (signatureCheck v) (fieldValidation v).

Definition push_warning (x : string) (v : ValidityCheck) : ValidityCheck :=
  mkValidity (status v) (score v) (issues v) (warnings v ++ [x]) (expiryInfo v)
             (signatureCheck v) (fieldValidation v).

Definition set_expiryInfo (x : ExpiryInfo) (v : ValidityCheck) : ValidityCheck :=
  mkValidity (status v) (score v) (issues v) (warnings v) x (signatureCheck v)
             (fieldValidation v).

Definition set_signatureCheck (x : SignatureCheck) (v : ValidityCheck) : ValidityCheck :=
  mkValidity (status v) (score v) (issues v) (warnings v) (expiryInfo v) x
             (fieldValidation v).

(** *** Helper methods *)

(** [[:\s]*] and [[\d\/\-]+] *)
Definition colon_space : regex := star (Char (cls [one ":"; is_space])).
Definition date_chars : regex := plus (Char (cls [is_digit; one "/"; one "-"])).
Definition amount_chars : regex := plus (Char (cls [is_digit; one ","])).

(** The table [patterns] of [extractDate]. *)
Definition datePatterns_entries : list (string * RegExpObj) :=
  [ ("issueDate",
     mkRegExp (cat [Group 1 (alt [cat [liti "issue"; star ws; liti "date"]; liti "dated"]);
                    colon_space; Group 2 date_chars]) false);
    ("closingDate",
     mkRegExp (cat [Group 1 (alt [cat [liti "closing"; star ws; liti "date"];
                                  cat [liti "closes"; star ws; liti "on"]]);
                    colon_space; Group 2 date_chars]) false);
    ("date",
     mkRegExp (Group 1 (alt [cat [one_or_two digit; chr "/"; one_or_two digit; chr "/";
                                  times 4 digit];
                             cat [times 4 digit; chr "-"; times 2 digit; chr "-";
                                  times 2 digit]])) true) ].

Definition datePatterns : gmap string RegExpObj := list_to_map datePatterns_entries.

(** [extractDate(text, fieldName)], for a key outside [JS.inherited]; the
    program calls it with 'issueDate', 'date' and 'created'. *)
Definition extractDate (text fieldName : string) : option string :=
  match JS.or_obj (datePatterns !! fieldName) (datePatterns !! "date") with
  | None => None
  | Some pattern =>
      match String_match pattern text with
      | Some match' => JS.or (at_index match' 2) (at_index match' 1)
      | None => None
      end
  end.

(** The table [patterns] of [extractAmount]. *)
Definition amountPatterns_entries : list (string * RegExpObj) :=
  [ ("deposit", mkRegExp (cat [liti "deposit"; colon_space; opt (chr "$");
                               Group 1 amount_chars]) false);
    ("purchasePrice", mkRegExp (cat [chr "$"; Group 1 amount_chars]) false);
    ("rent", mkRegExp (cat [liti "rent"; colon_space; opt (chr "$");
                            Group 1 amount_chars]) false) ].

Definition amountPatterns : gmap string RegExpObj := list_to_map amountPatterns_entries.

(** [parseFloat] on a text of digits: [None] is [NaN]. *)
Fixpoint digits_value (acc : Z) (s : string) : Z :=
  match s with
  | EmptyString => acc
  | String a s' => digits_value (10 * acc + Z.of_nat (nat_of_ascii a - 48)) s'
  end.

Definition parseFloat_digits (s : string) : option Z :=
  match s with
  | EmptyString => None
  | _ => Some (digits_value 0 s)
  end.

(** [null] and [NaN] are both [None]. *)
Definition extractAmount (text fieldName : string) : option Z :=
  match amountPatterns !! fieldName with
  | None => None
  | Some pattern =>
      match String_match pattern text with
      | Some match' =>
          match at_index match' 1 with
          | Some m1 => parseFloat_digits (replace_all (chr ",") "" m1)
          | None => None
          end
      | None => None
      end
  end.

Definition formNumber_re : RegExpObj :=
  mkRegExp
    (alt [cat [liti "form"; star ws; Group 1 (cat [Char (cls [onei "n"; onei "t"]); plus digit])];
          cat [Bol; Group 2 (cat [Char (cls [onei "n"; onei "t"]); plus digit])]])
    false.

Definition extractFormNumber (text : string) : option string :=
  match String_match formNumber_re text with
  | Some match' =>
      option_map JS.toUpperCase (JS.or (at_index match' 1) (at_index match' 2))
  | None => None
  end.

Definition signaturePatterns : gmap string regex := FunctionApp.signaturePatterns.

Definition checkSignature (text signatureType : string) : bool :=
  match signaturePatterns !! JS.toLowerCase signatureType with
  | Some pattern => test pattern text
  | None => false
  end.

(** [x.toFixed(1)] for a rational [0 <= x] below 10^21 *)
Definition toFixed1 (x : Q) : string :=
  let n := Qfloor (x * 10 + (1 # 2))%Q in
  JS.string_of_Z (n / 10) ++ "." ++ JS.string_of_Z (n mod 10).

(** *** Function 3: validity *)

(** "Check document age/expiry" *)
Definition check_age (host : Host) (documentText : string) (validityRules : ValidityRules)
    (v : ValidityCheck) : ValidityCheck :=
  let issueDate :=
    JS.or (JS.or (extractDate documentText "issueDate") (extractDate documentText "date"))
          (extractDate documentText "created") in
  let maxAge' := Z_or (Some (maxAge validityRules)) 365 in
  match issueDate with
  | Some d =>
      if JS.truthy issueDate then
        let ageInDays :=
          option_map (fun t => ((Date_now host - t) / (1000 * 60 * 60 * 24))%Z)
                     (Date_parse host d) in
        let v :=
          set_expiryInfo
            (mkExpiry (isExpired (expiryInfo v)) (expiryDate (expiryInfo v))
                      (option_map (fun a => (maxAge' - a)%Z) ageInDays) ageInDays) v in
        match ageInDays with
        | Some age =>
            if (maxAge' <? age)%Z then
              let v := set_status "Expired" v in
              let v :=
                set_expiryInfo
                  (mkExpiry true (expiryDate (expiryInfo v)) (daysUntilExpiry (expiryInfo v))
                            (ageInDays)) v in
              let v :=
                push_issue ("Document is " ++ JS.string_of_Z age
                              ++ " days old, exceeds maximum age of "
                              ++ JS.string_of_Z maxAge' ++ " days") v in
              sub_score 30 v
            else if JS.Qlt_bool (inject_Z maxAge' * (8 # 10))%Q (inject_Z age) then
              let v :=
                push_warning ("Document is " ++ JS.string_of_Z age
                                ++ " days old, approaching expiry") v in
              sub_score 10 v
            else v
        | None => v
        end
      else
        sub_score 5 (push_warning "No issue date found, cannot determine document age" v)
  | None =>
      sub_score 5 (push_warning "No issue date found, cannot determine document age" v)
  end.

(** One turn of the loop "Check signatures". *)
Definition signature_step (documentText : string) (v : ValidityCheck) (requiredSig : string)
    : ValidityCheck :=
  let sc := signatureCheck v in
  let hasSignature := checkSignature documentText requiredSig in
  if hasSignature then
    set_signatureCheck
      (mkSigCheck (sc_required sc) (sc_present sc ++ [requiredSig]) (sc_missing sc)
                  (sc_valid sc)) v
  else
    let v :=
      set_signatureCheck
        (mkSigCheck (sc_required sc) (sc_present sc) (sc_missing sc ++ [requiredSig]) false) v in
    let v := push_issue ("Missing required signature: " ++ requiredSig) v in
    sub_score 20 v.

Definition check_signatures (documentText : string) (validityRules : ValidityRules)
    (v : ValidityCheck) : ValidityCheck :=
  fold_left (signature_step documentText) (requiredSignatures validityRules) v.

(** "Check specific field validations" *)
Definition check_deposit (documentText documentType : string) (validityRules : ValidityRules)
    (v : ValidityCheck) : ValidityCheck :=
  if String.eqb documentType APS then
    let depositAmount := extractAmount documentText "deposit" in
    let purchasePrice := extractAmount documentText "purchasePrice" in
    match depositAmount, purchasePrice with
    | Some d, Some p =>
        if negb (d =? 0)%Z && negb (p =? 0)%Z then
          let depositPercent := (inject_Z d / inject_Z p * 100)%Q in
          let minimum := Z_or (minDepositPercent validityRules) 5 in
          if JS.Qlt_bool depositPercent (inject_Z minimum) then
            let v :=
              push_issue ("Deposit amount (" ++ toFixed1 depositPercent
                            ++ "%) is below minimum required ("
                            ++ JS.string_of_Z minimum ++ "%)") v in
            sub_score 15 v
          else v
        else v
    | _, _ => v
    end
  else v.

(** "Check form numbers for LTB forms" *)
Definition check_form_number (documentText documentType : string)
    (validityRules : ValidityRules) (v : ValidityCheck) : ValidityCheck :=
  if String.eqb documentType LTB then
    match extractFormNumber documentText, validFormNumbers validityRules with
    | Some formNumber, Some valid =>
        if JS.truthy (Some formNumber) then
          if negb (existsb (String.eqb formNumber) valid) then
            sub_score 25 (push_issue ("Invalid form number: " ++ formNumber) v)
          else v
        else v
    | _, _ => v
    end
  else v.

(** "Determine final status" *)
Definition final_status (v : ValidityCheck) : ValidityCheck :=
  if (score v <? 50)%Z then set_status "Invalid" v
  else if (score v <? 80)%Z then set_status "Potentially Invalid" v
  else if (0 <? List.length (issues v))%nat then set_status "Valid with Issues" v
  else v.

Definition checkDocumentValidity (host : Host) (documentText documentType : string)
    : ValidityCheck :=
  let docConfig := docConfig documentType in
  let validityRules := validityRules docConfig in
  let v :=
    mkValidity "Valid" 100 [] []
      (mkExpiry false None None None)
      (mkSigCheck (requiredSignatures validityRules) [] [] true)
      (mkFieldValidation true []) in
  let v := check_age host documentText validityRules v in
  let v := check_signatures documentText validityRules v in
  let v := check_deposit documentText documentType validityRules v in
  let v := check_form_number documentText documentType validityRules v in
  final_status v.

End SimpleServer.

(** ** The ML plugins: class DocumentClassifier *)

Module MLPlugins.

Record Model : Type := mkModel {
  keywords : list string;
  patterns : list string;
  m_confidence : Q
}.

(** [this.models], iterated by [Object.entries] in insertion order *)
Definition models : list (string * Model) :=
  [ ("Agreement of Purchase and Sale (APS)",
     mkModel ["purchase"; "sale"; "buyer"; "seller"; "closing"; "property"; "price"]
             ["agreement of purchase"; "purchase and sale"; "real estate"]
             (9 # 10));
    ("Residential Lease Agreement",
     mkModel ["lease"; "rent"; "tenant"; "landlord"; "rental"; "monthly"]
             ["lease agreement"; "rental agreement"; "tenancy"]
             (9 # 10));
    ("Landlord and Tenant Board Form",
     mkModel ["ltb"; "board"; "application"; "hearing"; "tribunal"]
             ["landlord and tenant board"; "ltb form"]
             (85 # 100)) ].

Record Match : Type := mkMatch {
  type : string;
  confidence : Q
}.

(** The sums of 0.4 and 0.1 are taken in exact arithmetic. *)
Definition calculateScore (filename : string) (model : Model) : Q :=
  let score := 0%Q in
  let score :=
    fold_left
      (fun (score : Q) (pattern : string) =>
         if JS.includes filename (JS.toLowerCase pattern) then (score + (4 # 10))%Q else score)
      (patterns model) score in
  let score :=
    fold_left
      (fun (score : Q) (keyword : string) =>
         if JS.includes filename (JS.toLowerCase keyword) then (score + (1 # 10))%Q else score)
      (keywords model) score in
  JS.Qmin score (95 # 100).

Definition analyzeFileContent (filename : string) : Match :=
  let filenameLower := JS.toLowerCase filename in
  if JS.includes filenameLower "a2" || JS.includes filenameLower "a-2"
  then mkMatch "A2 Form (Landlord and Tenant Board)" (9 # 10)
  else if JS.includes filenameLower "lease" || JS.includes filenameLower "rental"
  then mkMatch "Residential Lease Agreement" (8 # 10)
  else if JS.includes filenameLower "ltb" || JS.includes filenameLower "landlord"
          || JS.includes filenameLower "tenant"
  then mkMatch "Landlord and Tenant Board Form" (8 # 10)
  else if JS.includes filenameLower "waiver" || JS.includes filenameLower "fee"
  then mkMatch "Fee Waiver Request" (8 # 10)
  else if JS.includes filenameLower "mortgage" || JS.includes filenameLower "loan"
  then mkMatch "Mortgage Document" (8 # 10)
  else if JS.includes filenameLower "insurance" || JS.includes filenameLower "policy"
  then mkMatch "Insurance Document" (8 # 10)
  else if JS.includes filenameLower "contract" || JS.includes filenameLower "agreement"
  then mkMatch "General Contract" (6 # 10)
  else if JS.includes filenameLower "invoice" || JS.includes filenameLower "bill"
  then mkMatch "Invoice/Bill" (7 # 10)
  else if JS.includes filenameLower "receipt" || JS.includes filenameLower "payment"
  then mkMatch "Receipt/Payment" (7 # 10)
  else if JS.includes filenameLower "statement" || JS.includes filenameLower "account"
  then mkMatch "Financial Statement" (7 # 10)
  else if JS.includes filenameLower "report" || JS.includes filenameLower "analysis"
  then mkMatch "Report/Analysis" (6 # 10)
  else if JS.includes filenameLower "letter" || JS.includes filenameLower "correspondence"
  then mkMatch "Letter/Correspondence" (6 # 10)
  else if JS.includes filenameLower "form" || JS.includes filenameLower "application"
  then mkMatch "Form/Application" (6 # 10)
  else mkMatch "Unknown Document" (2 # 10).

(** [classify(file, filename)]; the file itself is never read. *)
Definition classify (filename : string) : Match :=
  let filenameLower := JS.toLowerCase filename in
  let bestMatch := mkMatch "Unknown Document" (3 # 10) in
  let bestMatch :=
    fold_left
      (fun (bestMatch : Match) (entry : string * Model) =>
         let '(docType, model) := entry in
         let score := calculateScore filenameLower model in
         if JS.Qlt_bool (confidence bestMatch) score
         then mkMatch docType score
         else bestMatch)
      models bestMatch in
  let bestMatch :=
    if JS.Qlt_bool (confidence bestMatch) (6 # 10) then
      let contentAnalysis := analyzeFileContent filename in
      if JS.Qlt_bool (confidence bestMatch) (confidence contentAnalysis)
      then contentAnalysis
      else bestMatch
    else bestMatch in
  if JS.Qlt_bool (confidence bestMatch) (4 # 10)
  then mkMatch "General Legal Document" (3 # 10)
  else bestMatch.

End MLPlugins.

(** ** The chat system: class EnhancedChatSystem

    The members of the analysis result are texts; a member that is
    absent, [undefined] or [null] is [None]. *)

Module Chat.

Record Completeness : Type := mkCompleteness {
  score : option Z;
  status : option string;
  presentRequired : option (list string);
  missingRequired : option (list string)
}.

Record Validity : Type := mkValidity {
  v_status : option string;
  v_score : option Z;
  v_issues : option (list string);
  v_warnings : option (list string)
}.

Record FieldCompleteness : Type := mkFieldCompleteness {
  fc_completeness : option Completeness
}.

(** [documentData], the analysis result *)
Record DocumentData : Type := mkDocumentData {
  documentType : option string;
  classificationConfidence : option Q;
  fieldCompleteness : option FieldCompleteness;
  validityCheck : option Validity;
  jurisdiction : option string;
  issueDate : option string;
  expiryDate : option string;
  purchasePrice : option string;
  closingDate : option string;
  buyerName : option string;
  sellerName : option string;
  propertyAddress : option string;
  depositAmount : option string
}.

Record Context : Type := mkContext {
  c_documentType : string;
  c_confidence : Q;
  c_completeness : Completeness;
  c_validity : Validity;
  c_jurisdiction : string;
  keyFields : gmap string string;
  c_issues : list string;
  c_warnings : list string
}.

(** [if (documentData?.name) fields.name = documentData.name] *)
Definition copy_field (name : string) (value : option string) (fields : gmap string string)
    : gmap string string :=
  match value with
  | Some v => if JS.truthy value then <[name := v]> fields else fields
  | None => fields
  end.

Definition extractKeyFields (documentData : option DocumentData) : gmap string string :=
  let member {A} (f : DocumentData -> option A) : option A := JS.member documentData f in
  let fields : gmap string string := ∅ in
  let fields := copy_field "issueDate" (member issueDate) fields in
  let fields := copy_field "expiryDate" (member expiryDate) fields in
  let fields := copy_field "jurisdiction" (member jurisdiction) fields in
  let fields := copy_field "purchasePrice" (member purchasePrice) fields in
  let fields := copy_field "closingDate" (member closingDate) fields in
  let fields := copy_field "buyerName" (member buyerName) fields in
  let fields := copy_field "sellerName" (member sellerName) fields in
  let fields := copy_field "propertyAddress" (member propertyAddress) fields in
  let fields := copy_field "depositAmount" (member depositAmount) fields in
  fields.

Definition empty_object : Completeness := mkCompleteness None None None None.
Definition empty_validity : Validity := mkValidity None None None None.

Definition Q_or (x : option Q) (d : Q) : Q :=
  match x with
  | Some q => if Qeq_bool q 0 then d else q
  | None => d
  end.

Definition extractDocumentContext (documentData : option DocumentData) : Context :=
  mkContext
    (default "Unknown" (JS.or (JS.member documentData documentType) (Some "Unknown")))
    (Q_or (JS.member documentData classificationConfidence) 0)
    (default empty_object (JS.member (JS.member documentData fieldCompleteness) fc_completeness))
    (default empty_validity (JS.member documentData validityCheck))
    (default "Unknown" (JS.or (JS.member documentData jurisdiction) (Some "Unknown")))
    (extractKeyFields documentData)
    (default [] (JS.member (JS.member documentData validityCheck) v_issues))
    (default [] (JS.member (JS.member documentData validityCheck) v_warnings)).

Definition classifyQuestion (question : string) : string :=
  let q := JS.toLowerCase question in
  if JS.includes q "what" && (JS.includes q "document" || JS.includes q "for")
  then "document_purpose"
  else if JS.includes q "missing" || JS.includes q "incomplete" || JS.includes q "complete"
  then "completeness"
  else if JS.includes q "valid" || JS.includes q "validity" || JS.includes q "ready"
  then "validity"
  else if JS.includes q "price" || JS.includes q "cost" || JS.includes q "amount"
  then "financial"
  else if JS.includes q "date" || JS.includes q "when" || JS.includes q "time"
  then "temporal"
  else if JS.includes q "who" || JS.includes q "party" || JS.includes q "person"
  then "parties"
  else if JS.includes q "where" || JS.includes q "address" || JS.includes q "location"
  then "location"
  else if JS.includes q "how" || JS.includes q "process" || JS.includes q "step"
  then "process"
  else "general".

(** The rendering of a member in a template literal. *)
Definition show_Z (x : option Z) : string :=
  match x with
  | Some z => JS.string_of_Z z
  | None => "undefined"
  end.

Definition show (x : option string) : string := default "undefined" x.

(** [list.forEach(item => { response += `<bullet> ${item}\n` })] *)
Definition bullets (response : string) (items : list string) : string :=
  fold_left (fun response item => response ++ "â€¢ " ++ item ++ JS.nl) items response.

Definition nonempty (l : option (list string)) : bool :=
  match l with
  | Some (_ :: _) => true
  | _ => false
  end.

Definition ge_score (x : option Z) (n : Z) : bool :=
  match x with
  | Some z => (n <=? z)%Z
  | None => false
  end.

Definition generateDocumentPurposeResponse (context : Context) : string :=
  let docType := c_documentType context in
  let response := "## Document Purpose" ++ JS.nl ++ JS.nl in
  if JS.includes docType "Agreement of Purchase and Sale" || JS.includes docType "APS" then
    let response := response ++ "This is an **Agreement of Purchase and Sale (APS)** - the foundational document for any real estate transaction. " in
    let response := response ++ "It outlines the key terms and conditions that both the buyer and seller must agree to, including:" ++ JS.nl ++ JS.nl in
    let response := response ++ "â€¢ **Purchase Price**: The agreed-upon price for the property" ++ JS.nl in
    let response := response ++ "â€¢ **Closing Date**: When the transaction will be completed" ++ JS.nl in
    let response := response ++ "â€¢ **Parties**: Buyer and seller information" ++ JS.nl in
    let response := response ++ "â€¢ **Property Details**: Address and description" ++ JS.nl in
    let response := response ++ "â€¢ **Conditions**: Any conditions that must be met" ++ JS.nl ++ JS.nl in
    response ++ "Once signed by both parties, this document becomes legally binding and forms the basis for the entire real estate transaction."
  else if JS.includes docType "Lease" then
    let response := response ++ "This is a **Residential Lease Agreement** that establishes the terms between a landlord and tenant. " in
    response ++ "It covers rent amount, lease duration, responsibilities, and other important terms for the rental relationship."
  else if JS.includes docType "Fee Waiver" then
    let response := response ++ "This is a **Fee Waiver Request** - a document used to request exemption from court or administrative fees. " in
    response ++ "It typically requires demonstrating financial hardship and providing supporting documentation."
  else
    let response := response ++ "This is a **" ++ docType ++ "** document. Based on the analysis, it appears to be a legal document " in
    let response := response ++ "with " ++ show_Z (score (c_completeness context)) ++ "% completeness. " in
    response ++ "I can help you understand its specific purpose and requirements.".

Definition generateCompletenessResponse (context : Context) : string :=
  let completeness := c_completeness context in
  let response := "## Document Completeness Analysis" ++ JS.nl ++ JS.nl in
  let response := response ++ "Your document is **" ++ show_Z (score completeness)
                    ++ "% complete** (" ++ show (status completeness) ++ ")." ++ JS.nl ++ JS.nl in
  let response :=
    if nonempty (presentRequired completeness) then
      let response := response ++ "**âœ… Present Fields:**" ++ JS.nl in
      bullets response (default [] (presentRequired completeness)) ++ JS.nl
    else response in
  let response :=
    if nonempty (missingRequired completeness) then
      let response := response ++ "**âŒ Missing Required Fields:**" ++ JS.nl in
      bullets response (default [] (missingRequired completeness)) ++ JS.nl
    else response in
  let response :=
    if (0 <? List.length (c_issues context))%nat then
      let response := response ++ "**ðŸš¨ Critical Issues:**" ++ JS.nl in
      bullets response (c_issues context) ++ JS.nl
    else response in
  let response :=
    if (0 <? List.length (c_warnings context))%nat then
      let response := response ++ "**âš ï¸ Warnings:**" ++ JS.nl in
      bullets response (c_warnings context) ++ JS.nl
    else response in
  if ge_score (score completeness) 90 then
    response ++ "**Great news!** Your document appears to be nearly complete and ready for use."
  else if ge_score (score completeness) 70 then
    response ++ "**Good progress!** Your document is mostly complete but needs a few more fields filled in."
  else
    response ++ "**Needs attention!** Your document is missing several important fields that should be completed.".

Definition is_empty_list (l : option (list string)) : bool :=
  match l with
  | Some [] => true
  | _ => false
  end.

Definition generateValidityResponse (context : Context) : string :=
  let validity := c_validity context in
  let response := "## Document Validity Assessment" ++ JS.nl ++ JS.nl in
  let response := response ++ "**Status**: " ++ show (v_status validity) ++ JS.nl in
  let response := response ++ "**Score**: " ++ show_Z (v_score validity) ++ "%" ++ JS.nl ++ JS.nl in
  if is_empty_list (v_issues validity) && is_empty_list (v_warnings validity) then
    let response := response ++ "âœ… **Excellent!** Your document appears to be valid with no issues or warnings. " in
    response ++ "It should be ready for the next steps in your process."
  else
    let response :=
      if nonempty (v_issues validity) then
        let response := response ++ "ðŸš¨ **Critical Issues Found:**" ++ JS.nl in
        bullets response (default [] (v_issues validity)) ++ JS.nl
      else response in
    let response :=
      if nonempty (v_warnings validity) then
        let response := response ++ "âš ï¸ **Warnings:**" ++ JS.nl in
        bullets response (default [] (v_warnings validity)) ++ JS.nl
      else response in
    response ++ "**Recommendation**: Address the issues above before proceeding with this document.".

(** [if (fields.name) response += `**label**: ${fields.name}` + ending] *)
Definition field_line (fields : gmap string string) (name label ending : string)
    (response : string) : string :=
  match fields !! name with
  | Some v => if JS.truthy (Some v) then response ++ "**" ++ label ++ "**: " ++ v ++ ending
              else response
  | None => response
  end.

Definition has_field (fields : gmap string string) (name : string) : bool :=
  JS.truthy (fields !! name).

Definition generateFinancialResponse (context : Context) : string :=
  let fields := keyFields context in
  let response := "## Financial Information" ++ JS.nl ++ JS.nl in
  let response := field_line fields "purchasePrice" "Purchase Price" (JS.nl ++ JS.nl) response in
  let response := field_line fields "depositAmount" "Deposit Amount" (JS.nl ++ JS.nl) response in
  let response := field_line fields "rentAmount" "Rent Amount" (JS.nl ++ JS.nl) response in
  if negb (has_field fields "purchasePrice") && negb (has_field fields "depositAmount")
     && negb (has_field fields "rentAmount") then
    let response := response ++ "I don't see any financial information in this document. " in
    let response := response ++ "This might be because the document type doesn't typically contain financial details, " in
    response ++ "or the information wasn't extracted properly."
  else response.

Definition generateTemporalResponse (context : Context) : string :=
  let fields := keyFields context in
  let response := "## Important Dates" ++ JS.nl ++ JS.nl in
  let response := field_line fields "issueDate" "Issue Date" JS.nl response in
  let response := field_line fields "expiryDate" "Expiry Date" JS.nl response in
  let response := field_line fields "closingDate" "Closing Date" JS.nl response in
  let response := field_line fields "leaseStartDate" "Lease Start Date" JS.nl response in
  let response := field_line fields "leaseEndDate" "Lease End Date" JS.nl response in
  if negb (has_field fields "issueDate") && negb (has_field fields "expiryDate")
     && negb (has_field fields "closingDate") then
    let response := response ++ "I don't see any specific dates in this document. " in
    let response := response ++ "This might be because the document type doesn't typically contain date information, " in
    response ++ "or the dates weren't extracted properly."
  else response.

Definition generatePartiesResponse (context : Context) : string :=
  let fields := keyFields context in
  let response := "## Parties Involved" ++ JS.nl ++ JS.nl in
  let response := field_line fields "buyerName" "Buyer" JS.nl response in
  let response := field_line fields "sellerName" "Seller" JS.nl response in
  let response := field_line fields "tenantName" "Tenant" JS.nl response in
  let response := field_line fields "landlordName" "Landlord" JS.nl response in
  let response := field_line fields "applicantName" "Applicant" JS.nl response in
  if negb (has_field fields "buyerName") && negb (has_field fields "sellerName")
     && negb (has_field fields "tenantName") && negb (has_field fields "landlordName") then
    let response := response ++ "I don't see any party information in this document. " in
    let response := response ++ "This might be because the document type doesn't typically contain party details, " in
    response ++ "or the information wasn't extracted properly."
  else response.

Definition generateLocationResponse (context : Context) : string :=
  let fields := keyFields context in
  let response := "## Property Information" ++ JS.nl ++ JS.nl in
  let response := field_line fields "propertyAddress" "Property Address" JS.nl response in
  if negb (has_field fields "propertyAddress") then
    let response := response ++ "I don't see any property address information in this document. " in
    let response := response ++ "This might be because the document type doesn't typically contain location details, " in
    response ++ "or the information wasn't extracted properly."
  else response.

Definition generateProcessResponse (context : Context) : string :=
  let docType := c_documentType context in
  let response := "## Next Steps" ++ JS.nl ++ JS.nl in
  if JS.includes docType "Agreement of Purchase and Sale" || JS.includes docType "APS" then
    let response := response ++ "For an **Agreement of Purchase and Sale**, here are the typical next steps:" ++ JS.nl ++ JS.nl in
    let response := response ++ "1. **Review all conditions** in Schedule A" ++ JS.nl in
    let response := response ++ "2. **Ensure all parties sign** the document" ++ JS.nl in
    let response := response ++ "3. **Submit to lawyer** for legal review" ++ JS.nl in
    let response := response ++ "4. **Meet all conditions** before closing date" ++ JS.nl in
    let response := response ++ "5. **Prepare for closing** with all required documents" ++ JS.nl ++ JS.nl in
    response ++ "**Important**: This document becomes legally binding once signed by both parties."
  else if JS.includes docType "Lease" then
    let response := response ++ "For a **Lease Agreement**, here are the typical next steps:" ++ JS.nl ++ JS.nl in
    let response := response ++ "1. **Review all terms** carefully" ++ JS.nl in
    let response := response ++ "2. **Ensure both parties sign** the agreement" ++ JS.nl in
    let response := response ++ "3. **Collect security deposit** if required" ++ JS.nl in
    let response := response ++ "4. **Provide keys** on move-in date" ++ JS.nl in
    let response := response ++ "5. **Set up utilities** in tenant's name" ++ JS.nl ++ JS.nl in
    response ++ "**Important**: Both parties should keep a signed copy of the lease."
  else
    let response := response ++ "For this **" ++ docType ++ "**, I recommend:" ++ JS.nl ++ JS.nl in
    let response := response ++ "1. **Review the document** for completeness" ++ JS.nl in
    let response := response ++ "2. **Address any missing fields** identified in the analysis" ++ JS.nl in
    let response := response ++ "3. **Consult with a professional** if needed" ++ JS.nl in
    let response := response ++ "4. **Submit according to requirements**" ++ JS.nl ++ JS.nl in
    response ++ "**Note**: The specific process may vary depending on the document type and jurisdiction.".

Definition generateGeneralResponse (question : string) (context : Context) : string :=
  let response := "## Answer to Your Question" ++ JS.nl ++ JS.nl in
  let response := response ++ "I understand you're asking: " ++ JS.dquote ++ question
                    ++ JS.dquote ++ JS.nl ++ JS.nl in
  let response := response ++ "Based on your **" ++ c_documentType context
                    ++ "** document, I can help you with:" ++ JS.nl ++ JS.nl in
  let response := response ++ "â€¢ **Document purpose** and what it's used for" ++ JS.nl in
  let response := response ++ "â€¢ **Missing information** that needs to be filled in" ++ JS.nl in
  let response := response ++ "â€¢ **Validity status** and any issues found" ++ JS.nl in
  let response := response ++ "â€¢ **Specific details** like dates, amounts, or parties" ++ JS.nl in
  let response := response ++ "â€¢ **Next steps** in your process" ++ JS.nl ++ JS.nl in
  let response := response ++ "Could you be more specific about what you'd like to know? " in
  response ++ "For example, you could ask " ++ JS.dquote ++ "What is the purchase price?"
    ++ JS.dquote ++ " or " ++ JS.dquote ++ "What information is missing?" ++ JS.dquote.

(** The reply, without its [timestamp]. *)
Record Response : Type := mkResponse {
  answerMarkdown : string;
  r_confidence : Q;
  r_documentType : string;
  questionType : string
}.

Definition generateContextualResponse (question questionType : string) (context : Context)
    : Response :=
  let '(response, confidence) :=
    if String.eqb questionType "document_purpose"
    then (generateDocumentPurposeResponse context, 9 # 10)
    else if String.eqb questionType "completeness"
    then (generateCompletenessResponse context, 85 # 100)
    else if String.eqb questionType "validity"
    then (generateValidityResponse context, 8 # 10)
    else if String.eqb questionType "financial"
    then (generateFinancialResponse context, 9 # 10)
    else if String.eqb questionType "temporal"
    then (generateTemporalResponse context, 9 # 10)
    else if String.eqb questionType "parties"
    then (generatePartiesResponse context, 9 # 10)
    else if String.eqb questionType "location"
    then (generateLocationResponse context, 9 # 10)
    else if String.eqb questionType "process"
    then (generateProcessResponse context, 8 # 10)
    else (generateGeneralResponse question context, 7 # 10) in
  mkResponse response confidence (c_documentType context) questionType.

(** The value returned by [processQuestion]; the conversation log and the
    learning counters it also updates have no part in the reply. *)
Definition processQuestion (question : string) (documentData : option DocumentData) : Response :=
  let context := extractDocumentContext documentData in
  let questionType := classifyQuestion question in
  generateContextualResponse question questionType context.

End Chat.

(** ** ai-document-analyzer.js: the report built around the analysis *)

Module AIReport.
Import RegExp AI.

(** The mock texts of [extractTextFromFile], line breaks and indentation
    as in the template literals. *)
Definition aps_mock : string :=
  "AGREEMENT OF PURCHASE AND SALE
            This agreement is made between John Doe (Buyer) and Jane Smith (Seller)
            Purchase Price: $750,000
            Closing Date: 06/15/2024
            Property Address: 123 Main Street, Toronto, ON
            Deposit Amount: $37,500".

Definition a2_mock : string :=
  "APPLICATION TO INCREASE RENT
            FORM A2
            Landlord and Tenant Board
            Landlord: ABC Properties
            Tenant: John Smith
            Property Address: 456 Oak Street
            Current Rent: $2,000
            Proposed Rent: $2,200".

Definition lease_mock : string :=
  "RESIDENTIAL LEASE AGREEMENT
            Tenant: John Doe
            Landlord: Jane Smith
            Property Address: 789 Pine Street
            Monthly Rent: $2,500
            Lease Term: 12 months
            Security Deposit: $2,500".

(** [extractTextFromFile(file)], given [file.name]. *)
Definition extractTextFromFile (name : string) : string :=
  let filename := JS.toLowerCase name in
  if JS.includes filename "aps" || JS.includes filename "purchase" then aps_mock
  else if JS.includes filename "a2" then a2_mock
  else if JS.includes filename "lease" then lease_mock
  else "Document content not available".

Definition detectJurisdiction (documentText : string) : string :=
  if JS.includes documentText "Ontario" || JS.includes documentText "ON" then "Ontario"
  else if JS.includes documentText "British Columbia" || JS.includes documentText "BC"
  then "British Columbia"
  else if JS.includes documentText "Alberta" || JS.includes documentText "AB" then "Alberta"
  else "Unknown".

(** [extractDate(documentText, type)]; the type is not looked at. *)
Definition extractDate (documentText type : string) : string :=
  match match_all mdy documentText with
  | date :: _ => date
  | [] => "N/A"
  end.

Definition determineValidityStatus (validity : Validity) : string :=
  if (0 <? List.length (issues validity))%nat then "Invalid"
  else if (0 <? List.length (warnings validity))%nat then "Valid with Issues"
  else "Valid".

Definition generateReasons (completeness : FieldStatus) (validity : Validity) : list string :=
  let reasons :=
    if (score (AI.completeness completeness) =? 100)%Z
    then ["All required fields are present and complete"]
    else ["Document completeness: "
            ++ JS.string_of_Z (score (AI.completeness completeness)) ++ "%"] in
  let reasons :=
    if (0 <? List.length (issues validity))%nat
    then (reasons ++ issues validity)%list else reasons in
  if (0 <? List.length (warnings validity))%nat
  then (reasons ++ warnings validity)%list else reasons.

Definition generateSuggestedActions (completeness : FieldStatus) (validity : Validity)
    : list string :=
  let actions : list string := [] in
  let actions :=
    if (0 <? List.length (missingRequired (AI.completeness completeness)))%nat
    then (actions ++ ["Complete missing fields: "
                        +:+ JS.join ", " (missingRequired (AI.completeness completeness))])%list
    else actions in
  let actions :=
    if (0 <? List.length (issues validity))%nat
    then (actions ++ ["Address validity issues before proceeding"])%list
    else actions in
  if (List.length actions =? 0)%nat
  then (actions ++ ["Document appears complete and valid"])%list
  else actions.

(** The uploaded file: [name] is [None] when the object has no name, in
    which case [file.name.toLowerCase()] throws. *)
Record File : Type := mkFile {
  name : option string
}.

(** What the host clock shows at the three places that read it after the
    analysis: the time of the learning entry, [Date.now()] of the
    correlation id, and the time of the report. *)
Record Stamps : Type := mkStamps {
  learned_at : string;
  correlation_ms : Z;
  reported_at : string
}.

Record Report : Type := mkReport {
  documentType : string;
  classificationConfidence : Q;
  description : string;
  fieldCompleteness : FieldStatus;
  validityCheck : Validity;
  jurisdiction : string;
  issueDate : string;
  expiryDate : string;
  validityStatus : string;
  reasons : list string;
  suggestedActions : list string;
  correlationId : string;
  timestamp : string
}.

(** [analyzeDocument(file, filename)]; [None] is the error
    "AI analysis failed: ..." thrown from the [catch] block. *)
Definition analyzeDocument (host : Host) (stamps : Stamps) (file : File) (filename : string)
    : M (option Report) :=
  match name file with
  | None => ret None
  | Some file_name =>
      let documentText := extractTextFromFile file_name in
      classification <- classifyDocument documentText filename ;;
      completeness <- analyzeFieldCompleteness documentText (c_documentType classification) ;;
      validity <- analyzeValidity host documentText (c_documentType classification) ;;
      _ <- learnFromAnalysis filename classification completeness validity (learned_at stamps) ;;
      ret (Some
             (mkReport
                (c_documentType classification)
                (c_confidence classification)
                (c_description classification)
                completeness
                validity
                (detectJurisdiction documentText)
                (extractDate documentText "issue")
                (extractDate documentText "expiry")
                (determineValidityStatus validity)
                (generateReasons completeness validity)
                (generateSuggestedActions completeness validity)
                ("ai_" ++ JS.string_of_Z (correlation_ms stamps))
                (reported_at stamps)))
  end.

End AIReport.

(** ** simple-server.js: field completeness and file-name detection of
    class DocumentAnalyzer *)

Module SimpleServerFields.
Import RegExp SimpleServer.

(** The table [patterns] of [isFieldPresent]. *)
Definition fieldPatterns_entries : list (string * regex) :=
  [ ("purchasePrice", alt [cat [chr "$"; plus (Char (cls [is_digit; one ","]))];
                           cat [liti "purchase"; star ws; liti "price"];
                           cat [liti "price"; star ws; liti "of"; star ws; liti "purchase"]]);
    ("closingDate", alt [cat [liti "closing"; star ws; liti "date"];
                         cat [liti "closing"; star ws; liti "on"];
                         cat [liti "closes"; star ws; liti "on"]]);
    ("buyerName", alt [liti "buyer"; liti "purchaser";
                       cat [liti "purchasing"; star ws; liti "party"]]);
    ("sellerName", alt [liti "seller"; liti "vendor";
                        cat [liti "selling"; star ws; liti "party"]]);
    ("propertyAddress", alt [liti "address";
                             cat [liti "property"; star ws; liti "located"];
                             cat [liti "located"; star ws; liti "at"]]);
    ("depositAmount", alt [liti "deposit";
                           cat [liti "down"; star ws; liti "payment"];
                           cat [liti "earnest"; star ws; liti "money"]]);
    ("rentAmount", alt [liti "rent";
                        cat [liti "rental"; star ws; liti "amount"];
                        cat [liti "monthly"; star ws; liti "rent"]]);
    ("leaseStartDate", alt [cat [liti "lease"; star ws; liti "start"]; liti "commencing";
                            liti "beginning"]);
    ("leaseEndDate", alt [cat [liti "lease"; star ws; liti "end"]; liti "expiring";
                          liti "terminating"]);
    ("tenantName", alt [liti "tenant"; liti "lessee";
                        cat [liti "renting"; star ws; liti "party"]]);
    ("landlordName", alt [liti "landlord"; liti "lessor";
                          cat [liti "rental"; star ws; liti "property"; star ws; liti "owner"]]);
    ("formNumber", alt [cat [lit "form"; star ws;
                             Char (cls [one "n"; one "N"; one "t"; one "T"]); plus digit];
                        cat [Bol; Char (cls [one "n"; one "N"; one "t"; one "T"]); plus digit]]);
    ("issueDate", alt [cat [liti "issue"; star ws; liti "date"]; liti "dated";
                       cat [liti "created"; star ws; liti "on"]]);
    ("statementDate", alt [cat [liti "statement"; star ws; liti "date"];
                           cat [liti "as"; star ws; liti "of"];
                           cat [liti "period"; star ws; liti "ending"]]);
    ("taxYear", alt [cat [liti "tax"; star ws; liti "year"];
                     cat [liti "year"; star ws; liti "ending"];
                     cat [liti "filing"; star ws; liti "year"]]) ].

Definition fieldPatterns : gmap string regex := list_to_map fieldPatterns_entries.

Definition isFieldPresent (text fieldName : string) : bool :=
  match fieldPatterns !! fieldName with
  | Some pattern => test pattern text
  | None => false
  end.

(** The table [patterns] of [extractFieldValue]. *)
Definition valuePatterns_entries : list (string * RegExpObj) :=
  [ ("purchasePrice", mkRegExp (cat [chr "$"; Group 1 amount_chars]) false);
    ("depositAmount", mkRegExp (cat [liti "deposit"; colon_space; opt (chr "$");
                                     Group 1 amount_chars]) false);
    ("rentAmount", mkRegExp (cat [liti "rent"; colon_space; opt (chr "$");
                                  Group 1 amount_chars]) false);
    ("formNumber", formNumber_re);
    ("issueDate",
     mkRegExp (cat [Group 1 (alt [cat [liti "issue"; star ws; liti "date"]; liti "dated"]);
                    colon_space; Group 2 date_chars]) false);
    ("closingDate",
     mkRegExp (cat [Group 1 (alt [cat [liti "closing"; star ws; liti "date"];
                                  cat [liti "closes"; star ws; liti "on"]]);
                    colon_space; Group 2 date_chars]) false) ].

Definition valuePatterns : gmap string RegExpObj := list_to_map valuePatterns_entries.

(** [match ? match[1] || match[2] : null]; [null] and [undefined] are
    [None]. *)
Definition extractFieldValue (text fieldName : string) : option string :=
  match valuePatterns !! fieldName with
  | Some pattern =>
      match String_match pattern text with
      | Some match' => JS.or (at_index match' 1) (at_index match' 2)
      | None => None
      end
  | None => None
  end.

Definition calculateFieldConfidence (text fieldName : string) : Q :=
  let isPresent := isFieldPresent text fieldName in
  if negb isPresent then 0
  else
    let value := extractFieldValue text fieldName in
    if JS.truthy value then 9 # 10 else 7 # 10.

Record FieldMatch : Type := mkFieldMatch {
  present : bool;
  value : option string;
  fm_confidence : Q
}.

Record Completeness : Type := mkCompleteness {
  c_score : Z;
  c_status : string;
  missingRequired : list string;
  presentRequired : list string;
  missingOptional : list string;
  presentOptional : list string
}.

Record FieldStatus : Type := mkFieldStatus {
  required : gmap string FieldMatch;
  optional : gmap string FieldMatch;
  completeness : Completeness
}.

Definition field_match (documentText field : string) : FieldMatch :=
  let isPresent := isFieldPresent documentText field in
  mkFieldMatch isPresent
    (if isPresent then extractFieldValue documentText field else None)
    (if isPresent then calculateFieldConfidence documentText field else 0).

(** One turn of the loop "Check required fields". *)
Definition required_step (documentText : string) (fs : FieldStatus) (field : string)
    : FieldStatus :=
  let c := completeness fs in
  mkFieldStatus
    (<[field := field_match documentText field]> (required fs))
    (optional fs)
    (if isFieldPresent documentText field
     then mkCompleteness (c_score c) (c_status c) (missingRequired c)
                         (presentRequired c ++ [field]) (missingOptional c) (presentOptional c)
     else mkCompleteness (c_score c) (c_status c) (missingRequired c ++ [field])
                         (presentRequired c) (missingOptional c) (presentOptional c)).

(** One turn of the loop "Check optional fields". *)
Definition optional_step (documentText : string) (fs : FieldStatus) (field : string)
    : FieldStatus :=
  let c := completeness fs in
  mkFieldStatus
    (required fs)
    (<[field := field_match documentText field]> (optional fs))
    (if isFieldPresent documentText field
     then mkCompleteness (c_score c) (c_status c) (missingRequired c) (presentRequired c)
                         (missingOptional c) (presentOptional c ++ [field])
     else mkCompleteness (c_score c) (c_status c) (missingRequired c) (presentRequired c)
                         (missingOptional c ++ [field]) (presentOptional c)).

Definition completeness_status (score : Z) : string :=
  if (90 <=? score)%Z then "Complete"
  else if (70 <=? score)%Z then "Mostly Complete"
  else if (50 <=? score)%Z then "Partially Complete"
  else "Incomplete".

Definition checkFieldCompleteness (documentText documentType : string) : FieldStatus :=
  let docConfig := docConfig documentType in
  let requiredFields := requiredFields docConfig in
  let optionalFields := optionalFields docConfig in
  let fs := mkFieldStatus ∅ ∅ (mkCompleteness 0 "Incomplete" [] [] [] []) in
  let fs := fold_left (required_step documentText) requiredFields fs in
  let fs := fold_left (optional_step documentText) optionalFields fs in
  let c := completeness fs in
  let requiredPresent := List.length (presentRequired c) in
  let totalRequired := List.length requiredFields in
  let optionalPresent := List.length (presentOptional c) in
  let totalOptional := List.length optionalFields in
  let score :=
    JS.Math_round
      (inject_Z (Z.of_nat requiredPresent) / inject_Z (Z.of_nat totalRequired) * 80
       + inject_Z (Z.of_nat optionalPresent) / inject_Z (Z.of_nat totalOptional) * 20)%Q in
  mkFieldStatus (required fs) (optional fs)
    (mkCompleteness score (completeness_status score) (missingRequired c) (presentRequired c)
                    (missingOptional c) (presentOptional c)).

Record Classification : Type := mkClassification {
  documentType : string;
  confidence : Q;
  jurisdiction : string
}.

Definition detectDocumentTypeFromFilename (filename : string) : Classification :=
  let filename_lower := JS.toLowerCase filename in
  if JS.includes filename_lower "fee waiver" || JS.includes filename_lower "waiver"
  then mkClassification "Fee Waiver Request" (95 # 100) "Ontario"
  else if JS.includes filename_lower "lease" || JS.includes filename_lower "rental"
          || JS.includes filename_lower "tenancy"
  then mkClassification "Residential Lease Agreement" (85 # 100) "Ontario"
  else if JS.includes filename_lower "purchase" || JS.includes filename_lower "sale"
          || JS.includes filename_lower "aps" || JS.includes filename_lower "orea"
  then mkClassification "Agreement of Purchase and Sale (APS)" (90 # 100) "Ontario"
  else if JS.includes filename_lower "mortgage" || JS.includes filename_lower "charge"
  then mkClassification "Mortgage Document" (88 # 100) "Ontario"
  else if JS.includes filename_lower "noa" || JS.includes filename_lower "notice"
          || JS.includes filename_lower "assessment"
  then mkClassification "Notice of Assessment (CRA)" (92 # 100) "Ontario"
  else mkClassification "Legal Document" (60 # 100) "Ontario".

End SimpleServerFields.

(** ** simple-server.js: the mock server (file-name detection and Q&A) *)

Module MockServer.

Record Detected : Type := mkDetected {
  type : string;
  confidence : Q
}.

Definition detectDocumentType (filename : string) : Detected :=
  let filename_lower := JS.toLowerCase filename in
  if JS.includes filename_lower "fee waiver" || JS.includes filename_lower "waiver"
  then mkDetected "Fee Waiver Request" (95 # 100)
  else if JS.includes filename_lower "lease" || JS.includes filename_lower "rental"
          || JS.includes filename_lower "tenancy"
  then mkDetected "Residential Lease Agreement" (85 # 100)
  else if JS.includes filename_lower "purchase" || JS.includes filename_lower "sale"
          || JS.includes filename_lower "aps" || JS.includes filename_lower "orea"
  then mkDetected "Agreement of Purchase and Sale (APS)" (90 # 100)
  else if JS.includes filename_lower "mortgage" || JS.includes filename_lower "charge"
  then mkDetected "Mortgage Document" (88 # 100)
  else if JS.includes filename_lower "noa" || JS.includes filename_lower "notice"
          || JS.includes filename_lower "assessment"
  then mkDetected "CRA Notice of Assessment" (92 # 100)
  else if JS.includes filename_lower "utility" || JS.includes filename_lower "bill"
          || JS.includes filename_lower "hydro" || JS.includes filename_lower "electric"
  then mkDetected "Utility Bill" (80 # 100)
  else if JS.includes filename_lower "bank" || JS.includes filename_lower "statement"
          || JS.includes filename_lower "account"
  then mkDetected "Bank Statement" (85 # 100)
  else if JS.includes filename_lower "pay" || JS.includes filename_lower "stub"
          || JS.includes filename_lower "payroll"
  then mkDetected "Pay Stub" (90 # 100)
  else if JS.includes filename_lower "insurance" || JS.includes filename_lower "policy"
  then mkDetected "Insurance Policy" (88 # 100)
  else if JS.includes filename_lower "appraisal" || JS.includes filename_lower "valuation"
  then mkDetected "Property Appraisal Report" (90 # 100)
  else if JS.includes filename_lower "status" || JS.includes filename_lower "certificate"
          || JS.includes filename_lower "condo"
  then mkDetected "Status Certificate (Condo)" (85 # 100)
  else if JS.includes filename_lower "discharge" || JS.includes filename_lower "payout"
          || JS.includes filename_lower "mortgage payout"
  then mkDetected "Discharge Statement (Mortgage Payout Statement)" (90 # 100)
  else if JS.includes filename_lower "refinance" || JS.includes filename_lower "refinancing"
  then mkDetected "Refinance Agreement" (88 # 100)
  else if JS.includes filename_lower "reserve" || JS.includes filename_lower "fund study"
  then mkDetected "Reserve Fund Study (Condo)" (85 # 100)
  else if JS.includes filename_lower "condo insurance"
          || JS.includes filename_lower "condominium insurance"
  then mkDetected "Condominium Insurance Certificate" (88 # 100)
  else mkDetected "Legal Document" (60 # 100).

End MockServer.

(** ** The ML plugins: field extraction, validity prediction, sentiment,
    pattern matching and the plugin pipeline *)

Module MLPipeline.

(** An object with text members, in insertion order. *)
Definition Fields : Type := list (string * string).

(** [fields[name]] *)
Fixpoint get (fields : Fields) (name : string) : option string :=
  match fields with
  | [] => None
  | (k, v) :: rest => if String.eqb k name then Some v else get rest name
  end.

Definition APS : string := "Agreement of Purchase and Sale (APS)".

(** [FieldExtractor.extract(file, documentType)]: the file is not read. *)
Definition extract (documentType : string) : Fields :=
  if String.eqb documentType APS then
    [ ("purchasePrice", "$750,000");
      ("closingDate", "June 15, 2024");
      ("buyerName", "John Doe");
      ("sellerName", "Jane Smith");
      ("propertyAddress", "123 Main Street, Toronto, ON") ]
  else [].

Record Rules : Type := mkRules {
  requiredFields : list string;
  optionalFields : list string;
  minScore : Q
}.

Definition APS_rules : Rules :=
  mkRules ["purchasePrice"; "closingDate"; "buyerName"; "sellerName"]
          ["propertyAddress"; "depositAmount"]
          (7 # 10).

Definition validityRules : gmap string Rules := {[ APS := APS_rules ]}.

Record Prediction : Type := mkPrediction {
  p_score : Q;
  presentFields : nat;
  totalFields : nat;
  p_status : string
}.

(** The two loops of [predict]; the state is [(score, presentFields)]. *)
Definition count_fields (weight : Q) (fields : Fields) (names : list string)
    (st : Q * nat) : Q * nat :=
  fold_left
    (fun (st : Q * nat) (field : string) =>
       if JS.truthy (get fields field)
       then ((fst st + weight)%Q, S (snd st))
       else st)
    names st.

(** [ValidityPredictor.predict(fields, documentType)], for a type outside
    [JS.inherited] (the types that the classifier answers are); for one of
    those names [rules] is the inherited member and [predict] throws. *)
Definition predict (fields : Fields) (documentType : string) : Prediction :=
  let rules := default APS_rules (validityRules !! documentType) in
  let totalFields := (List.length (requiredFields rules) + List.length (optionalFields rules))%nat in
  let st := count_fields (8 # 10) fields (requiredFields rules) (0%Q, O) in
  let st := count_fields (2 # 10) fields (optionalFields rules) st in
  mkPrediction (JS.Qmin (fst st) 1) (snd st) totalFields
               (if Qle_bool (minScore rules) (fst st) then "Valid" else "Needs Review").

(** [JSON.stringify] of a text and of an object with text members. *)
Definition hex_digit (n : nat) : ascii :=
  if (n <? 10)%nat then ascii_of_nat (48 + n) else ascii_of_nat (87 + n).

Definition backslash : string := String (ascii_of_nat 92) EmptyString.

Definition quote_char (a : ascii) : string :=
  let n := nat_of_ascii a in
  if (n =? 34)%nat then backslash ++ JS.dquote
  else if (n =? 92)%nat then backslash ++ backslash
  else if (n =? 8)%nat then backslash ++ "b"
  else if (n =? 12)%nat then backslash ++ "f"
  else if (n =? 10)%nat then backslash ++ "n"
  else if (n =? 13)%nat then backslash ++ "r"
  else if (n =? 9)%nat then backslash ++ "t"
  else if (n <? 32)%nat
  then backslash ++ "u00" ++ String (hex_digit (n / 16)) (String (hex_digit (n mod 16)) "")
  else String a "".

Fixpoint quote_chars (s : string) : string :=
  match s with
  | EmptyString => EmptyString
  | String a s' => quote_char a ++ quote_chars s'
  end.

Definition quote (s : string) : string := JS.dquote ++ quote_chars s ++ JS.dquote.

Definition JSON_stringify (fields : Fields) : string :=
  "{" ++ JS.join "," (map (fun kv => quote (fst kv) ++ ":" ++ quote (snd kv)) fields) ++ "}".

Definition positiveWords : list string :=
  ["good"; "excellent"; "complete"; "valid"; "approved"; "signed"].

Definition negativeWords : list string :=
  ["incomplete"; "invalid"; "missing"; "error"; "problem"; "issue"].

(** [SentimentAnalyzer.analyze(fields)] *)
Definition analyze (fields : Fields) : string :=
  let text := JS.toLowerCase (JSON_stringify fields) in
  let positiveCount := List.length (List.filter (JS.includes text) positiveWords) in
  let negativeCount := List.length (List.filter (JS.includes text) negativeWords) in
  if (negativeCount <? positiveCount)%nat then "positive"
  else if (positiveCount <? negativeCount)%nat then "negative"
  else "neutral".

Definition patterns : list (string * list string) :=
  [ ("legal_terms", ["agreement"; "contract"; "terms"; "conditions"]);
    ("financial_terms", ["price"; "amount"; "deposit"; "payment"]);
    ("date_terms", ["closing"; "deadline"; "expiry"; "valid"]);
    ("party_terms", ["buyer"; "seller"; "tenant"; "landlord"]) ].

Record Matched : Type := mkMatched {
  category : string;
  matches : list string;
  m_confidence : Q
}.

(** [PatternMatcher.match(fields, documentType)] *)
Definition match_patterns (fields : Fields) (documentType : string) : list Matched :=
  let text := JS.toLowerCase (JSON_stringify fields) in
  fold_left
    (fun (matchedPatterns : list Matched) (entry : string * list string) =>
       let '(category, terms) := entry in
       let matches := List.filter (fun term => JS.includes text term) terms in
       if (0 <? List.length matches)%nat
       then (matchedPatterns
             ++ [mkMatched category matches
                   (inject_Z (Z.of_nat (List.length matches))
                    / inject_Z (Z.of_nat (List.length terms)))%Q])%list
       else matchedPatterns)
    patterns [].

Record Results : Type := mkResults {
  documentType : string;
  confidence : Q;
  extractedFields : Fields;
  validityScore : Q;
  sentiment : string;
  r_patterns : list Matched;
  recommendations : list string
}.

Definition generateRecommendations (confidence validityScore : Q) (sentiment : string)
    : list string :=
  let recommendations : list string := [] in
  let recommendations :=
    if JS.Qlt_bool confidence (8 # 10)
    then (recommendations
          ++ ["Document type confidence is low. Consider manual review."])%list
    else recommendations in
  let recommendations :=
    if JS.Qlt_bool validityScore (7 # 10)
    then (recommendations
          ++ ["Document validity is questionable. Review required fields."])%list
    else recommendations in
  if String.eqb sentiment "negative"
  then (recommendations
        ++ ["Document contains negative language. Review for potential issues."])%list
  else recommendations.

(** [MLPlugins.analyzeDocument(file, filename)] *)
Definition analyzeDocument (filename : string) : Results :=
  let classification := MLPlugins.classify filename in
  let fields := extract (MLPlugins.type classification) in
  let validity := predict fields (MLPlugins.type classification) in
  let sentiment := analyze fields in
  let patterns := match_patterns fields (MLPlugins.type classification) in
  mkResults (MLPlugins.type classification) (MLPlugins.confidence classification)
            fields (p_score validity) sentiment patterns
            (generateRecommendations (MLPlugins.confidence classification) (p_score validity)
                                     sentiment).

End MLPipeline.

(** ** The chat system: the conversation and what it records *)

Module ChatSession.
Import Chat.

(** A counter of [learningData]: the members [totalQuestions] and
    [successfulAnswers] are not set by the constructor. *)
Inductive Number : Type :=
| Undefined
| NaN
| Num (z : Z).

(** [n++] *)
Definition increment (n : Number) : Number :=
  match n with
  | Num z => Num (z + 1)
  | _ => NaN
  end.

Inductive HistoryEntry : Type :=
| UserEntry (question timestamp questionType : string)
| AiEntry (response : Response) (timestamp : string) (confidence : Q).

Record StoredResponse : Type := mkStored {
  s_question : string;
  s_response : string;
  s_confidence : Q;
  s_timestamp : string
}.

Record Feedback : Type := mkFeedback {
  feedback : string;
  f_question : string;
  f_response : string;
  f_timestamp : string
}.

(** [learningData]; its three [Map]s in insertion order. *)
Record LearningData : Type := mkLearning {
  totalConversations : Number;
  totalQuestions : Number;
  successfulAnswers : Number;
  documentTypePatterns : list (string * Z);
  questionPatterns : list (string * Z);
  successfulResponses : list (string * list StoredResponse);
  userFeedback : list Feedback
}.

Record System : Type := mkSystem {
  currentDocument : option DocumentData;
  conversationHistory : list HistoryEntry;
  learningData : LearningData
}.

(** [new EnhancedChatSystem()] *)
Definition new : System :=
  mkSystem None [] (mkLearning (Num 0) Undefined Undefined [] [] [] []).

(** [map.get(key)] *)
Fixpoint Map_get {V} (key : string) (m : list (string * V)) : option V :=
  match m with
  | [] => None
  | (k, v) :: m' => if String.eqb k key then Some v else Map_get key m'
  end.

(** [if (!map.has(key)) map.set(key, 0); map.set(key, map.get(key) + 1)] *)
Definition count_up (key : string) (m : list (string * Z)) : list (string * Z) :=
  let m := match Map_get key m with
           | Some _ => m
           | None => AI.Map_set key 0%Z m
           end in
  AI.Map_set key (default 0%Z (Map_get key m) + 1)%Z m.

(** [if (!map.has(key)) map.set(key, []); map.get(key).push(item)] *)
Definition push_to (key : string) (item : StoredResponse)
    (m : list (string * list StoredResponse)) : list (string * list StoredResponse) :=
  let m := match Map_get key m with
           | Some _ => m
           | None => AI.Map_set key [] m
           end in
  AI.Map_set key (default [] (Map_get key m) ++ [item])%list m.

Definition learnFromInteraction (question questionType : string) (response : Response)
    (context : Context) (timestamp : string) (this : System) : System :=
  let l := learningData this in
  let docType := c_documentType context in
  let responseKey := (questionType ++ "_" ++ docType)%string in
  mkSystem (currentDocument this) (conversationHistory this)
    (mkLearning
       (increment (totalConversations l))
       (increment (totalQuestions l))
       (successfulAnswers l)
       (count_up docType (documentTypePatterns l))
       (count_up questionType (questionPatterns l))
       (push_to responseKey
                (mkStored question (answerMarkdown response) (r_confidence response) timestamp)
                (successfulResponses l))
       (userFeedback l)).

(** The clock readings of [processQuestion]. *)
Record Times : Type := mkTimes {
  asked_at : string;
  answered_at : string;
  learned_at : string
}.

Definition processQuestion (times : Times) (question : string)
    (documentData : option DocumentData) (this : System) : Response * System :=
  let context := extractDocumentContext documentData in
  let questionType := classifyQuestion question in
  let this :=
    mkSystem (currentDocument this)
             (conversationHistory this ++ [UserEntry question (asked_at times) questionType])%list
             (learningData this) in
  let response := generateContextualResponse question questionType context in
  let this :=
    mkSystem (currentDocument this)
             (conversationHistory this
              ++ [AiEntry response (answered_at times)
                    (Q_or (Some (r_confidence response)) (8 # 10))])%list
             (learningData this) in
  let this := learnFromInteraction question questionType response context (learned_at times) this in
  (response, this).

Definition recordFeedback (feedback' question response timestamp : string) (this : System)
    : System :=
  let l := learningData this in
  mkSystem (currentDocument this) (conversationHistory this)
    (mkLearning
       (totalConversations l)
       (totalQuestions l)
       (if String.eqb feedback' "helpful"
        then increment (successfulAnswers l) else successfulAnswers l)
       (documentTypePatterns l)
       (questionPatterns l)
       (successfulResponses l)
       (userFeedback l ++ [mkFeedback feedback' question response timestamp])%list).

(** A statistic that is a number or [NaN]. *)
Inductive Ratio : Type :=
| RNaN
| RNum (q : Q).

Record Stats : Type := mkStats {
  st_totalConversations : Number;
  st_totalQuestions : Number;
  st_successfulAnswers : Number;
  accuracy : Ratio;
  documentTypes : list string;
  questionTypes : list string;
  totalFeedback : nat
}.

(** [totalQuestions > 0 ? successfulAnswers / totalQuestions : 0] *)
Definition accuracy_of (successful total : Number) : Ratio :=
  match total with
  | Num t =>
      if (0 <? t)%Z then
        match successful with
        | Num s => RNum (inject_Z s / inject_Z t)%Q
        | _ => RNaN
        end
      else RNum 0
  | _ => RNum 0
  end.

Definition getLearningStats (this : System) : Stats :=
  let l := learningData this in
  mkStats (totalConversations l) (totalQuestions l) (successfulAnswers l)
          (accuracy_of (successfulAnswers l) (totalQuestions l))
          (map fst (documentTypePatterns l))
          (map fst (questionPatterns l))
          (List.length (userFeedback l)).

Definition getConversationHistory (this : System) : list HistoryEntry :=
  conversationHistory this.

Definition clearConversation (this : System) : System :=
  mkSystem None [] (learningData this).

(** [generateQuestionSuggestions(documentData)] *)
Definition generateQuestionSuggestions (documentData : option DocumentData) : list string :=
  let docType := default "document" (JS.or (JS.member documentData documentType) (Some "document")) in
  let suggestions :=
    ["What is this document for?"; "What information is missing?"; "Is this document valid?"] in
  let suggestions :=
    if JS.includes docType "Agreement of Purchase and Sale" || JS.includes docType "APS" then
      (suggestions ++ ["What is the purchase price?"; "When is the closing date?";
                       "Who are the parties involved?"; "What conditions need to be met?"])%list
    else if JS.includes docType "Lease" then
      (suggestions ++ ["What is the rent amount?"; "What is the lease term?";
                       "What are the tenant responsibilities?"])%list
    else if JS.includes docType "Fee Waiver" then
      (suggestions ++ ["What is the reason for the fee waiver?";
                       "What financial information is required?"; "Is this request complete?"])%list
    else suggestions in
  firstn 4 suggestions.

(** [generateContextualGreeting(documentData, context)] *)
Definition generateContextualGreeting (context : Context) : string :=
  let docType := c_documentType context in
  let confidence := JS.Math_round (c_confidence context * 100)%Q in
  let completeness :=
    match score (c_completeness context) with
    | Some z => z
    | None => 0%Z
    end in
  let greeting := ("Hello! I've analyzed your **" ++ docType ++ "** document. ")%string in
  let greeting :=
    if (90 <=? confidence)%Z then
      (greeting ++ "I'm " ++ JS.string_of_Z confidence
         ++ "% confident about the document type. ")%string
    else if (70 <=? confidence)%Z then
      (greeting ++ "I'm " ++ JS.string_of_Z confidence
         ++ "% confident about the document type, but there might be some uncertainty. ")%string
    else
      (greeting ++ "I'm only " ++ JS.string_of_Z confidence
         ++ "% confident about the document type - it might need closer review. ")%string in
  let greeting :=
    if (90 <=? completeness)%Z then
      (greeting ++ "The document appears to be " ++ JS.string_of_Z completeness
         ++ "% complete, which is excellent! ")%string
    else if (70 <=? completeness)%Z then
      (greeting ++ "The document is " ++ JS.string_of_Z completeness
         ++ "% complete, but there are some missing fields. ")%string
    else
      (greeting ++ "The document is only " ++ JS.string_of_Z completeness
         ++ "% complete and needs significant attention. ")%string in
  let greeting :=
    if (0 <? List.length (c_issues context))%nat then
      (greeting ++ "I found " ++ JS.string_of_Z (Z.of_nat (List.length (c_issues context)))
         ++ " critical issue(s) that need to be addressed. ")%string
    else if (0 <? List.length (c_warnings context))%nat then
      (greeting ++ "I found " ++ JS.string_of_Z (Z.of_nat (List.length (c_warnings context)))
         ++ " warning(s) to review. ")%string
    else (greeting ++ "The document looks good overall! ")%string in
  (greeting ++ "What would you like to know about this document?")%string.

Record Welcome : Type := mkWelcome {
  greeting : string;
  w_context : Context;
  suggestions : list string
}.

Definition initializeWithDocument (documentData : option DocumentData) (this : System)
    : Welcome * System :=
  let this := mkSystem documentData [] (learningData this) in
  let context := extractDocumentContext documentData in
  (mkWelcome (generateContextualGreeting context) context
             (generateQuestionSuggestions documentData),
   this).

(** The calls that a client can make, and their effect on the system. *)
Inductive Call : Type :=
| CallInitialize (documentData : option DocumentData)
| CallQuestion (times : Times) (question : string) (documentData : option DocumentData)
| CallFeedback (feedback question response timestamp : string)
| CallClear.

Definition perform (this : System) (call : Call) : System :=
  match call with
  | CallInitialize documentData => snd (initializeWithDocument documentData this)
  | CallQuestion times question documentData =>
      snd (processQuestion times question documentData this)
  | CallFeedback feedback question response timestamp =>
      recordFeedback feedback question response timestamp this
  | CallClear => clearConversation this
  end.

Definition after (calls : list Call) : System := fold_left perform calls new.

End ChatSession.

(** ** Sample inputs *)

Module Samples.

(** A host whose clock stands at 1 November 2024 and whose parser knows
    two dates (time values in milliseconds, UTC). *)
Definition parse_table (s : string) : option Z :=
  if String.eqb s "06/15/2024" then Some 1718409600000%Z
  else if String.eqb s "12/31/2030" then Some 1924905600000%Z
  else None.

Definition ai_host : AI.Host := AI.mkHost 1730419200000 parse_table.

Definition server_host : SimpleServer.Host := SimpleServer.mkHost 1730419200000 parse_table.

(** The mock text that [extractTextFromFile] returns for a purchase
    agreement, on one line. *)
Definition aps_text : string :=
  "AGREEMENT OF PURCHASE AND SALE between John Doe (Buyer) and Jane Smith (Seller) Purchase Price: $750,000 Closing Date: 06/15/2024 Property Address: 123 Main Street, Toronto, ON Deposit Amount: $37,500".

Definition priced_result : Chat.DocumentData :=
  Chat.mkDocumentData (Some "Agreement of Purchase and Sale (APS)") (Some (9 # 10))
    None None None None None (Some "$750,000") None None None None None.

End Samples.

(** ** Vocabulary of the properties

    "The input contains none of a profile's indicators", said with the
    tests that each classifier itself applies. *)

Module Spec.

(** No visual indicator and no text pattern of any profile of the
    analyzer is found in the text. *)
Definition AI_text_clear (this : AI.Analyzer) (text : string) : bool :=
  forallb
    (fun pattern =>
       negb (existsb (fun indicator => JS.includes (JS.toUpperCase text) indicator)
                     (AI.visualIndicators pattern))
       && negb (existsb (fun regex => RegExp.test regex text) (AI.textPatterns pattern)))
    (map snd (AI.documentPatterns this)).

(** No visual indicator of any profile is found in the file name. *)
Definition AI_filename_clear (this : AI.Analyzer) (filename : string) : bool :=
  forallb
    (fun pattern =>
       negb (existsb (fun indicator => JS.includes (JS.toLowerCase filename) (AI.squash indicator))
                     (AI.visualIndicators pattern)))
    (map snd (AI.documentPatterns this)).

(** None of the file-name keywords of [identifyDocumentType]. *)
Definition FunctionApp_filename_clear (filename : string) : bool :=
  negb (existsb (JS.includes (JS.toLowerCase filename))
                ["purchase"; "sale"; "aps"; "lease"; "rental"; "n1"; "n4"; "ltb"]).

(** No pattern and no keyword of any model of [DocumentClassifier]. *)
Definition MLPlugins_filename_clear (filename : string) : bool :=
  forallb
    (fun entry : string * MLPlugins.Model =>
       negb (existsb (fun pattern => JS.includes (JS.toLowerCase filename) (JS.toLowerCase pattern))
                     (MLPlugins.patterns (snd entry)))
       && negb (existsb (fun keyword => JS.includes (JS.toLowerCase filename) (JS.toLowerCase keyword))
                        (MLPlugins.keywords (snd entry))))
    MLPlugins.models.

(** Counting the calls made to a chat session: the questions asked, the
    feedback given, and the questions asked since the conversation was
    last reset by [initializeWithDocument] or [clearConversation]. *)
Definition questions (calls : list ChatSession.Call) : nat :=
  List.length
    (List.filter (fun call => match call with
                              | ChatSession.CallQuestion _ _ _ => true
                              | _ => false
                              end) calls).

Definition feedbacks (calls : list ChatSession.Call) : nat :=
  List.length
    (List.filter (fun call => match call with
                              | ChatSession.CallFeedback _ _ _ _ => true
                              | _ => false
                              end) calls).

Definition questions_since_reset (calls : list ChatSession.Call) : nat :=
  fold_left (fun n call => match call with
                           | ChatSession.CallQuestion _ _ _ => S n
                           | ChatSession.CallFeedback _ _ _ _ => n
                           | _ => O
                           end) calls O.

End Spec.

(** * Properties *)

Open Scope list_scope.

(** Case analysis on every branch that the goal still tests. *)
Ltac split_branches :=
  repeat match goal with
         | |- context [match ?x with _ => _ end] => destruct x; simpl
         end.

(** ** Strings and numbers *)

Lemma startsWith_app (p s : string) : JS.startsWith p (p +:+ s) = true.
Proof.
  induction p as [|a p IH].
  - reflexivity.
  - change (JS.startsWith (String a p) (String a (p +:+ s)) = true).
    simpl. rewrite Ascii.eqb_refl. exact IH.
Qed.

Lemma includes_startsWith (s sub : string) :
  JS.startsWith sub s = true -> JS.includes s sub = true.
Proof.
  intros H. destruct s; simpl; rewrite H; reflexivity.
Qed.

Lemma includes_app (pre v post : string) : JS.includes (pre +:+ v +:+ post) v = true.
Proof.
  induction pre as [|a pre IH].
  - change (JS.includes (v +:+ post) v = true).
    apply includes_startsWith, startsWith_app.
  - change (JS.includes (String a (pre +:+ v +:+ post)) v = true).
    simpl. rewrite IH. apply orb_true_r.
Qed.

Lemma Math_round_le (x y : Q) : (x <= y)%Q -> (JS.Math_round x <= JS.Math_round y)%Z.
Proof.
  intros H. unfold JS.Math_round. apply Qfloor_resp_le.
  apply Qplus_le_compat; [exact H | apply Qle_refl].
Qed.

Lemma Math_round_comp (x y : Q) : (x == y)%Q -> JS.Math_round x = JS.Math_round y.
Proof.
  intros H. unfold JS.Math_round. apply Qfloor_comp. rewrite H. reflexivity.
Qed.

Lemma Qlt_bool_iff (x y : Q) : JS.Qlt_bool x y = true <-> (x < y)%Q.
Proof.
  unfold JS.Qlt_bool. rewrite negb_true_iff. split.
  - intros H. apply Qnot_le_lt. intros L. apply Qle_bool_iff in L. congruence.
  - intros H. destruct (Qle_bool y x) eqn:E; [|reflexivity].
    apply Qle_bool_iff in E. exfalso. exact (Qlt_not_le _ _ H E).
Qed.

Lemma Qlt_bool_false_iff (x y : Q) : JS.Qlt_bool x y = false <-> (y <= x)%Q.
Proof.
  unfold JS.Qlt_bool. rewrite negb_false_iff. apply Qle_bool_iff.
Qed.

(** ** function-app.js *)

Section FunctionAppFacts.
Import FunctionApp.

Lemma docConfig_cases (ty : string) :
  docConfig ty = APS_config \/ docConfig ty = Lease_config \/ docConfig ty = LTB_config.
Proof.
  unfold docConfig. destruct (documentTypes !! ty) as [cfg|] eqn:E; simpl.
  - apply elem_of_list_to_map_2 in E. unfold documentTypes_entries in E.
    repeat (apply elem_of_cons in E as [E|E]; [inversion E; subst; tauto|]).
    apply elem_of_nil in E. destruct E.
  - tauto.
Qed.

(** The loop over the required fields sorts them into the two lists. *)
Lemma completeness_fold (text : string) (fields : list string) (c : Completeness) :
  presentRequired (fold_left (completeness_step text) fields c)
    = presentRequired c ++ List.filter (isFieldPresent text) fields
  /\ missingRequired (fold_left (completeness_step text) fields c)
    = missingRequired c ++ List.filter (fun f => negb (isFieldPresent text f)) fields.
Proof.
  revert c. induction fields as [|f fields IH]; intros c; simpl.
  - rewrite !app_nil_r. tauto.
  - destruct (IH (completeness_step text c f)) as [IHp IHm]. rewrite IHp, IHm.
    unfold completeness_step. destruct (isFieldPresent text f); simpl.
    + rewrite <- app_assoc. tauto.
    + rewrite <- app_assoc. tauto.
Qed.

Lemma presentRequired_spec (text ty : string) :
  presentRequired (completeness (checkFieldCompleteness text ty))
    = List.filter (isFieldPresent text) (requiredFields (docConfig ty)).
Proof.
  unfold checkFieldCompleteness. simpl.
  destruct (completeness_fold text (requiredFields (docConfig ty))
              (mkCompleteness 0 "Incomplete" [] [])) as [Hp _].
  rewrite Hp. reflexivity.
Qed.

Lemma missingRequired_spec (text ty : string) :
  missingRequired (completeness (checkFieldCompleteness text ty))
    = List.filter (fun f => negb (isFieldPresent text f)) (requiredFields (docConfig ty)).
Proof.
  unfold checkFieldCompleteness. simpl.
  destruct (completeness_fold text (requiredFields (docConfig ty))
              (mkCompleteness 0 "Incomplete" [] [])) as [_ Hm].
  rewrite Hm. reflexivity.
Qed.

Lemma filter_length_mono {A} (p q : A -> bool) (l : list A) :
  (forall x, In x l -> p x = true -> q x = true) ->
  (List.length (List.filter p l) <= List.length (List.filter q l))%nat.
Proof.
  induction l as [|a l IH]; intros H; simpl.
  - lia.
  - assert (IH' := IH (fun x Hx => H x (or_intror Hx))).
    destruct (p a) eqn:Ep.
    + rewrite (H a (or_introl eq_refl) Ep). simpl. lia.
    + destruct (q a); simpl; lia.
Qed.

Lemma ratio_le (a b n : nat) :
  (a <= b)%nat ->
  (inject_Z (Z.of_nat a) / inject_Z (Z.of_nat n) * 100
   <= inject_Z (Z.of_nat b) / inject_Z (Z.of_nat n) * 100)%Q.
Proof.
  intros H. apply Qmult_le_compat_r; [|discriminate].
  unfold Qdiv. apply Qmult_le_compat_r.
  - rewrite <- Zle_Qle. lia.
  - apply Qinv_le_0_compat. replace 0%Q with (inject_Z 0) by reflexivity.
    rewrite <- Zle_Qle. lia.
Qed.

End FunctionAppFacts.

Section FunctionAppValidity.
Import FunctionApp.

(** The loop over the required signatures: 20 points and one issue per
    role without a signature, nothing else touched. *)
Lemma signature_fold (text : string) (sigs : list string) (v : ValidityCheck) :
  let missing := List.filter (fun sig => negb (checkSignature text sig)) sigs in
  let v' := fold_left (signature_step text) sigs v in
  v_score v' = (v_score v - 20 * Z.of_nat (List.length missing))%Z
  /\ issues v' = issues v ++ map (String.append "Missing required signature: ") missing
  /\ warnings v' = warnings v
  /\ v_status v' = v_status v
  /\ expiryInfo v' = expiryInfo v.
Proof.
  revert v. induction sigs as [|sig sigs IH]; intros v; simpl.
  - rewrite app_nil_r. repeat split. lia.
  - destruct (IH (signature_step text v sig)) as (Hs & Hi & Hw & Hst & He).
    simpl in *. rewrite Hs, Hi, Hw, Hst, He. unfold signature_step.
    destruct (checkSignature text sig); simpl.
    + repeat split.
    + rewrite <- app_assoc. simpl. repeat split. lia.
Qed.

Lemma checkDocumentValidity_spec (text ty : string) :
  let missing :=
    List.filter (fun sig => negb (checkSignature text sig))
                (requiredSignatures (validityRules (docConfig ty))) in
  let v := checkDocumentValidity text ty in
  v_score v = (100 - 20 * Z.of_nat (List.length missing)
               - (if RegExp.test date_word text then 0 else 10))%Z
  /\ issues v = map (String.append "Missing required signature: ") missing
  /\ warnings v = (if RegExp.test date_word text then [] else ["No date found in document"]).
Proof.
  intros missing v. subst v. unfold checkDocumentValidity.
  destruct (signature_fold text (requiredSignatures (validityRules (docConfig ty)))
              (mkValidity "Valid" 100 [] [] (mkExpiry false None)))
    as (Hs & Hi & Hw & _ & _).
  simpl in Hs, Hi, Hw. fold missing in Hs, Hi.
  set (v1 := fold_left (signature_step text) _ _) in *.
  destruct (RegExp.test date_word text); simpl;
    repeat match goal with
           | |- context [if ?b then _ else _] => destruct b; simpl
           end;
    rewrite ?Hs, ?Hi, ?Hw; repeat split; lia.
Qed.

Lemma filter_length_le {A} (p : A -> bool) (l : list A) :
  (List.length (List.filter p l) <= List.length l)%nat.
Proof.
  induction l as [|a l IH]; simpl; [lia|]. destruct (p a); simpl; lia.
Qed.

Lemma requiredSignatures_at_most_two (ty : string) :
  (List.length (requiredSignatures (validityRules (docConfig ty))) <= 2)%nat.
Proof.
  destruct (docConfig_cases ty) as [E|[E|E]]; rewrite E; simpl; lia.
Qed.

Lemma FunctionApp_validity_bounds (text ty : string) :
  (50 <= v_score (checkDocumentValidity text ty) <= 100)%Z.
Proof.
  destruct (checkDocumentValidity_spec text ty) as (Hs & _ & _). rewrite Hs.
  pose proof (filter_length_le (fun sig => negb (checkSignature text sig))
                (requiredSignatures (validityRules (docConfig ty)))) as Hle.
  pose proof (requiredSignatures_at_most_two ty) as H2.
  destruct (RegExp.test date_word text); lia.
Qed.

End FunctionAppValidity.

(** ** simple-server.js *)

Section SimpleServerFacts.
Import SimpleServer.

Lemma server_docConfig_cases (ty : string) :
  In (docConfig ty)
     [APS_config; Lease_config; LTB_config; MortgageStatement_config;
      NoticeOfAssessment_config].
Proof.
  unfold docConfig. destruct (documentTypes !! ty) as [cfg|] eqn:E; simpl.
  - apply elem_of_list_to_map_2 in E. unfold documentTypes_entries in E.
    repeat (apply elem_of_cons in E as [E|E]; [inversion E; subst; tauto|]).
    apply elem_of_nil in E. destruct E.
  - tauto.
Qed.

Lemma server_signatures_at_most_two (ty : string) :
  (List.length (requiredSignatures (validityRules (docConfig ty))) <= 2)%nat.
Proof.
  pose proof (server_docConfig_cases ty) as H. simpl in H.
  destruct H as [<-|[<-|[<-|[<-|[<-|[]]]]]]; simpl; lia.
Qed.

Lemma check_age_score (host : Host) (text : string) (rules : ValidityRules) (v : ValidityCheck) :
  (score v - 30 <= score (check_age host text rules v) <= score v)%Z.
Proof.
  unfold check_age.
  split_branches; lia.
Qed.

(** The loop "Check signatures": 20 points and one issue per role whose
    signature is not found; a role whose signature is found costs nothing. *)
Lemma check_signatures_spec (text : string) (rules : ValidityRules) (v : ValidityCheck) :
  let missing :=
    List.filter (fun sig => negb (checkSignature text sig)) (requiredSignatures rules) in
  let v' := check_signatures text rules v in
  score v' = (score v - 20 * Z.of_nat (List.length missing))%Z
  /\ issues v' = issues v ++ map (String.append "Missing required signature: ") missing
  /\ warnings v' = warnings v
  /\ sc_missing (signatureCheck v') = sc_missing (signatureCheck v) ++ missing
  /\ sc_present (signatureCheck v')
     = sc_present (signatureCheck v)
       ++ List.filter (checkSignature text) (requiredSignatures rules).
Proof.
  unfold check_signatures. generalize (requiredSignatures rules) as sigs.
  intros sigs. revert v. induction sigs as [|sig sigs IH]; intros v; simpl.
  - rewrite !app_nil_r. repeat split. lia.
  - destruct (IH (signature_step text v sig)) as (Hs & Hi & Hw & Hm & Hp).
    simpl in *. rewrite Hs, Hi, Hw, Hm, Hp. unfold signature_step.
    destruct (checkSignature text sig); simpl.
    + rewrite <- app_assoc. repeat split.
    + rewrite <- !app_assoc. simpl. repeat split. lia.
Qed.

Lemma check_deposit_score (text ty : string) (rules : ValidityRules) (v : ValidityCheck) :
  (score v - 15 <= score (check_deposit text ty rules v) <= score v)%Z
  /\ (String.eqb ty APS = false -> check_deposit text ty rules v = v).
Proof.
  unfold check_deposit. split.
  - split_branches; lia.
  - intros ->. reflexivity.
Qed.

Lemma check_form_number_score (text ty : string) (rules : ValidityRules) (v : ValidityCheck) :
  (score v - 25 <= score (check_form_number text ty rules v) <= score v)%Z
  /\ (String.eqb ty LTB = false -> check_form_number text ty rules v = v).
Proof.
  unfold check_form_number. split.
  - split_branches; lia.
  - intros ->. reflexivity.
Qed.

Lemma final_status_score (v : ValidityCheck) : score (final_status v) = score v.
Proof.
  unfold final_status.
  repeat match goal with
         | |- context [if ?x then _ else _] => destruct x; simpl
         end; reflexivity.
Qed.

(** The checks that follow the signature loop leave the signature record
    alone and only add issues. *)
Lemma later_checks_keep (text ty : string) (rules : ValidityRules) (v : ValidityCheck) :
  let v' := final_status (check_form_number text ty rules (check_deposit text ty rules v)) in
  sc_missing (signatureCheck v') = sc_missing (signatureCheck v)
  /\ exists extra, issues v' = issues v ++ extra.
Proof.
  unfold final_status, check_form_number, check_deposit.
  split.
  - split_branches; reflexivity.
  - split_branches; simpl;
      first [ exists []; rewrite app_nil_r; reflexivity
            | rewrite <- app_assoc; eexists; reflexivity
            | eexists; reflexivity ].
Qed.

Lemma SimpleServer_validity_bounds (host : Host) (text ty : string) :
  (15 <= score (checkDocumentValidity host text ty) <= 100)%Z.
Proof.
  unfold checkDocumentValidity. rewrite final_status_score.
  set (rules := validityRules (docConfig ty)).
  set (v0 := mkValidity _ _ _ _ _ _ _).
  pose proof (check_age_score host text rules v0) as Ha.
  set (v1 := check_age host text rules v0) in *.
  destruct (check_signatures_spec text rules v1) as (Hs & _).
  set (v2 := check_signatures text rules v1) in *.
  pose proof (filter_length_le (fun sig => negb (checkSignature text sig))
                (requiredSignatures rules)) as Hle.
  pose proof (server_signatures_at_most_two ty) as H2. fold rules in H2.
  destruct (check_deposit_score text ty rules v2) as (Hd & Hd').
  set (v3 := check_deposit text ty rules v2) in *.
  destruct (check_form_number_score text ty rules v3) as (Hf & Hf').
  set (v4 := check_form_number text ty rules v3) in *.
  change (score v0) with 100%Z in Ha.
  destruct (String.eqb ty LTB) eqn:EL.
  - apply String.eqb_eq in EL. subst ty.
    assert (E3 : v3 = v2) by (apply Hd'; reflexivity).
    assert (E1 : List.length (requiredSignatures rules) = 1%nat) by reflexivity.
    rewrite E3 in *. lia.
  - rewrite (Hf' eq_refl). lia.
Qed.

End SimpleServerFacts.

(** ** ai-document-analyzer.js *)

Section AIFacts.
Import AI.

Lemma analyzeValidity_spec (host : Host) (text ty : string) (this : Analyzer) :
  let v := fst (analyzeValidity host text ty this) in
  v_score v = (100 - (if isDocumentExpired host text then 30 else 0)
               - (if hasMissingSignatures text then 20 else 0)
               - (if hasIncompleteSections text then 10 else 0))%Z
  /\ issues v = (if isDocumentExpired host text then ["Document appears to be expired"] else [])
                ++ (if hasMissingSignatures text then ["Required signatures may be missing"] else [])
  /\ warnings v = (if hasIncompleteSections text then ["Some sections appear incomplete"] else [])
  /\ snd (analyzeValidity host text ty this) = this.
Proof.
  unfold analyzeValidity.
  destruct (isDocumentExpired host text), (hasMissingSignatures text),
    (hasIncompleteSections text); simpl; repeat split.
Qed.

Lemma AI_validity_bounds (host : Host) (text ty : string) (this : Analyzer) :
  (40 <= v_score (fst (analyzeValidity host text ty this)) <= 100)%Z.
Proof.
  destruct (analyzeValidity_spec host text ty this) as (Hs & _). rewrite Hs.
  destruct (isDocumentExpired host text), (hasMissingSignatures text),
    (hasIncompleteSections text); lia.
Qed.

End AIFacts.

Section AICompleteness.
Import AI.

Lemma AI_completeness_fold (text : string) (fields : list string) (st : list string * list string) :
  fold_left (completeness_step text) fields st
  = (fst st ++ List.filter (field_found text) fields,
     snd st ++ List.filter (fun f => negb (field_found text f)) fields).
Proof.
  revert st. induction fields as [|f fields IH]; intros [present missing]; simpl.
  - rewrite !app_nil_r. reflexivity.
  - rewrite IH. destruct (field_found text f); simpl; rewrite <- app_assoc; reflexivity.
Qed.

(** The profile that [analyzeFieldCompleteness] works with. *)
Lemma analyzeFieldCompleteness_spec (text ty : string) (this : Analyzer) (pattern : Pattern) :
  find (fun p => String.eqb (documentType p) ty) (map snd (documentPatterns this)) = Some pattern ->
  let present := List.filter (field_found text) (requiredFields pattern) in
  let unrounded :=
    (inject_Z (Z.of_nat (List.length present))
     / inject_Z (Z.of_nat (List.length (requiredFields pattern))) * 100)%Q in
  analyzeFieldCompleteness text ty this
  = (mkFieldStatus
       (mkCompleteness (JS.Math_round unrounded) (completeness_status unrounded)
          (List.filter (fun f => negb (field_found text f)) (requiredFields pattern))
          present),
     this).
Proof.
  intros Hfind present unrounded. unfold analyzeFieldCompleteness, bind, gets, ret.
  rewrite Hfind, AI_completeness_fold. reflexivity.
Qed.

Lemma analyzeFieldCompleteness_unknown (text ty : string) (this : Analyzer) :
  find (fun p => String.eqb (documentType p) ty) (map snd (documentPatterns this)) = None ->
  analyzeFieldCompleteness text ty this
  = (mkFieldStatus (mkCompleteness 0 "Unknown Document Type" [] []), this).
Proof.
  intros Hfind. unfold analyzeFieldCompleteness, bind, gets, ret. rewrite Hfind. reflexivity.
Qed.

Lemma AI_completeness_status_spec (q : Q) :
  ((q < 50)%Q -> completeness_status q = "Incomplete")
  /\ ((50 <= q)%Q -> (q < 80)%Q -> completeness_status q = "Partially Complete")
  /\ ((80 <= q)%Q -> (q < 100)%Q -> completeness_status q = "Mostly Complete")
  /\ ((100 <= q)%Q -> completeness_status q = "Complete").
Proof.
  unfold completeness_status.
  repeat split; intros;
    repeat match goal with
           | H : (_ < _)%Q |- _ => apply Qlt_bool_iff in H; rewrite H
           | H : (_ <= _)%Q |- _ => apply Qlt_bool_false_iff in H; rewrite H
           end; try reflexivity.
  - assert (L : (50 <= q)%Q) by (apply Qle_trans with 80%Q; [discriminate | apply Qlt_bool_false_iff; assumption]).
    apply Qlt_bool_false_iff in L. rewrite L. reflexivity.
  - assert (L8 : (80 <= q)%Q) by (apply Qle_trans with 100%Q; [discriminate | apply Qlt_bool_false_iff; assumption]).
    assert (L5 : (50 <= q)%Q) by (apply Qle_trans with 80%Q; [discriminate | assumption]).
    apply Qlt_bool_false_iff in L8, L5. rewrite L5, L8. reflexivity.
Qed.

End AICompleteness.

(** C1. In the unweighted variant ([DocumentAnalyzer.checkFieldCompleteness]
    of function-app.js, and likewise [analyzeFieldCompleteness] on the
    profiles of [AIDocumentAnalyzer]), for every text and document type the
    completeness score is round(100 x presentRequiredCount /
    totalRequiredCount), where presentRequiredCount counts the required
    fields whose regex matches the text; and when every required-field
    regex that matches a first text also matches a second, the second
    text's score is at least the first's. *)
Theorem C1_completeness_score :
  (forall text ty : string,
     let required := FunctionApp.requiredFields (FunctionApp.docConfig ty) in
     let presentRequiredCount :=
       List.length (List.filter (FunctionApp.isFieldPresent text) required) in
     let totalRequiredCount := List.length required in
     FunctionApp.score (FunctionApp.completeness (FunctionApp.checkFieldCompleteness text ty))
     = JS.Math_round (100 * inject_Z (Z.of_nat presentRequiredCount)
                      / inject_Z (Z.of_nat totalRequiredCount))%Q)
  /\
  (forall ty text1 text2 : string,
     (forall field,
        In field (FunctionApp.requiredFields (FunctionApp.docConfig ty)) ->
        FunctionApp.isFieldPresent text1 field = true ->
        FunctionApp.isFieldPresent text2 field = true) ->
     (FunctionApp.score (FunctionApp.completeness (FunctionApp.checkFieldCompleteness text1 ty))
      <= FunctionApp.score
           (FunctionApp.completeness (FunctionApp.checkFieldCompleteness text2 ty)))%Z)
  /\
  (forall (text ty : string) (pattern : AI.Pattern),
     find (fun p => String.eqb (AI.documentType p) ty) (map snd (AI.documentPatterns AI.new))
     = Some pattern ->
     let required := AI.requiredFields pattern in
     let presentRequiredCount := List.length (List.filter (AI.field_found text) required) in
     let totalRequiredCount := List.length required in
     AI.score (AI.completeness (fst (AI.analyzeFieldCompleteness text ty AI.new)))
     = JS.Math_round (100 * inject_Z (Z.of_nat presentRequiredCount)
                      / inject_Z (Z.of_nat totalRequiredCount))%Q)
  /\
  (forall (ty text1 text2 : string) (pattern : AI.Pattern),
     find (fun p => String.eqb (AI.documentType p) ty) (map snd (AI.documentPatterns AI.new))
     = Some pattern ->
     (forall field,
        In field (AI.requiredFields pattern) ->
        AI.field_found text1 field = true ->
        AI.field_found text2 field = true) ->
     (AI.score (AI.completeness (fst (AI.analyzeFieldCompleteness text1 ty AI.new)))
      <= AI.score (AI.completeness (fst (AI.analyzeFieldCompleteness text2 ty AI.new))))%Z).
Proof.
  assert (Hring : forall n p : Q, (p / n * 100 == 100 * p / n)%Q)
    by (intros n p; unfold Qdiv; ring).
  repeat apply conj.
  - intros text ty required presentRequiredCount totalRequiredCount.
    pose proof (presentRequired_spec text ty) as Hp.
    unfold FunctionApp.checkFieldCompleteness in *. simpl in *. rewrite Hp.
    apply Math_round_comp, Hring.
  - intros ty text1 text2 Hsub.
    pose proof (presentRequired_spec text1 ty) as H1.
    pose proof (presentRequired_spec text2 ty) as H2.
    unfold FunctionApp.checkFieldCompleteness in *. simpl in *. rewrite H1, H2.
    apply Math_round_le, ratio_le, filter_length_mono. exact Hsub.
  - intros text ty pattern Hfind required presentRequiredCount totalRequiredCount.
    rewrite (analyzeFieldCompleteness_spec text ty AI.new pattern Hfind). simpl.
    apply Math_round_comp, Hring.
  - intros ty text1 text2 pattern Hfind Hsub.
    rewrite (analyzeFieldCompleteness_spec text1 ty AI.new pattern Hfind),
            (analyzeFieldCompleteness_spec text2 ty AI.new pattern Hfind). simpl.
    apply Math_round_le, ratio_le, filter_length_mono. exact Hsub.
Qed.

Lemma C1_completeness_score_witness :
  (FunctionApp.score
     (FunctionApp.completeness
        (FunctionApp.checkFieldCompleteness "Buyer: John Smith" FunctionApp.APS))
   <= FunctionApp.score
        (FunctionApp.completeness
           (FunctionApp.checkFieldCompleteness "Buyer: John Smith, Seller: Jane Doe"
                                               FunctionApp.APS)))%Z
  /\ AI.score
       (AI.completeness
          (fst (AI.analyzeFieldCompleteness "Buyer: John Smith"
                  "Agreement of Purchase and Sale (APS)" AI.new)))
     = JS.Math_round (100 * inject_Z 2 / inject_Z 7)%Q
  /\ (AI.score
        (AI.completeness
           (fst (AI.analyzeFieldCompleteness "Buyer: John Smith"
                   "Agreement of Purchase and Sale (APS)" AI.new)))
      <= AI.score
           (AI.completeness
              (fst (AI.analyzeFieldCompleteness "Buyer: John Smith, Seller: Jane Doe"
                      "Agreement of Purchase and Sale (APS)" AI.new))))%Z.
Proof.
  destruct C1_completeness_score as (_ & Hmono & Hai & Hai_mono).
  repeat apply conj.
  - apply (Hmono FunctionApp.APS).
    intros field Hin. vm_compute in Hin.
    repeat (destruct Hin as [<-|Hin];
            [vm_compute; intros H; first [exact H | reflexivity]|]).
    destruct Hin.
  - apply (Hai "Buyer: John Smith" "Agreement of Purchase and Sale (APS)" AI.APS_pattern).
    reflexivity.
  - apply (Hai_mono "Agreement of Purchase and Sale (APS)" _ _ AI.APS_pattern).
    + reflexivity.
    + intros field Hin. vm_compute in Hin.
      repeat (destruct Hin as [<-|Hin];
              [vm_compute; intros H; first [exact H | reflexivity]|]).
      destruct Hin.
Defined.

(** C2. For every input text and document type, the score returned by the
    validity checker lies between 0 and 100, whatever penalties (missing
    signatures, age or expiry, missing date, deposit percentage, invalid
    form number) were deducted; this holds for the three checkers
    ([checkDocumentValidity] of function-app.js and of simple-server.js,
    and [analyzeValidity]). *)
Theorem C2_validity_score_bounds :
  (forall text ty : string,
     (0 <= FunctionApp.v_score (FunctionApp.checkDocumentValidity text ty) <= 100)%Z)
  /\ (forall (host : SimpleServer.Host) (text ty : string),
        (0 <= SimpleServer.score (SimpleServer.checkDocumentValidity host text ty) <= 100)%Z)
  /\ (forall (host : AI.Host) (text ty : string) (this : AI.Analyzer),
        (0 <= AI.v_score (fst (AI.analyzeValidity host text ty this)) <= 100)%Z).
Proof.
  split; [|split].
  - intros text ty. pose proof (FunctionApp_validity_bounds text ty). lia.
  - intros host text ty. pose proof (SimpleServer_validity_bounds host text ty). lia.
  - intros host text ty this. pose proof (AI_validity_bounds host text ty this). lia.
Qed.


Section FunctionAppStatus.
Import FunctionApp.

Lemma completeness_status_spec (s : Z) :
  ((90 <= s)%Z -> completeness_status s = "Complete")
  /\ ((70 <= s < 90)%Z -> completeness_status s = "Mostly Complete")
  /\ ((50 <= s < 70)%Z -> completeness_status s = "Partially Complete")
  /\ ((s < 50)%Z -> completeness_status s = "Incomplete").
Proof.
  unfold completeness_status.
  repeat split; intros;
    destruct (90 <=? s)%Z eqn:E9; destruct (70 <=? s)%Z eqn:E7; destruct (50 <=? s)%Z eqn:E5;
    try reflexivity; lia.
Qed.

Lemma validity_90_is_Valid (text ty : string) :
  v_score (checkDocumentValidity text ty) = 90%Z ->
  v_status (checkDocumentValidity text ty) = "Valid"
  /\ issues (checkDocumentValidity text ty) = [].
Proof.
  intros H90.
  destruct (checkDocumentValidity_spec text ty) as (Hs & Hi & _).
  rewrite H90 in Hs.
  set (missing := List.filter _ _) in *.
  assert (Hm : missing = []).
  { destruct missing as [|m missing']; [reflexivity|]. exfalso. simpl List.length in Hs.
    destruct (RegExp.test date_word text); lia. }
  rewrite Hm in Hi. simpl in Hi. split; [|exact Hi].
  unfold checkDocumentValidity in *.
  destruct (signature_fold text (requiredSignatures (validityRules (docConfig ty)))
              (mkValidity "Valid" 100 [] [] (mkExpiry false None)))
    as (_ & _ & _ & Hst & _).
  simpl in Hst.
  set (v1 := fold_left (signature_step text) _ _) in *.
  repeat match goal with
         | _ : context [if ?b then _ else _] |- _ => destruct b eqn:?; simpl in *
         end; try exact Hst; try lia.
  rewrite Hi in *. simpl in *. discriminate.
Qed.

End FunctionAppStatus.

(** C3 (as amended). In [DocumentAnalyzer] (function-app.js) the
    completeness status is read off the rounded score at inclusive
    thresholds: 90 and above is "Complete", 70 to 89 "Mostly Complete",
    50 to 69 "Partially Complete", below 50 "Incomplete"; so 90 yields
    "Complete" and 89 "Mostly Complete".  A validity score of 90 there
    yields the status "Valid".  In [AIDocumentAnalyzer] the status is read
    off the unrounded score at other thresholds: below 50 "Incomplete",
    below 80 "Partially Complete", below 100 "Mostly Complete", and
    "Complete" only at 100. *)
Theorem C3_status_buckets :
  (forall text ty : string,
     let c := FunctionApp.completeness (FunctionApp.checkFieldCompleteness text ty) in
     FunctionApp.status c = FunctionApp.completeness_status (FunctionApp.score c))
  /\ (forall s : Z,
        ((90 <= s)%Z -> FunctionApp.completeness_status s = "Complete")
        /\ ((70 <= s < 90)%Z -> FunctionApp.completeness_status s = "Mostly Complete")
        /\ ((50 <= s < 70)%Z -> FunctionApp.completeness_status s = "Partially Complete")
        /\ ((s < 50)%Z -> FunctionApp.completeness_status s = "Incomplete"))
  /\ (forall text ty : string,
        FunctionApp.v_score (FunctionApp.checkDocumentValidity text ty) = 90%Z ->
        FunctionApp.v_status (FunctionApp.checkDocumentValidity text ty) = "Valid")
  /\ (forall (text ty : string) (pattern : AI.Pattern),
        find (fun p => String.eqb (AI.documentType p) ty) (map snd (AI.documentPatterns AI.new))
        = Some pattern ->
        let c := AI.completeness (fst (AI.analyzeFieldCompleteness text ty AI.new)) in
        let unrounded :=
          (inject_Z (Z.of_nat (List.length (AI.presentRequired c)))
           / inject_Z (Z.of_nat (List.length (AI.requiredFields pattern))) * 100)%Q in
        AI.score c = JS.Math_round unrounded
        /\ AI.status c = AI.completeness_status unrounded)
  /\ (forall q : Q,
        ((q < 50)%Q -> AI.completeness_status q = "Incomplete")
        /\ ((50 <= q)%Q -> (q < 80)%Q -> AI.completeness_status q = "Partially Complete")
        /\ ((80 <= q)%Q -> (q < 100)%Q -> AI.completeness_status q = "Mostly Complete")
        /\ ((100 <= q)%Q -> AI.completeness_status q = "Complete")).
Proof.
  split; [|split; [|split; [|split]]].
  - intros text ty. reflexivity.
  - exact completeness_status_spec.
  - intros text ty H. apply validity_90_is_Valid. exact H.
  - intros text ty pattern Hfind.
    rewrite (analyzeFieldCompleteness_spec text ty AI.new pattern Hfind). simpl.
    split; reflexivity.
  - exact AI_completeness_status_spec.
Qed.

Lemma C3_status_buckets_witness :
  FunctionApp.completeness_status 90 = "Complete"
  /\ FunctionApp.completeness_status 89 = "Mostly Complete"
  /\ FunctionApp.completeness_status 50 = "Partially Complete"
  /\ FunctionApp.completeness_status 49 = "Incomplete"
  /\ FunctionApp.v_status
       (FunctionApp.checkDocumentValidity "Buyer Signature: [Signed] Seller Signature: [Signed]"
                                          FunctionApp.APS) = "Valid"
  /\ AI.status
       (AI.completeness
          (fst (AI.analyzeFieldCompleteness "Buyer: A Seller: B Deposit: 1"
                  "Agreement of Purchase and Sale (APS)" AI.new)))
     = AI.completeness_status (500 # 7)
  /\ AI.completeness_status 49 = "Incomplete"
  /\ AI.completeness_status 79 = "Partially Complete"
  /\ AI.completeness_status 90 = "Mostly Complete"
  /\ AI.completeness_status 100 = "Complete".
Proof.
  destruct C3_status_buckets as (_ & Hfa & Hv & Hai & Hq).
  repeat apply conj.
  - apply (proj1 (Hfa 90%Z)). lia.
  - apply (proj1 (proj2 (Hfa 89%Z))). lia.
  - apply (proj1 (proj2 (proj2 (Hfa 50%Z)))). lia.
  - apply (proj2 (proj2 (proj2 (Hfa 49%Z)))). lia.
  - apply Hv. vm_compute. reflexivity.
  - apply (proj2 (Hai "Buyer: A Seller: B Deposit: 1" "Agreement of Purchase and Sale (APS)"
                      AI.APS_pattern eq_refl)).
  - apply (proj1 (Hq 49%Q)). reflexivity.
  - apply (proj1 (proj2 (Hq 79%Q))); vm_compute; congruence.
  - apply (proj1 (proj2 (proj2 (Hq 90%Q)))); vm_compute; congruence.
  - apply (proj2 (proj2 (proj2 (Hq 100%Q)))). vm_compute. congruence.
Defined.

(** C3, the claim as stated, fails in [AIDocumentAnalyzer]: a text with
    five of the seven required fields of the purchase agreement scores 71,
    which is at least 70, and its status is "Partially Complete", not
    "Mostly Complete"; and the chain of comparisons there sends a score of
    90 to "Mostly Complete", not to "Complete". *)
Lemma C3_counterexample :
  let c :=
    AI.completeness
      (fst (AI.analyzeFieldCompleteness "Buyer: A Seller: B Deposit: 1"
              "Agreement of Purchase and Sale (APS)" AI.new)) in
  AI.score c = 71%Z
  /\ AI.status c = "Partially Complete"
  /\ AI.status c <> "Mostly Complete"
  /\ AI.completeness_status 90 = "Mostly Complete"
  /\ AI.completeness_status 90 <> "Complete".
Proof.
  vm_compute. repeat split; congruence.
Qed.

(** C7. For every document type, the validity checker deducts exactly 20
    points and appends the issue "Missing required signature: <role>" for
    each required role whose signature regex does not match the text, in
    the order of the profile, and deducts nothing for a role whose regex
    matches: in function-app.js the issues are exactly these and the score
    is 100 less 20 per missing role (less 10 when no date word is found);
    in simple-server.js the signature loop lowers the score it is given by
    20 per missing role, appends these issues and records the roles, and
    the result of the whole check lists exactly these roles as missing and
    carries each of these issues. *)
Theorem C7_signature_penalty :
  (forall text ty : string,
     let required :=
       FunctionApp.requiredSignatures (FunctionApp.validityRules (FunctionApp.docConfig ty)) in
     let missing := List.filter (fun role => negb (FunctionApp.checkSignature text role)) required in
     let v := FunctionApp.checkDocumentValidity text ty in
     FunctionApp.v_score v
     = (100 - 20 * Z.of_nat (List.length missing)
        - (if RegExp.test FunctionApp.date_word text then 0 else 10))%Z
     /\ FunctionApp.issues v = map (String.append "Missing required signature: ") missing)
  /\
  (forall (text : string) (rules : SimpleServer.ValidityRules) (v : SimpleServer.ValidityCheck),
     let required := SimpleServer.requiredSignatures rules in
     let missing := List.filter (fun role => negb (SimpleServer.checkSignature text role)) required in
     let v' := SimpleServer.check_signatures text rules v in
     SimpleServer.score v' = (SimpleServer.score v - 20 * Z.of_nat (List.length missing))%Z
     /\ SimpleServer.issues v'
        = SimpleServer.issues v ++ map (String.append "Missing required signature: ") missing
     /\ SimpleServer.sc_missing (SimpleServer.signatureCheck v')
        = SimpleServer.sc_missing (SimpleServer.signatureCheck v) ++ missing)
  /\
  (forall (host : SimpleServer.Host) (text ty : string),
     let rules := SimpleServer.validityRules (SimpleServer.docConfig ty) in
     let missing :=
       List.filter (fun role => negb (SimpleServer.checkSignature text role))
                   (SimpleServer.requiredSignatures rules) in
     let v := SimpleServer.checkDocumentValidity host text ty in
     SimpleServer.sc_missing (SimpleServer.signatureCheck v) = missing
     /\ incl (map (String.append "Missing required signature: ") missing)
             (SimpleServer.issues v)).
Proof.
  split; [|split].
  - intros text ty required missing v.
    destruct (checkDocumentValidity_spec text ty) as (Hs & Hi & _). split; assumption.
  - intros text rules v required missing v'.
    destruct (check_signatures_spec text rules v) as (Hs & Hi & _ & Hm & _).
    repeat split; assumption.
  - intros host text ty rules missing v. subst v.
    unfold SimpleServer.checkDocumentValidity. fold rules.
    set (v0 := SimpleServer.mkValidity _ _ _ _ _ _ _).
    set (v1 := SimpleServer.check_age host text rules v0).
    destruct (check_signatures_spec text rules v1) as (_ & Hi & _ & Hm & _).
    assert (H1 : SimpleServer.sc_missing (SimpleServer.signatureCheck v1) = []).
    { unfold v1, SimpleServer.check_age. split_branches; reflexivity. }
    rewrite H1 in Hm. simpl in Hm. fold missing in Hm, Hi.
    set (v2 := SimpleServer.check_signatures text rules v1) in *.
    destruct (later_checks_keep text ty rules v2) as (Hkeep & extra & Hextra).
    split.
    + rewrite Hkeep. exact Hm.
    + rewrite Hextra, Hi. intros issue Hin. apply in_or_app. left.
      apply in_or_app. right. exact Hin.
Qed.

(** ** Classification *)

Section AIClassification.
Import AI.

Lemma indicator_fold_clear (text : string) (indicators : list string) (score : Q) (n : nat) :
  existsb (fun indicator => JS.includes (JS.toUpperCase text) indicator) indicators = false ->
  fold_left
    (fun (st : Q * nat) (indicator : string) =>
       let '(score, totalChecks) := st in
       if JS.includes (JS.toUpperCase text) indicator
       then ((score + 1)%Q, S totalChecks)
       else (score, S totalChecks))
    indicators (score, n)
  = (score, (n + List.length indicators)%nat).
Proof.
  revert n. induction indicators as [|i indicators IH]; intros n H; simpl in *.
  - f_equal. lia.
  - apply orb_false_iff in H as [Hi H]. rewrite Hi, (IH (S n) H). f_equal. lia.
Qed.

Lemma regex_fold_clear (text : string) (regexes : list RegExp.regex) (score : Q) (n : nat) :
  existsb (fun regex => RegExp.test regex text) regexes = false ->
  fold_left
    (fun (st : Q * nat) (regex : RegExp.regex) =>
       let '(score, totalChecks) := st in
       if RegExp.test regex text
       then ((score + 1)%Q, S totalChecks)
       else (score, S totalChecks))
    regexes (score, n)
  = (score, (n + List.length regexes)%nat).
Proof.
  revert n. induction regexes as [|r regexes IH]; intros n H; simpl in *.
  - f_equal. lia.
  - apply orb_false_iff in H as [Hr H]. rewrite Hr, (IH (S n) H). f_equal. lia.
Qed.

Lemma zero_ratio_not_above (n : nat) : JS.Qlt_bool 0 (0 / inject_Z (Z.of_nat n)) = false.
Proof.
  apply Qlt_bool_false_iff. unfold Qdiv. rewrite Qmult_0_l. apply Qle_refl.
Qed.

(** A profile none of whose indicators is found leaves the best match as
    it is, as long as that match has confidence 0. *)
Lemma classify_step_clear (text filename : string) (best : Classification)
    (entry : string * Pattern) :
  c_confidence best = 0%Q ->
  existsb (fun indicator => JS.includes (JS.toUpperCase text) indicator)
          (visualIndicators (snd entry)) = false ->
  existsb (fun regex => RegExp.test regex text) (textPatterns (snd entry)) = false ->
  existsb (fun indicator => JS.includes (JS.toLowerCase filename) (squash indicator))
          (visualIndicators (snd entry)) = false ->
  classify_step text filename best entry = best.
Proof.
  intros Hbest Hi Hr Hf. unfold classify_step.
  rewrite (indicator_fold_clear _ _ _ _ Hi), (regex_fold_clear _ _ _ _ Hr), Hf, Hbest.
  destruct (0 <? _)%nat.
  - rewrite zero_ratio_not_above. reflexivity.
  - reflexivity.
Qed.

Lemma classifyDocument_clear (this : Analyzer) (text filename : string) :
  Spec.AI_text_clear this text = true ->
  Spec.AI_filename_clear this filename = true ->
  classifyDocument text filename this = (unknown_document, this).
Proof.
  unfold Spec.AI_text_clear, Spec.AI_filename_clear, classifyDocument, bind, gets, ret.
  generalize (documentPatterns this) as patterns. intros patterns Ht Hf. f_equal.
  induction patterns as [|entry patterns IH]; simpl in *.
  - reflexivity.
  - apply andb_true_iff in Ht as [Ht1 Ht]. apply andb_true_iff in Hf as [Hf1 Hf].
    apply andb_true_iff in Ht1 as [Hi Hr].
    apply negb_true_iff in Hi, Hr, Hf1.
    rewrite (classify_step_clear text filename unknown_document entry eq_refl Hi Hr Hf1).
    apply IH; assumption.
Qed.

End AIClassification.

Section OtherClassifiers.

Lemma identifyDocumentType_clear (text filename : string) :
  Spec.FunctionApp_filename_clear filename = true ->
  FunctionApp.identifyDocumentType text filename
  = FunctionApp.mkClassification "Legal Document" (60 # 100) "Ontario".
Proof.
  unfold Spec.FunctionApp_filename_clear, FunctionApp.identifyDocumentType.
  intros H. apply negb_true_iff in H. simpl in H.
  repeat match goal with
         | H : (_ || _) = false |- _ => apply orb_false_iff in H as [? ?]
         end.
  repeat match goal with
         | E : JS.includes _ _ = false |- _ => rewrite E; clear E
         end.
  reflexivity.
Qed.

Lemma calculateScore_clear (filename : string) (model : MLPlugins.Model) :
  existsb (fun pattern => JS.includes filename (JS.toLowerCase pattern))
          (MLPlugins.patterns model) = false ->
  existsb (fun keyword => JS.includes filename (JS.toLowerCase keyword))
          (MLPlugins.keywords model) = false ->
  MLPlugins.calculateScore filename model = 0%Q.
Proof.
  intros Hp Hk. unfold MLPlugins.calculateScore.
  assert (fold_clear : forall (inc : Q) (l : list string) (q : Q),
             existsb (fun w => JS.includes filename (JS.toLowerCase w)) l = false ->
             fold_left (fun (score : Q) (w : string) =>
                          if JS.includes filename (JS.toLowerCase w)
                          then (score + inc)%Q else score) l q = q).
  { intros inc l. induction l as [|w l IH]; intros q H; simpl in *.
    - reflexivity.
    - apply orb_false_iff in H as [Hw H]. rewrite Hw. apply IH, H. }
  rewrite (fold_clear _ _ _ Hp), (fold_clear _ _ _ Hk). reflexivity.
Qed.

Lemma classify_clear (filename : string) :
  Spec.MLPlugins_filename_clear filename = true ->
  MLPlugins.classify filename
  = if JS.Qlt_bool (3 # 10) (MLPlugins.confidence (MLPlugins.analyzeFileContent filename))
    then (if JS.Qlt_bool (MLPlugins.confidence (MLPlugins.analyzeFileContent filename)) (4 # 10)
          then MLPlugins.mkMatch "General Legal Document" (3 # 10)
          else MLPlugins.analyzeFileContent filename)
    else MLPlugins.mkMatch "General Legal Document" (3 # 10).
Proof.
  unfold Spec.MLPlugins_filename_clear, MLPlugins.classify. intros H.
  assert (Hfold : forall models best,
             MLPlugins.confidence best = (3 # 10)%Q ->
             forallb
               (fun entry : string * MLPlugins.Model =>
                  negb (existsb (fun pattern => JS.includes (JS.toLowerCase filename)
                                                            (JS.toLowerCase pattern))
                                (MLPlugins.patterns (snd entry)))
                  && negb (existsb (fun keyword => JS.includes (JS.toLowerCase filename)
                                                               (JS.toLowerCase keyword))
                                   (MLPlugins.keywords (snd entry))))
               models = true ->
             fold_left
               (fun (bestMatch : MLPlugins.Match) (entry : string * MLPlugins.Model) =>
                  let '(docType, model) := entry in
                  let score := MLPlugins.calculateScore (JS.toLowerCase filename) model in
                  if JS.Qlt_bool (MLPlugins.confidence bestMatch) score
                  then MLPlugins.mkMatch docType score
                  else bestMatch)
               models best = best).
  { intros models. induction models as [|[docType model] models IH]; intros best Hb Hm;
      simpl in *.
    - reflexivity.
    - apply andb_true_iff in Hm as [Hm1 Hm]. apply andb_true_iff in Hm1 as [Hp Hk].
      apply negb_true_iff in Hp, Hk.
      rewrite (calculateScore_clear _ _ Hp Hk), Hb. simpl. apply IH; assumption. }
  cbv zeta in Hfold |- *.
  rewrite (Hfold MLPlugins.models (MLPlugins.mkMatch "Unknown Document" (3 # 10)) eq_refl H).
  simpl.
  destruct (JS.Qlt_bool (3 # 10) _) eqn:E; reflexivity.
Qed.

End OtherClassifiers.

(** C4 (as amended). For every input text and file name containing none
    of any profile's indicator keywords, phrases or regex patterns, each
    classifier returns its generic fallback type: [AIDocumentAnalyzer]
    returns "Unknown Document" with confidence 0; [DocumentClassifier]
    returns "General Legal Document" with confidence 0.3, provided the
    file name also matches none of the substrings of [analyzeFileContent];
    [DocumentAnalyzer.identifyDocumentType] returns "Legal Document" with
    confidence 0.60. *)
Theorem C4_fallback_classification :
  (forall (this : AI.Analyzer) (text filename : string),
     Spec.AI_text_clear this text = true ->
     Spec.AI_filename_clear this filename = true ->
     fst (AI.classifyDocument text filename this)
     = AI.mkClassification "Unknown Document" 0 "Unable to determine document type")
  /\ (forall filename : string,
        Spec.MLPlugins_filename_clear filename = true ->
        MLPlugins.analyzeFileContent filename = MLPlugins.mkMatch "Unknown Document" (2 # 10) ->
        MLPlugins.classify filename = MLPlugins.mkMatch "General Legal Document" (3 # 10))
  /\ (forall text filename : string,
        Spec.FunctionApp_filename_clear filename = true ->
        FunctionApp.identifyDocumentType text filename
        = FunctionApp.mkClassification "Legal Document" (60 # 100) "Ontario").
Proof.
  split; [|split].
  - intros this text filename Ht Hf. rewrite (classifyDocument_clear this text filename Ht Hf).
    reflexivity.
  - intros filename Hclear Hcontent. rewrite (classify_clear filename Hclear), Hcontent.
    reflexivity.
  - intros text filename Hclear. apply identifyDocumentType_clear, Hclear.
Qed.

Lemma C4_fallback_classification_witness :
  fst (AI.classifyDocument "Hello world" "scan.pdf" AI.new)
  = AI.mkClassification "Unknown Document" 0 "Unable to determine document type"
  /\ MLPlugins.classify "scan.pdf" = MLPlugins.mkMatch "General Legal Document" (3 # 10)
  /\ FunctionApp.identifyDocumentType "Hello world" "scan.pdf"
     = FunctionApp.mkClassification "Legal Document" (60 # 100) "Ontario".
Proof.
  destruct C4_fallback_classification as (Hai & Hml & Hfa).
  split; [|split].
  - apply Hai; vm_compute; reflexivity.
  - apply Hml; vm_compute; reflexivity.
  - apply Hfa; vm_compute; reflexivity.
Defined.

(** C4, the claim as stated, fails: a file name with none of the keywords
    of [identifyDocumentType] gets the fallback type with confidence 0.60,
    above 0.4; and a file name with no keyword or pattern of any model of
    [DocumentClassifier] can still be classified by [analyzeFileContent],
    here as an A2 form with confidence 0.9. *)
Lemma C4_counterexample :
  Spec.FunctionApp_filename_clear "scan.pdf" = true
  /\ FunctionApp.documentType (FunctionApp.identifyDocumentType "Hello world" "scan.pdf")
     = "Legal Document"
  /\ ~ (FunctionApp.confidence (FunctionApp.identifyDocumentType "Hello world" "scan.pdf")
        <= 4 # 10)%Q
  /\ Spec.MLPlugins_filename_clear "a2.pdf" = true
  /\ MLPlugins.classify "a2.pdf"
     = MLPlugins.mkMatch "A2 Form (Landlord and Tenant Board)" (9 # 10).
Proof.
  repeat split; try (vm_compute; reflexivity).
  vm_compute. intros H. apply H. reflexivity.
Qed.

(** C5 (as amended). Classifying the empty text, with a file name that
    matches no type heuristics, returns the generic fallback type; its
    confidence is 0 in [AIDocumentAnalyzer] and 0.3 in
    [DocumentClassifier], both at most 0.3, but 0.60 in
    [DocumentAnalyzer.identifyDocumentType]; the field-completeness score
    computed for the empty text and that type is 0. *)
Theorem C5_empty_text :
  (forall filename : string,
     Spec.AI_filename_clear AI.new filename = true ->
     let c := fst (AI.classifyDocument "" filename AI.new) in
     AI.c_documentType c = "Unknown Document"
     /\ AI.c_confidence c = 0%Q
     /\ (AI.c_confidence c <= 3 # 10)%Q
     /\ AI.score (AI.completeness
                    (fst (AI.analyzeFieldCompleteness "" (AI.c_documentType c) AI.new))) = 0%Z)
  /\ (forall filename : string,
        Spec.MLPlugins_filename_clear filename = true ->
        MLPlugins.analyzeFileContent filename = MLPlugins.mkMatch "Unknown Document" (2 # 10) ->
        MLPlugins.type (MLPlugins.classify filename) = "General Legal Document"
        /\ (MLPlugins.confidence (MLPlugins.classify filename) <= 3 # 10)%Q)
  /\ (forall filename : string,
        Spec.FunctionApp_filename_clear filename = true ->
        let c := FunctionApp.identifyDocumentType "" filename in
        FunctionApp.documentType c = "Legal Document"
        /\ FunctionApp.confidence c = (60 # 100)%Q
        /\ FunctionApp.score
             (FunctionApp.completeness
                (FunctionApp.checkFieldCompleteness "" (FunctionApp.documentType c))) = 0%Z).
Proof.
  split; [|split].
  - intros filename Hf c. subst c.
    assert (Ht : Spec.AI_text_clear AI.new "" = true) by (vm_compute; reflexivity).
    rewrite (classifyDocument_clear AI.new "" filename Ht Hf). simpl.
    repeat split; try discriminate; vm_compute; reflexivity.
  - intros filename Hclear Hcontent. rewrite (classify_clear filename Hclear), Hcontent.
    simpl. split; [reflexivity | discriminate].
  - intros filename Hclear c. subst c.
    rewrite (identifyDocumentType_clear "" filename Hclear). simpl.
    repeat split; vm_compute; reflexivity.
Qed.

Lemma C5_empty_text_witness :
  AI.c_documentType (fst (AI.classifyDocument "" "scan.pdf" AI.new)) = "Unknown Document"
  /\ MLPlugins.type (MLPlugins.classify "scan.pdf") = "General Legal Document"
  /\ FunctionApp.documentType (FunctionApp.identifyDocumentType "" "scan.pdf") = "Legal Document".
Proof.
  destruct C5_empty_text as (Hai & Hml & Hfa).
  split; [|split].
  - apply (Hai "scan.pdf"). vm_compute. reflexivity.
  - apply (Hml "scan.pdf"); vm_compute; reflexivity.
  - apply (Hfa "scan.pdf"). vm_compute. reflexivity.
Defined.

(** C5, the claim as stated, fails in [DocumentAnalyzer.identifyDocumentType]:
    the empty text with the empty file name gets the fallback type with
    confidence 0.60, above 0.3. *)
Lemma C5_counterexample :
  FunctionApp.documentType (FunctionApp.identifyDocumentType "" "") = "Legal Document"
  /\ ~ (FunctionApp.confidence (FunctionApp.identifyDocumentType "" "") <= 3 # 10)%Q.
Proof.
  split; [reflexivity|]. vm_compute. intros H. apply H. reflexivity.
Qed.

(** ** The chat system *)

Section ChatFacts.
Import Chat.

Lemma string_app_assoc (a b c : string) : (a +:+ b) +:+ c = a +:+ (b +:+ c).
Proof.
  induction a as [|x a IH].
  - reflexivity.
  - change (String x ((a +:+ b) +:+ c) = String x (a +:+ (b +:+ c))). f_equal. exact IH.
Qed.

Lemma startsWith_append (p s t : string) :
  JS.startsWith p s = true -> JS.startsWith p (s +:+ t) = true.
Proof.
  revert s. induction p as [|x p IH]; intros s H.
  - reflexivity.
  - destruct s as [|y s]; [discriminate|].
    change (JS.startsWith (String x p) (String y (s +:+ t)) = true).
    simpl in *. apply andb_true_iff in H as [Hx Hp]. rewrite Hx. simpl. apply IH, Hp.
Qed.

Lemma includes_append_l (a b v : string) :
  JS.includes a v = true -> JS.includes (a +:+ b) v = true.
Proof.
  induction a as [|x a IH]; intros H.
  - simpl in H. rewrite orb_false_r in H.
    apply includes_startsWith. apply (startsWith_append v "" b H).
  - change (JS.includes (String x (a +:+ b)) v = true). simpl in *.
    apply orb_true_iff in H as [H|H].
    + change (String x (a +:+ b)) with (String x a +:+ b).
      rewrite (startsWith_append v (String x a) b H). reflexivity.
    + rewrite (IH H). apply orb_true_r.
Qed.

Lemma includes_append_r (a b v : string) :
  JS.includes b v = true -> JS.includes (a +:+ b) v = true.
Proof.
  intros H. induction a as [|x a IH].
  - exact H.
  - change (JS.includes (String x (a +:+ b)) v = true). simpl. rewrite IH. apply orb_true_r.
Qed.

Lemma includes_refl (v : string) : JS.includes v v = true.
Proof.
  apply includes_startsWith. induction v as [|x v IH]; simpl.
  - reflexivity.
  - rewrite Ascii.eqb_refl. exact IH.
Qed.

Lemma startsWith_decompose (p s : string) :
  JS.startsWith p s = true -> exists t, s = p +:+ t.
Proof.
  revert s. induction p as [|x p IH]; intros s H.
  - exists s. reflexivity.
  - destruct s as [|y s]; [discriminate|]. simpl in H.
    apply andb_true_iff in H as [Hx Hp]. apply Ascii.eqb_eq in Hx. subst y.
    destruct (IH s Hp) as [t ->]. exists t. reflexivity.
Qed.

Lemma includes_decompose (a v : string) :
  JS.includes a v = true -> exists pre post, a = pre +:+ v +:+ post.
Proof.
  induction a as [|x a IH]; intros H; simpl in H.
  - rewrite orb_false_r in H. destruct (startsWith_decompose v "" H) as [t E].
    exists "", t. exact E.
  - apply orb_true_iff in H as [H|H].
    + destruct (startsWith_decompose v (String x a) H) as [t E]. exists "", t. exact E.
    + destruct (IH H) as (pre & post & ->). exists (String x pre), post. reflexivity.
Qed.

(** A text that contains [p +:+ v] contains [v]. *)
Lemma includes_suffix (a p v : string) :
  JS.includes a (p +:+ v) = true -> JS.includes a v = true.
Proof.
  intros H. destruct (includes_decompose a (p +:+ v) H) as (pre & post & ->).
  rewrite string_app_assoc, <- (string_app_assoc pre p). apply includes_app.
Qed.

Lemma copy_field_lookup (name : string) (value : option string) (fields : gmap string string)
    (k : string) :
  copy_field name value fields !! k
  = if String.eqb name k && JS.truthy value then value else fields !! k.
Proof.
  unfold copy_field. destruct value as [v|]; simpl.
  - destruct (negb (v =? "")%string); simpl.
    + destruct (String.eqb_spec name k) as [->|Hne]; simpl.
      * apply lookup_insert_eq.
      * apply lookup_insert_ne. exact Hne.
    + rewrite andb_false_r. reflexivity.
  - rewrite andb_false_r. reflexivity.
Qed.

Lemma keyFields_purchasePrice (d : DocumentData) :
  extractKeyFields (Some d) !! "purchasePrice"
  = if JS.truthy (purchasePrice d) then purchasePrice d else None.
Proof.
  unfold extractKeyFields. cbv zeta. rewrite !copy_field_lookup. simpl.
  destruct (JS.truthy (purchasePrice d)); reflexivity.
Qed.

Lemma field_line_append (fields : gmap string string) (name label ending response : string) :
  exists suffix, field_line fields name label ending response = response +:+ suffix.
Proof.
  unfold field_line. destruct (fields !! name) as [v|].
  - destruct (JS.truthy (Some v)).
    + eexists. reflexivity.
    + exists "". induction response as [|x r IH]; [reflexivity|].
      change (String x r = String x (r +:+ "")). f_equal. exact IH.
  - exists "". induction response as [|x r IH]; [reflexivity|].
    change (String x r = String x (r +:+ "")). f_equal. exact IH.
Qed.

(** With a purchase price among the key fields, the financial answer
    shows it after its label. *)
Lemma generateFinancialResponse_price (context : Context) (price : string) :
  keyFields context !! "purchasePrice" = Some price ->
  JS.truthy (Some price) = true ->
  JS.includes (generateFinancialResponse context) ("**Purchase Price**: " +:+ price) = true.
Proof.
  intros Hprice Htruthy. unfold generateFinancialResponse. cbv zeta.
  unfold has_field. rewrite Hprice, Htruthy. simpl negb. simpl andb.
  set (r0 := "## Financial Information" +:+ JS.nl +:+ JS.nl).
  assert (H1 : JS.includes
                 (field_line (keyFields context) "purchasePrice" "Purchase Price"
                             (JS.nl +:+ JS.nl) r0)
                 ("**Purchase Price**: " +:+ price) = true).
  { unfold field_line. rewrite Hprice, Htruthy.
    apply includes_append_r.
    change ("**" +:+ "Purchase Price" +:+ "**: " +:+ price +:+ JS.nl +:+ JS.nl)
      with ("**Purchase Price**: " +:+ (price +:+ (JS.nl +:+ JS.nl))).
    rewrite <- string_app_assoc. apply includes_append_l, includes_refl. }
  destruct (field_line_append (keyFields context) "depositAmount" "Deposit Amount"
              (JS.nl +:+ JS.nl)
              (field_line (keyFields context) "purchasePrice" "Purchase Price"
                          (JS.nl +:+ JS.nl) r0)) as [s2 E2].
  rewrite E2.
  destruct (field_line_append (keyFields context) "rentAmount" "Rent Amount"
              (JS.nl +:+ JS.nl)
              (field_line (keyFields context) "purchasePrice" "Purchase Price"
                          (JS.nl +:+ JS.nl) r0 +:+ s2)) as [s3 E3].
  rewrite E3. apply includes_append_l, includes_append_l, H1.
Qed.

End ChatFacts.

(** C6 (as amended). In [EnhancedChatSystem], the question "What is the
    purchase price?" is classified into the financial intent, and for
    every analysis result whose [purchasePrice] is populated the returned
    Markdown contains that value verbatim, after the label
    "**Purchase Price**: ".  The handler of [POST /api/qa] in
    function-app.js has no price intent and never reads [purchasePrice]:
    its reply is the same whatever that member holds. *)
Theorem C6_purchase_price_answer :
  Chat.classifyQuestion "What is the purchase price?" = "financial"
  /\ (forall (d : Chat.DocumentData) (price : string),
        Chat.purchasePrice d = Some price ->
        price <> "" ->
        let r := Chat.processQuestion "What is the purchase price?" (Some d) in
        Chat.questionType r = "financial"
        /\ JS.includes (Chat.answerMarkdown r) price = true
        /\ JS.includes (Chat.answerMarkdown r) ("**Purchase Price**: " +:+ price) = true)
  /\ (forall (question documentType : string) (fc : option FunctionApp.FieldStatus)
             (vc : option FunctionApp.ValidityCheck) (price : option string),
        FunctionApp.answerMarkdown question documentType
          (Some (FunctionApp.mkExtracted fc vc price))
        = FunctionApp.answerMarkdown question documentType
            (Some (FunctionApp.mkExtracted fc vc None))).
Proof.
  split; [reflexivity | split].
  - intros d price Hprice Hne r. subst r.
    assert (Htruthy : JS.truthy (Some price) = true).
    { simpl. destruct (String.eqb_spec price ""); [contradiction | reflexivity]. }
    assert (Hkey : Chat.keyFields (Chat.extractDocumentContext (Some d)) !! "purchasePrice"
                   = Some price).
    { unfold Chat.extractDocumentContext. cbn [Chat.keyFields].
      rewrite keyFields_purchasePrice, Hprice, Htruthy. reflexivity. }
    pose proof (generateFinancialResponse_price _ price Hkey Htruthy) as Hinc.
    unfold Chat.processQuestion.
    change (Chat.classifyQuestion "What is the purchase price?") with "financial".
    unfold Chat.generateContextualResponse. cbn [String.eqb Ascii.eqb Bool.eqb].
    cbn [Chat.questionType Chat.answerMarkdown].
    split; [reflexivity | split; [|exact Hinc]].
    clear Hkey Htruthy.
    revert Hinc. generalize (Chat.generateFinancialResponse (Chat.extractDocumentContext (Some d))).
    intros answer Hinc.
    apply (includes_suffix answer "**Purchase Price**: " price Hinc).
  - intros. reflexivity.
Qed.

Lemma C6_purchase_price_answer_witness :
  JS.includes
    (Chat.answerMarkdown
       (Chat.processQuestion "What is the purchase price?" (Some Samples.priced_result)))
    "$750,000" = true.
Proof.
  apply (proj1 (proj2 C6_purchase_price_answer) Samples.priced_result "$750,000").
  - reflexivity.
  - discriminate.
Defined.

(** C6, the claim as stated, fails for the handler of [POST /api/qa] in
    function-app.js: asked "What is the purchase price?" about a result
    whose [purchasePrice] is "$750,000", it takes none of its three
    intents and the Markdown it returns does not contain the value. *)
Lemma C6_counterexample :
  let extractedData :=
    FunctionApp.mkExtracted
      (Some (FunctionApp.checkFieldCompleteness Samples.aps_text FunctionApp.APS))
      (Some (FunctionApp.checkDocumentValidity Samples.aps_text FunctionApp.APS))
      (Some "$750,000") in
  JS.includes
    (FunctionApp.answerMarkdown "What is the purchase price?" FunctionApp.APS
                                (Some extractedData))
    "$750,000" = false.
Proof.
  vm_compute. reflexivity.
Qed.

(** ** Effects on the analyzer *)

Section AIFrame.
Import AI.

Lemma classifyDocument_frame (text filename : string) (this : Analyzer) :
  snd (classifyDocument text filename this) = this.
Proof. reflexivity. Qed.

Lemma analyzeFieldCompleteness_frame (text ty : string) (this : Analyzer) :
  snd (analyzeFieldCompleteness text ty this) = this.
Proof.
  unfold analyzeFieldCompleteness, bind, gets, ret.
  destruct (find _ _); [|reflexivity].
  destruct (fold_left _ _ _). reflexivity.
Qed.

Lemma analyzeValidity_frame (host : Host) (text ty : string) (this : Analyzer) :
  snd (analyzeValidity host text ty this) = this.
Proof. apply analyzeValidity_spec. Qed.

Lemma learnFromAnalysis_frame (filename : string) (c : Classification) (f : FieldStatus)
    (v : Validity) (timestamp : string) (this : Analyzer) :
  documentPatterns (snd (learnFromAnalysis filename c f v timestamp this))
  = documentPatterns this.
Proof. reflexivity. Qed.

(** The classification depends on the analyzer through its profile table
    only. *)
Lemma classifyDocument_reads_patterns (text filename : string) (this this' : Analyzer) :
  documentPatterns this = documentPatterns this' ->
  fst (classifyDocument text filename this) = fst (classifyDocument text filename this').
Proof.
  intros H. unfold classifyDocument, bind, gets, ret. simpl. rewrite H. reflexivity.
Qed.

End AIFrame.

(** C8. No analysis operation of [AIDocumentAnalyzer] (classification,
    field-completeness check, validity check) changes the analyzer, and
    recording an analysis in the learning history leaves the profile table
    as it is; the classifier is a function of its inputs and that table:
    for every text and file name, a second call returns the same
    classification as the first, also after a whole analysis has been run
    and recorded in between.  (The methods of [DocumentAnalyzer] and
    [DocumentClassifier] read their tables and write nothing; they are
    functions of their arguments.) *)
Theorem C8_profile_tables_not_mutated :
  (forall (this : AI.Analyzer) (text filename : string),
     snd (AI.classifyDocument text filename this) = this)
  /\ (forall (this : AI.Analyzer) (text ty : string),
        snd (AI.analyzeFieldCompleteness text ty this) = this)
  /\ (forall (host : AI.Host) (this : AI.Analyzer) (text ty : string),
        snd (AI.analyzeValidity host text ty this) = this)
  /\ (forall (this : AI.Analyzer) (filename timestamp : string) (c : AI.Classification)
             (f : AI.FieldStatus) (v : AI.Validity),
        AI.documentPatterns (snd (AI.learnFromAnalysis filename c f v timestamp this))
        = AI.documentPatterns this)
  /\ (forall (this : AI.Analyzer) (text filename : string),
        let (first, this1) := AI.classifyDocument text filename this in
        let (second, _) := AI.classifyDocument text filename this1 in
        second = first)
  /\ (forall (host : AI.Host) (this : AI.Analyzer) (text filename timestamp : string),
        let (first, this1) := AI.classifyDocument text filename this in
        let (completeness, this2) :=
          AI.analyzeFieldCompleteness text (AI.c_documentType first) this1 in
        let (validity, this3) := AI.analyzeValidity host text (AI.c_documentType first) this2 in
        let (_, this4) :=
          AI.learnFromAnalysis filename first completeness validity timestamp this3 in
        let (second, _) := AI.classifyDocument text filename this4 in
        second = first
        /\ AI.documentPatterns this4 = AI.documentPatterns this).
Proof.
  repeat apply conj.
  - intros. apply classifyDocument_frame.
  - intros. apply analyzeFieldCompleteness_frame.
  - intros. apply analyzeValidity_frame.
  - intros. apply learnFromAnalysis_frame.
  - intros this text filename. reflexivity.
  - intros host this text filename timestamp.
    destruct (AI.classifyDocument text filename this) as [first this1] eqn:E1.
    assert (H1 : this1 = this) by (rewrite <- (classifyDocument_frame text filename this), E1; reflexivity).
    destruct (AI.analyzeFieldCompleteness text (AI.c_documentType first) this1)
      as [completeness this2] eqn:E2.
    assert (H2 : this2 = this1)
      by (rewrite <- (analyzeFieldCompleteness_frame text (AI.c_documentType first) this1), E2;
          reflexivity).
    destruct (AI.analyzeValidity host text (AI.c_documentType first) this2)
      as [validity this3] eqn:E3.
    assert (H3 : this3 = this2)
      by (rewrite <- (analyzeValidity_frame host text (AI.c_documentType first) this2), E3;
          reflexivity).
    destruct (AI.learnFromAnalysis filename first completeness validity timestamp this3)
      as [u this4] eqn:E4.
    assert (H4 : AI.documentPatterns this4 = AI.documentPatterns this3)
      by (rewrite <- (learnFromAnalysis_frame filename first completeness validity timestamp this3),
            E4; reflexivity).
    destruct (AI.classifyDocument text filename this4) as [second this5] eqn:E5.
    subst this3 this2 this1. split; [|exact H4].
    pose proof (classifyDocument_reads_patterns text filename this4 this H4) as Hsame.
    rewrite E5, E1 in Hsame. exact Hsame.
Qed.

(** ** Fields without a pattern *)

Section AIDefaultPattern.
Import AI RegExp.

(** A greedy star matches at the very start of every text. *)
Lemma test_star (r : regex) (text : string) : test (Star true r) text = true.
Proof.
  unfold test.
  assert (H : match_at (Star true r) 0 text <> None).
  { unfold match_at. simpl. destruct (String.length text); simpl.
    - discriminate.
    - destruct (run r 0 text [] _); simpl; discriminate. }
  destruct text; simpl; destruct (match_at (Star true r) 0 _); congruence.
Qed.

Lemma field_found_default (text field : string) :
  fieldPatterns !! field = None -> field_found text field = true.
Proof.
  intros H. unfold field_found, getFieldPatterns. rewrite H. simpl.
  unfold star. rewrite test_star. reflexivity.
Qed.

End AIDefaultPattern.

(** C9. In [AIDocumentAnalyzer], a required field name with no entry in
    the field-pattern map (such as "irrevocableDate" of the purchase
    agreement) falls back to the catch-all pattern [.*], which matches
    every text, the empty one included; so for every text such a field is
    counted present and is never reported missing.  This holds for every
    profile of the built-in database, and for every profile added to an
    analyzer whose required fields are not named like a member inherited
    from [Object.prototype] (for such a name the lookup yields the
    inherited member instead of the fallback). *)
Theorem C9_unlisted_field_always_present :
  (forall text : string, RegExp.test (RegExp.star RegExp.dot) text = true)
  /\ (forall text field : string,
        AI.fieldPatterns !! field = None ->
        JS.inherited field = false ->
        AI.getFieldPatterns field = [RegExp.star RegExp.dot]
        /\ AI.field_found text field = true)
  /\ (forall (this : AI.Analyzer) (text ty field : string) (pattern : AI.Pattern),
        find (fun p => String.eqb (AI.documentType p) ty) (map snd (AI.documentPatterns this))
        = Some pattern ->
        forallb (fun name => negb (JS.inherited name)) (AI.requiredFields pattern) = true ->
        In field (AI.requiredFields pattern) ->
        AI.fieldPatterns !! field = None ->
        let c := AI.completeness (fst (AI.analyzeFieldCompleteness text ty this)) in
        In field (AI.presentRequired c) /\ ~ In field (AI.missingRequired c))
  /\ (forall (text ty field : string) (pattern : AI.Pattern),
        find (fun p => String.eqb (AI.documentType p) ty)
             (map snd (AI.documentPatterns AI.new)) = Some pattern ->
        In field (AI.requiredFields pattern) ->
        AI.fieldPatterns !! field = None ->
        JS.inherited field = false
        /\ let c := AI.completeness (fst (AI.analyzeFieldCompleteness text ty AI.new)) in
           In field (AI.presentRequired c) /\ ~ In field (AI.missingRequired c))
  /\ (forall text : string,
        let c :=
          AI.completeness
            (fst (AI.analyzeFieldCompleteness text "Agreement of Purchase and Sale (APS)"
                    AI.new)) in
        In "irrevocableDate" (AI.presentRequired c)
        /\ ~ In "irrevocableDate" (AI.missingRequired c)).
Proof.
  assert (Hfield : forall (this : AI.Analyzer) (text ty field : string) (pattern : AI.Pattern),
             find (fun p => String.eqb (AI.documentType p) ty)
                  (map snd (AI.documentPatterns this)) = Some pattern ->
             In field (AI.requiredFields pattern) ->
             AI.fieldPatterns !! field = None ->
             let c := AI.completeness (fst (AI.analyzeFieldCompleteness text ty this)) in
             In field (AI.presentRequired c) /\ ~ In field (AI.missingRequired c)).
  { intros this text ty field pattern Hfind Hin Hnone c. subst c.
    rewrite (analyzeFieldCompleteness_spec text ty this pattern Hfind). simpl.
    pose proof (field_found_default text field Hnone) as Hfound. split.
    - apply filter_In. split; assumption.
    - intros Hmiss. apply filter_In in Hmiss as [_ Hneg]. rewrite Hfound in Hneg. discriminate. }
  assert (Hbuiltin :
            forallb (fun pattern =>
                       forallb (fun name => negb (JS.inherited name)) (AI.requiredFields pattern))
                    (map snd (AI.documentPatterns AI.new)) = true)
    by (vm_compute; reflexivity).
  repeat apply conj.
  - intros text. apply test_star.
  - intros text field Hnone _. split.
    + unfold AI.getFieldPatterns. rewrite Hnone. reflexivity.
    + apply field_found_default, Hnone.
  - intros this text ty field pattern Hfind _. apply Hfield, Hfind.
  - intros text ty field pattern Hfind Hin Hnone. split.
    + apply find_some in Hfind as [Hpattern _].
      pose proof (proj1 (forallb_forall _ _) Hbuiltin pattern Hpattern) as Hnames.
      pose proof (proj1 (forallb_forall _ _) Hnames field Hin) as Hname.
      apply negb_true_iff, Hname.
    + apply (Hfield AI.new text ty field pattern Hfind Hin Hnone).
  - intros text.
    apply (Hfield AI.new text "Agreement of Purchase and Sale (APS)" "irrevocableDate"
             AI.APS_pattern).
    + reflexivity.
    + simpl. tauto.
    + reflexivity.
Qed.

Lemma C9_unlisted_field_always_present_witness :
  AI.field_found "" "irrevocableDate" = true
  /\ In "irrevocableDate"
        (AI.presentRequired
           (AI.completeness
              (fst (AI.analyzeFieldCompleteness "" "Agreement of Purchase and Sale (APS)"
                      AI.new)))).
Proof.
  destruct C9_unlisted_field_always_present as (_ & Hdefault & Hfield & _).
  split.
  - apply (Hdefault "" "irrevocableDate"); reflexivity.
  - apply (Hfield AI.new "" "Agreement of Purchase and Sale (APS)" "irrevocableDate"
             AI.APS_pattern).
    + reflexivity.
    + reflexivity.
    + simpl. tauto.
    + reflexivity.
Defined.

(** ** Expiry *)

(** C10. [isDocumentExpired] returns true whenever one of the dates in
    MM/DD/YYYY form that it finds in the text is earlier than the current
    date; for every such text [analyzeValidity] then records the issue
    "Document appears to be expired", deducts 30 points, and returns the
    status "Invalid", whatever the date stands for. *)
Theorem C10_past_date_expires :
  forall (host : AI.Host) (text dateStr : string) (date : Z),
    In dateStr (RegExp.match_all AI.mdy text) ->
    AI.Date_parse host dateStr = Some date ->
    (date < AI.Date_now host)%Z ->
    AI.isDocumentExpired host text = true
    /\ forall (ty : string) (this : AI.Analyzer),
         let v := fst (AI.analyzeValidity host text ty this) in
         In "Document appears to be expired" (AI.issues v)
         /\ AI.v_status v = "Invalid"
         /\ AI.v_score v
            = (100 - 30
               - (if AI.hasMissingSignatures text then 20 else 0)
               - (if AI.hasIncompleteSections text then 10 else 0))%Z.
Proof.
  intros host text dateStr date Hin Hparse Hlt.
  assert (Hexp : AI.isDocumentExpired host text = true).
  { unfold AI.isDocumentExpired. apply existsb_exists. exists dateStr. split; [exact Hin|].
    rewrite Hparse. apply Z.ltb_lt, Hlt. }
  split; [exact Hexp|]. intros ty this v. subst v.
  destruct (analyzeValidity_spec host text ty this) as (Hs & Hi & _ & _).
  rewrite Hs, Hi, Hexp. repeat apply conj.
  - simpl. tauto.
  - unfold AI.analyzeValidity. rewrite Hexp.
    destruct (AI.hasMissingSignatures text), (AI.hasIncompleteSections text); reflexivity.
  - reflexivity.
Qed.

Lemma C10_past_date_expires_witness :
  AI.isDocumentExpired Samples.ai_host Samples.aps_text = true
  /\ AI.v_status
       (fst (AI.analyzeValidity Samples.ai_host Samples.aps_text
               "Agreement of Purchase and Sale (APS)" AI.new)) = "Invalid".
Proof.
  assert (H := C10_past_date_expires Samples.ai_host Samples.aps_text "06/15/2024"
                 1718409600000%Z).
  destruct H as (Hexp & Hvalidity).
  - vm_compute. left. reflexivity.
  - reflexivity.
  - vm_compute. reflexivity.
  - split; [exact Hexp|].
    apply (Hvalidity "Agreement of Purchase and Sale (APS)" AI.new).
Defined.

(** * Further properties of the analyzers *)

(** ** AIDocumentAnalyzer: classification *)

Section AIClassifierFacts.
Import AI.

(** What one profile can do to the best match: keep it, or replace it by
    the profile's type with a higher confidence, capped at 1. *)
Lemma classify_step_cases (text filename : string) (best : Classification)
    (entry : string * Pattern) :
  classify_step text filename best entry = best
  \/ exists confidence : Q,
       (c_confidence best < confidence)%Q
       /\ classify_step text filename best entry
          = mkClassification (documentType (snd entry)) (JS.Qmin confidence 1)
                             (description (snd entry)).
Proof.
  unfold classify_step.
  destruct (fold_left _ (visualIndicators (snd entry)) _) as [score0 total0].
  destruct (fold_left _ (textPatterns (snd entry)) _) as [score1 total1].
  match goal with
  | |- context [JS.Qlt_bool (c_confidence best) ?c] =>
      destruct (JS.Qlt_bool (c_confidence best) c) eqn:E;
      [right; exists c; split; [apply Qlt_bool_iff, E | reflexivity] | left; reflexivity]
  end.
Qed.

Lemma Qmin_bounds (q : Q) : (0 < q)%Q -> (0 < JS.Qmin q 1 /\ JS.Qmin q 1 <= 1)%Q.
Proof.
  intros H. unfold JS.Qmin. destruct (Qle_bool q 1) eqn:E.
  - apply Qle_bool_iff in E. split; assumption.
  - split; [reflexivity | apply Qle_refl].
Qed.

(** The invariant of the loop over the profiles, for the profiles of any
    list [all] that holds the ones looped over. *)
Lemma classify_fold_invariant (text filename : string) (all : list Pattern)
    (entries : list (string * Pattern)) (best : Classification) :
  (forall entry, In entry entries -> In (snd entry) all) ->
  (best = unknown_document
   \/ ((0 < c_confidence best)%Q /\ (c_confidence best <= 1)%Q
       /\ exists pattern, In pattern all /\ c_documentType best = documentType pattern
                          /\ c_description best = description pattern)) ->
  let final := fold_left (classify_step text filename) entries best in
  final = unknown_document
  \/ ((0 < c_confidence final)%Q /\ (c_confidence final <= 1)%Q
      /\ exists pattern, In pattern all /\ c_documentType final = documentType pattern
                         /\ c_description final = description pattern).
Proof.
  revert best. induction entries as [|entry entries IH]; intros best Hall Hbest; simpl.
  - exact Hbest.
  - apply IH.
    + intros e He. apply Hall. right. exact He.
    + destruct (classify_step_cases text filename best entry) as [->|(q & Hq & ->)].
      * exact Hbest.
      * right. simpl.
        assert (Hpos : (0 < q)%Q).
        { destruct Hbest as [->|(Hb & _)]; [exact Hq | exact (Qlt_trans _ _ _ Hb Hq)]. }
        destruct (Qmin_bounds q Hpos) as [H0 H1]. repeat split; try assumption.
        exists (snd entry). repeat split. apply Hall. left. reflexivity.
Qed.

Lemma find_by_type (all : list Pattern) (pattern : Pattern) :
  In pattern all ->
  exists found, find (fun p => String.eqb (documentType p) (documentType pattern)) all = Some found.
Proof.
  intros Hin. destruct (find _ all) as [found|] eqn:E.
  - exists found. reflexivity.
  - exfalso. pose proof (find_none _ _ E pattern Hin) as Hno. simpl in Hno.
    rewrite String.eqb_refl in Hno. discriminate.
Qed.

End AIClassifierFacts.

(** X1. For every profile table, text and file name, the confidence that
    [classifyDocument] returns lies between 0 and 1; and its result is
    either the fallback "Unknown Document" (confidence 0) or carries a
    positive confidence and the type of a profile of the table, in which
    case [analyzeFieldCompleteness] for that type finds a profile: the
    status "Unknown Document Type" can only follow the fallback. *)
Theorem X1_classification_confidence_and_type :
  forall (this : AI.Analyzer) (text filename : string),
    let c := fst (AI.classifyDocument text filename this) in
    (0 <= AI.c_confidence c)%Q
    /\ (AI.c_confidence c <= 1)%Q
    /\ (c = AI.unknown_document
        \/ ((0 < AI.c_confidence c)%Q
            /\ exists pattern,
                 find (fun p => String.eqb (AI.documentType p) (AI.c_documentType c))
                      (map snd (AI.documentPatterns this)) = Some pattern)).
Proof.
  intros this text filename c. subst c.
  unfold AI.classifyDocument, AI.bind, AI.gets, AI.ret. simpl.
  pose proof (classify_fold_invariant text filename (map snd (AI.documentPatterns this))
                (AI.documentPatterns this) AI.unknown_document) as H.
  simpl in H. specialize (H (fun entry He => in_map snd _ _ He) (or_introl eq_refl)).
  destruct H as [->|(Hpos & Hle & pattern & Hin & Hty & _)].
  - simpl. repeat split; try discriminate. left. reflexivity.
  - repeat split.
    + apply Qlt_le_weak, Hpos.
    + exact Hle.
    + right. split; [exact Hpos|]. rewrite Hty. apply find_by_type, Hin.
Qed.

(** ** AIDocumentAnalyzer: completeness, validity, learning history *)

Section AIAnalysisFacts.
Import AI.

Lemma filter_split_length {A} (f : A -> bool) (l : list A) :
  (List.length (List.filter f l) + List.length (List.filter (fun x => negb (f x)) l)
   = List.length l)%nat.
Proof.
  induction l as [|a l IH]; simpl; [reflexivity|]. destruct (f a); simpl; lia.
Qed.

Lemma filter_split_permutation {A} (f : A -> bool) (l : list A) :
  Permutation (List.filter f l ++ List.filter (fun x => negb (f x)) l) l.
Proof.
  induction l as [|a l IH]; simpl; [constructor|]. destruct (f a); simpl.
  - constructor. exact IH.
  - symmetry. etransitivity; [|apply Permutation_middle]. constructor. symmetry. exact IH.
Qed.

Lemma ratio_full (p n : nat) :
  (0 < n)%nat -> (p <= n)%nat ->
  ((100 <= inject_Z (Z.of_nat p) / inject_Z (Z.of_nat n) * 100)%Q <-> p = n).
Proof.
  intros Hn Hp.
  assert (Hz : (0 < Z.of_nat n)%Z) by lia.
  destruct (Z.of_nat n) as [|P|P] eqn:E; try lia.
  unfold Qle, Qdiv, Qmult, Qinv, inject_Z. simpl.
  split; intros H; nia.
Qed.

Lemma completeness_status_Complete (q : Q) :
  completeness_status q = "Complete" <-> (100 <= q)%Q.
Proof.
  split.
  - unfold completeness_status. intros H.
    destruct (JS.Qlt_bool q 50); [discriminate|].
    destruct (JS.Qlt_bool q 80); [discriminate|].
    destruct (JS.Qlt_bool q 100) eqn:E; [discriminate|].
    apply Qlt_bool_false_iff, E.
  - apply AI_completeness_status_spec.
Qed.

Lemma last_n_suffix {A} (n : nat) (l : list A) :
  exists dropped, l = dropped ++ last_n n l.
Proof.
  unfold last_n. exists (firstn (List.length l - n) l). symmetry. apply firstn_skipn.
Qed.

Lemma last_n_length {A} (n : nat) (l : list A) :
  List.length (last_n n l) = Nat.min (List.length l) n.
Proof.
  unfold last_n. rewrite length_skipn. lia.
Qed.

End AIAnalysisFacts.

(** X2. [analyzeFieldCompleteness] sorts the required fields of the
    profile into [presentRequired] and [missingRequired]: together the
    two lists are a rearrangement of the required fields, so every
    required field is in exactly one of them as often as the profile lists
    it; and for a profile with at least one required field the status is
    "Complete" exactly when no field is missing. *)
Theorem X2_completeness_partition :
  forall (this : AI.Analyzer) (text ty : string) (pattern : AI.Pattern),
    find (fun p => String.eqb (AI.documentType p) ty) (map snd (AI.documentPatterns this))
    = Some pattern ->
    let c := AI.completeness (fst (AI.analyzeFieldCompleteness text ty this)) in
    Permutation (AI.presentRequired c ++ AI.missingRequired c) (AI.requiredFields pattern)
    /\ (List.length (AI.presentRequired c) + List.length (AI.missingRequired c)
        = List.length (AI.requiredFields pattern))%nat
    /\ (AI.requiredFields pattern <> [] ->
        (AI.status c = "Complete" <-> AI.missingRequired c = [])).
Proof.
  intros this text ty pattern Hfind c. subst c.
  rewrite (analyzeFieldCompleteness_spec text ty this pattern Hfind). simpl.
  pose proof (filter_split_length (AI.field_found text) (AI.requiredFields pattern)) as Hlen.
  repeat split.
  - apply filter_split_permutation.
  - exact Hlen.
  - intros Hcomplete. apply completeness_status_Complete in Hcomplete.
    apply ratio_full in Hcomplete.
    + apply length_zero_iff_nil. lia.
    + destruct (AI.requiredFields pattern); [contradiction | simpl; lia].
    + lia.
  - intros Hmissing. apply completeness_status_Complete. apply ratio_full.
    + destruct (AI.requiredFields pattern); [contradiction | simpl; lia].
    + lia.
    + rewrite Hmissing in Hlen. simpl in Hlen. lia.
Qed.

Lemma X2_completeness_partition_witness :
  let c :=
    AI.completeness
      (fst (AI.analyzeFieldCompleteness Samples.aps_text
              "Agreement of Purchase and Sale (APS)" AI.new)) in
  Permutation (AI.presentRequired c ++ AI.missingRequired c)
              (AI.requiredFields AI.APS_pattern)
  /\ (AI.status c = "Complete" <-> AI.missingRequired c = []).
Proof.
  destruct (X2_completeness_partition AI.new Samples.aps_text
              "Agreement of Purchase and Sale (APS)" AI.APS_pattern eq_refl)
    as (Hperm & _ & Hiff).
  split; [exact Hperm|]. apply Hiff. discriminate.
Defined.

(** X3. The status and the score of [analyzeValidity] go together: the
    status is "Valid" exactly at score 100, "Valid with Warnings" exactly
    at score 90, and "Invalid" at every other score (80 and below); the
    summary [determineValidityStatus] of the same result agrees with the
    status except that it reads "Valid with Issues" where the status
    reads "Valid with Warnings". *)
Theorem X3_validity_status_and_score :
  forall (host : AI.Host) (text ty : string) (this : AI.Analyzer),
    let v := fst (AI.analyzeValidity host text ty this) in
    AI.v_status v
    = (if (AI.v_score v =? 100)%Z then "Valid"
       else if (AI.v_score v =? 90)%Z then "Valid with Warnings"
       else "Invalid")
    /\ AIReport.determineValidityStatus v
       = (if (AI.v_score v =? 100)%Z then "Valid"
          else if (AI.v_score v =? 90)%Z then "Valid with Issues"
          else "Invalid")
    /\ ((AI.v_score v =? 100)%Z || (AI.v_score v =? 90)%Z || (AI.v_score v <=? 80)%Z = true).
Proof.
  intros host text ty this v. subst v. unfold AI.analyzeValidity, AIReport.determineValidityStatus.
  destruct (AI.isDocumentExpired host text), (AI.hasMissingSignatures text),
    (AI.hasIncompleteSections text); simpl; repeat split.
Qed.

Lemma learnFromAnalysis_history :
  forall (this : AI.Analyzer) (filename timestamp : string) (c : AI.Classification)
         (f : AI.FieldStatus) (v : AI.Validity),
    let entry := AI.mkEntry filename c f v timestamp in
    let history := AI.learningHistory this in
    let history' := AI.learningHistory (snd (AI.learnFromAnalysis filename c f v timestamp this)) in
    List.length history' = Nat.min (S (List.length history)) 1000
    /\ (exists dropped, history ++ [entry] = dropped ++ history')
    /\ List.last history' entry = entry
    /\ (exists kept, history' = kept ++ [entry]).
Proof.
  intros this filename timestamp c f v entry history history'.
  subst history'. unfold AI.learnFromAnalysis, AI.modify. simpl.
  fold entry. fold history.
  assert (Hlen : List.length (history ++ [entry]) = S (List.length history))
    by (rewrite length_app; simpl; lia).
  destruct (1000 <? List.length (history ++ [entry]))%nat eqn:E.
  - apply Nat.ltb_lt in E.
    assert (Hkept : exists kept, AI.last_n 1000 (history ++ [entry]) = kept ++ [entry]).
    { unfold AI.last_n. rewrite skipn_app.
      replace (List.length (history ++ [entry]) - 1000 - List.length history)%nat with O by lia.
      simpl. eexists. reflexivity. }
    repeat split.
    + rewrite last_n_length. lia.
    + apply last_n_suffix.
    + destruct Hkept as [kept ->]. apply last_last.
    + exact Hkept.
  - apply Nat.ltb_ge in E. repeat split.
    + lia.
    + exists []. reflexivity.
    + apply last_last.
    + exists history. reflexivity.
Qed.

(** X4. [learnFromAnalysis] appends the analysis to the learning history
    and keeps the last 1000 entries: whatever the history held, afterwards
    it holds min(previous length + 1, 1000) entries, it is the tail of the
    previous history followed by the new entry, and the new entry is its
    last element. *)
Theorem X4_learning_history_bounded :
  forall (this : AI.Analyzer) (filename timestamp : string) (c : AI.Classification)
         (f : AI.FieldStatus) (v : AI.Validity),
    let entry := AI.mkEntry filename c f v timestamp in
    let history := AI.learningHistory this in
    let history' := AI.learningHistory (snd (AI.learnFromAnalysis filename c f v timestamp this)) in
    List.length history' = Nat.min (S (List.length history)) 1000
    /\ (exists dropped, history ++ [entry] = dropped ++ history')
    /\ List.last history' entry = entry
    /\ (exists kept, history' = kept ++ [entry]).
Proof. exact learnFromAnalysis_history. Qed.

(** X5. The report texts follow the analysis: [generateReasons] gives one
    line about completeness followed by every issue and then every
    warning, in order; [generateSuggestedActions] never returns an empty
    list, gives at most two actions, and its only action is "Document
    appears complete and valid" exactly when no required field is missing
    and there is no issue. *)
Theorem X5_reasons_and_actions :
  forall (completeness : AI.FieldStatus) (validity : AI.Validity),
    (exists first,
       AIReport.generateReasons completeness validity
       = first :: AI.issues validity ++ AI.warnings validity)
    /\ (1 <= List.length (AIReport.generateSuggestedActions completeness validity) <= 2)%nat
    /\ (AIReport.generateSuggestedActions completeness validity
        = ["Document appears complete and valid"]
        <-> AI.missingRequired (AI.completeness completeness) = [] /\ AI.issues validity = []).
Proof.
  intros completeness validity.
  unfold AIReport.generateReasons, AIReport.generateSuggestedActions.
  split; [|split].
  - destruct (AI.issues validity) as [|i il];
      destruct (AI.warnings validity) as [|w ws];
      destruct (AI.score (AI.completeness completeness) =? 100)%Z; simpl;
      rewrite ?app_nil_r; eexists; reflexivity.
  - destruct (AI.missingRequired (AI.completeness completeness)) as [|m ms];
      destruct (AI.issues validity) as [|i il]; simpl; lia.
  - destruct (AI.missingRequired (AI.completeness completeness)) as [|m ms];
      destruct (AI.issues validity) as [|i il]; simpl; split;
      try (intros [H1 H2]; discriminate); try (intros H; discriminate H);
      try (intros _; split; reflexivity).
Qed.


(** ** function-app.js: validity status and the fallback profile *)

(** X7. [checkDocumentValidity] of function-app.js never reports an
    expiry: [expiryInfo] is always [{ isExpired: false, ageInDays: null }],
    whatever [maxAge] the profile carries.  Its status is decided by the
    score and the issues alone: "Potentially Invalid" below 80, otherwise
    "Valid with Issues" when a signature is missing and "Valid" when none
    is; so the status is "Valid" exactly when there is no issue, and a
    missing date alone (score 90) never changes the status. *)
Theorem X7_function_app_validity_status :
  forall text ty : string,
    let v := FunctionApp.checkDocumentValidity text ty in
    FunctionApp.expiryInfo v = FunctionApp.mkExpiry false None
    /\ FunctionApp.v_status v
       = (if (FunctionApp.v_score v <? 80)%Z then "Potentially Invalid"
          else if (0 <? List.length (FunctionApp.issues v))%nat then "Valid with Issues"
          else "Valid")
    /\ (FunctionApp.v_status v = "Valid" <-> FunctionApp.issues v = [])
    /\ (FunctionApp.v_status v = "Valid with Issues"
        <-> FunctionApp.v_score v = 80%Z).
Proof.
  intros text ty v.
  destruct (checkDocumentValidity_spec text ty) as (Hs & Hi & _).
  fold v in Hs, Hi.
  set (missing := List.filter _ _) in *.
  assert (Hshape :
    FunctionApp.expiryInfo v = FunctionApp.mkExpiry false None
    /\ FunctionApp.v_status v
       = (if (FunctionApp.v_score v <? 80)%Z then "Potentially Invalid"
          else if (0 <? List.length (FunctionApp.issues v))%nat then "Valid with Issues"
          else "Valid")).
  { subst v. unfold FunctionApp.checkDocumentValidity.
    destruct (signature_fold text
                (FunctionApp.requiredSignatures
                   (FunctionApp.validityRules (FunctionApp.docConfig ty)))
                (FunctionApp.mkValidity "Valid" 100 [] [] (FunctionApp.mkExpiry false None)))
      as (_ & _ & _ & Hst & He).
    simpl in Hst, He.
    set (v1 := fold_left (FunctionApp.signature_step text) _ _) in *.
    destruct (negb (RegExp.test FunctionApp.date_word text)); simpl;
      repeat match goal with
             | |- context [if ?b then _ else _] => destruct b eqn:?; simpl
             end;
      split; try exact He; try exact Hst; try reflexivity; try congruence. }
  destruct Hshape as (He & Hst).
  split; [exact He|]. split; [exact Hst|].
  rewrite Hst, Hi, Hs.
  pose proof (filter_length_le
                (fun sig => negb (FunctionApp.checkSignature text sig))
                (FunctionApp.requiredSignatures
                   (FunctionApp.validityRules (FunctionApp.docConfig ty)))) as Hle.
  fold missing in Hle.
  destruct missing as [|m1 [|m2 missing]]; simpl List.length; simpl map;
    destruct (RegExp.test FunctionApp.date_word text); simpl;
    repeat match goal with
           | |- context [(?a <? ?b)%Z] => destruct (Z.ltb_spec a b); try lia
           end;
    split; split; intros Hx; try reflexivity; try discriminate Hx; try lia.
Qed.

(** X8. What [identifyDocumentType] answers is checked against a
    profile as follows.  Its answer is one of four types, none of them
    named like a member inherited from [Object.prototype]; its jurisdiction
    is "Ontario" for every input.  The type is "Legal Document" exactly
    for a file name without any of the keywords, and that is the only
    answer that is no key of [documentTypes]: a file with such a name is
    then checked, for completeness and for validity, against the profile
    of the purchase agreement, with the very results computed for
    "Agreement of Purchase and Sale (APS)". *)
Theorem X8_unknown_type_checked_as_APS :
  forall text filename : string,
    let c := FunctionApp.identifyDocumentType text filename in
    let ty := FunctionApp.documentType c in
    In ty [FunctionApp.APS; "Residential Lease Agreement"; "Landlord and Tenant Board Form";
           "Legal Document"]
    /\ JS.inherited ty = false
    /\ FunctionApp.jurisdiction c = "Ontario"
    /\ (FunctionApp.documentTypes !! ty = None <-> ty = "Legal Document")
    /\ (ty = "Legal Document" <-> Spec.FunctionApp_filename_clear filename = true)
    /\ (Spec.FunctionApp_filename_clear filename = true ->
        forall documentText : string,
          FunctionApp.checkFieldCompleteness documentText ty
          = FunctionApp.checkFieldCompleteness documentText FunctionApp.APS
          /\ FunctionApp.checkDocumentValidity documentText ty
             = FunctionApp.checkDocumentValidity documentText FunctionApp.APS).
Proof.
  intros text filename. cbv zeta.
  assert (Hcases :
    let ty := FunctionApp.documentType (FunctionApp.identifyDocumentType text filename) in
    (Spec.FunctionApp_filename_clear filename = true /\ ty = "Legal Document")
    \/ (Spec.FunctionApp_filename_clear filename = false
        /\ In ty [FunctionApp.APS; "Residential Lease Agreement";
                  "Landlord and Tenant Board Form"])).
  { cbv zeta. unfold FunctionApp.identifyDocumentType, Spec.FunctionApp_filename_clear.
    cbn [existsb]. set (l := JS.toLowerCase filename).
    destruct (JS.includes l "purchase"); [right; split; [reflexivity | cbn; tauto]|].
    destruct (JS.includes l "sale"); [right; split; [reflexivity | cbn; tauto]|].
    destruct (JS.includes l "aps"); [right; split; [reflexivity | cbn; tauto]|].
    destruct (JS.includes l "lease"); [right; split; [reflexivity | cbn; tauto]|].
    destruct (JS.includes l "rental"); [right; split; [reflexivity | cbn; tauto]|].
    destruct (JS.includes l "n1"); [right; split; [reflexivity | cbn; tauto]|].
    destruct (JS.includes l "n4"); [right; split; [reflexivity | cbn; tauto]|].
    destruct (JS.includes l "ltb"); [right; split; [reflexivity | cbn; tauto]|].
    left. split; reflexivity. }
  cbv zeta in Hcases.
  assert (Hjurisdiction :
            FunctionApp.jurisdiction (FunctionApp.identifyDocumentType text filename)
            = "Ontario").
  { unfold FunctionApp.identifyDocumentType. cbv zeta.
    repeat match goal with
           | |- context [if ?b then _ else _] => destruct b
           end; reflexivity. }
  set (ty := FunctionApp.documentType (FunctionApp.identifyDocumentType text filename)) in *.
  clearbody ty.
  destruct Hcases as [(Hclear & ->)|(Hclear & Hin)].
  - rewrite Hclear.
    refine (conj _ (conj _ (conj _ (conj _ (conj _ _)))));
      [ cbn [In]; tauto
      | reflexivity
      | exact Hjurisdiction
      | split; intros _; reflexivity
      | split; intros _; reflexivity
      | intros _ documentText; split; reflexivity ].
  - rewrite Hclear. cbn [In] in Hin.
    destruct Hin as [<-|[<-|[<-|[]]]];
      (refine (conj _ (conj _ (conj _ (conj _ (conj _ _)))));
       [ cbn [In]; tauto
       | reflexivity
       | exact Hjurisdiction
       | split; intros H; [vm_compute in H; discriminate H | discriminate H]
       | split; intros H; discriminate H
       | intros H; discriminate H ]).
Qed.

Lemma X8_unknown_type_checked_as_APS_witness :
  FunctionApp.checkFieldCompleteness Samples.aps_text
    (FunctionApp.documentType (FunctionApp.identifyDocumentType Samples.aps_text "scan.pdf"))
  = FunctionApp.checkFieldCompleteness Samples.aps_text FunctionApp.APS
  /\ FunctionApp.checkDocumentValidity Samples.aps_text
       (FunctionApp.documentType (FunctionApp.identifyDocumentType Samples.aps_text "scan.pdf"))
     = FunctionApp.checkDocumentValidity Samples.aps_text FunctionApp.APS.
Proof.
  destruct (X8_unknown_type_checked_as_APS Samples.aps_text "scan.pdf")
    as (_ & _ & _ & _ & _ & Hchecked).
  apply Hchecked. vm_compute. reflexivity.
Defined.

(** ** simple-server.js: field completeness of class DocumentAnalyzer *)

Section SimpleServerFieldFacts.
Import SimpleServer SimpleServerFields.

(** The entries written by a loop of [fieldStatus.required[field] = ...]. *)
Lemma written_lookup (text : string) (fields : list string) (m : gmap string FieldMatch)
    (field : string) :
  fold_left (fun m field => <[field := field_match text field]> m) fields m !! field
  = if bool_decide (field ∈ fields) then Some (field_match text field) else m !! field.
Proof.
  revert m. induction fields as [|f fields IH]; intros m; cbn [fold_left].
  - rewrite bool_decide_eq_false_2 by apply not_elem_of_nil. reflexivity.
  - rewrite IH. destruct (bool_decide (field ∈ fields)) eqn:E.
    + apply bool_decide_eq_true in E.
      rewrite bool_decide_eq_true_2 by (apply elem_of_cons; tauto). reflexivity.
    + apply bool_decide_eq_false in E. destruct (decide (f = field)) as [->|Hne].
      * rewrite bool_decide_eq_true_2 by (apply elem_of_cons; tauto). apply lookup_insert_eq.
      * rewrite bool_decide_eq_false_2
          by (rewrite elem_of_cons; intros [Heq|Hin]; [congruence | tauto]).
        apply lookup_insert_ne. exact Hne.
Qed.

Lemma required_fold (text : string) (fields : list string) (fs : FieldStatus) :
  let fs' := fold_left (required_step text) fields fs in
  required fs'
    = fold_left (fun m field => <[field := field_match text field]> m) fields (required fs)
  /\ optional fs' = optional fs
  /\ presentRequired (completeness fs')
     = presentRequired (completeness fs) ++ List.filter (isFieldPresent text) fields
  /\ missingRequired (completeness fs')
     = missingRequired (completeness fs)
       ++ List.filter (fun f => negb (isFieldPresent text f)) fields
  /\ presentOptional (completeness fs') = presentOptional (completeness fs)
  /\ missingOptional (completeness fs') = missingOptional (completeness fs).
Proof.
  revert fs. induction fields as [|f fields IH]; intros fs; cbn [fold_left List.filter].
  - rewrite !app_nil_r. repeat split.
  - destruct (IH (required_step text fs f)) as (H1 & H2 & H3 & H4 & H5 & H6).
    rewrite H1, H2, H3, H4, H5, H6. unfold required_step.
    cbn [required optional completeness].
    destruct (isFieldPresent text f);
      cbn [presentRequired missingRequired presentOptional missingOptional negb];
      rewrite <- ?app_assoc; repeat split.
Qed.

Lemma optional_fold (text : string) (fields : list string) (fs : FieldStatus) :
  let fs' := fold_left (optional_step text) fields fs in
  required fs' = required fs
  /\ optional fs'
     = fold_left (fun m field => <[field := field_match text field]> m) fields (optional fs)
  /\ presentRequired (completeness fs') = presentRequired (completeness fs)
  /\ missingRequired (completeness fs') = missingRequired (completeness fs)
  /\ presentOptional (completeness fs')
     = presentOptional (completeness fs) ++ List.filter (isFieldPresent text) fields
  /\ missingOptional (completeness fs')
     = missingOptional (completeness fs)
       ++ List.filter (fun f => negb (isFieldPresent text f)) fields.
Proof.
  revert fs. induction fields as [|f fields IH]; intros fs; cbn [fold_left List.filter].
  - rewrite !app_nil_r. repeat split.
  - destruct (IH (optional_step text fs f)) as (H1 & H2 & H3 & H4 & H5 & H6).
    rewrite H1, H2, H3, H4, H5, H6. unfold optional_step.
    cbn [required optional completeness].
    destruct (isFieldPresent text f);
      cbn [presentRequired missingRequired presentOptional missingOptional negb];
      rewrite <- ?app_assoc; repeat split.
Qed.

(** What [checkFieldCompleteness] returns, loop by loop. *)
Lemma server_checkFieldCompleteness_spec (text ty : string) :
  let cfg := docConfig ty in
  let fs := checkFieldCompleteness text ty in
  let present_required := List.filter (isFieldPresent text) (requiredFields cfg) in
  let present_optional := List.filter (isFieldPresent text) (optionalFields cfg) in
  required fs
    = fold_left (fun m field => <[field := field_match text field]> m) (requiredFields cfg) ∅
  /\ optional fs
     = fold_left (fun m field => <[field := field_match text field]> m) (optionalFields cfg) ∅
  /\ presentRequired (completeness fs) = present_required
  /\ missingRequired (completeness fs)
     = List.filter (fun f => negb (isFieldPresent text f)) (requiredFields cfg)
  /\ presentOptional (completeness fs) = present_optional
  /\ missingOptional (completeness fs)
     = List.filter (fun f => negb (isFieldPresent text f)) (optionalFields cfg)
  /\ c_score (completeness fs)
     = JS.Math_round
         (inject_Z (Z.of_nat (List.length present_required))
          / inject_Z (Z.of_nat (List.length (requiredFields cfg))) * 80
          + inject_Z (Z.of_nat (List.length present_optional))
            / inject_Z (Z.of_nat (List.length (optionalFields cfg))) * 20)%Q
  /\ c_status (completeness fs) = completeness_status (c_score (completeness fs)).
Proof.
  intros cfg fs present_required present_optional. subst fs.
  unfold checkFieldCompleteness. fold cfg.
  set (fs0 := mkFieldStatus ∅ ∅ (mkCompleteness 0 "Incomplete" [] [] [] [])).
  destruct (required_fold text (requiredFields cfg) fs0) as (R1 & R2 & R3 & R4 & R5 & R6).
  set (fs1 := fold_left (required_step text) (requiredFields cfg) fs0) in *.
  destruct (optional_fold text (optionalFields cfg) fs1) as (O1 & O2 & O3 & O4 & O5 & O6).
  set (fs2 := fold_left (optional_step text) (optionalFields cfg) fs1) in *.
  cbn [required optional completeness c_score c_status presentRequired missingRequired
       presentOptional missingOptional].
  rewrite O1, O2, O3, O4, O5, O6, R1, R2, R3, R4, R5, R6.
  repeat split.
Qed.

Lemma isFieldPresent_unlisted (text field : string) :
  fieldPatterns !! field = None -> isFieldPresent text field = false.
Proof. unfold isFieldPresent. intros ->. reflexivity. Qed.

(** No more fields are found than have a detection pattern. *)
Lemma present_counts (text : string) (req opt : list string) (P O : nat) :
  let listed := fun f => match fieldPatterns !! f with Some _ => true | None => false end in
  List.length (List.filter listed req) = P ->
  List.length (List.filter listed opt) = O ->
  exists p o,
    (p <= P)%nat /\ (o <= O)%nat
    /\ List.length (List.filter (isFieldPresent text) req) = p
    /\ List.length (List.filter (isFieldPresent text) opt) = o.
Proof.
  intros listed <- <-.
  assert (Hle : forall l,
            (List.length (List.filter (isFieldPresent text) l)
             <= List.length (List.filter listed l))%nat).
  { intros l. apply filter_length_mono. intros f _. unfold isFieldPresent, listed.
    destruct (fieldPatterns !! f); [reflexivity | discriminate]. }
  eexists. eexists. repeat split; apply Hle.
Qed.

End SimpleServerFieldFacts.

(** X9. The per-field records of [checkFieldCompleteness] in
    simple-server.js: [required] has an entry for exactly the required
    fields of the profile and [optional] for exactly the optional ones.
    A field that is not found has no value and confidence 0; a field that
    is found has confidence 0.9 when a value could be read and 0.7
    otherwise; a field outside the six of [extractFieldValue] (a name or
    an address, say) never has a value, so its confidence is never 0.9. *)
Theorem X9_field_records :
  forall text ty field : string,
    let cfg := SimpleServer.docConfig ty in
    let fs := SimpleServerFields.checkFieldCompleteness text ty in
    let m := SimpleServerFields.field_match text field in
    SimpleServerFields.required fs !! field
    = (if bool_decide (field ∈ SimpleServer.requiredFields cfg) then Some m else None)
    /\ SimpleServerFields.optional fs !! field
       = (if bool_decide (field ∈ SimpleServer.optionalFields cfg) then Some m else None)
    /\ SimpleServerFields.present m = SimpleServerFields.isFieldPresent text field
    /\ SimpleServerFields.value m
       = (if SimpleServerFields.present m
          then SimpleServerFields.extractFieldValue text field else None)
    /\ SimpleServerFields.fm_confidence m
       = (if negb (SimpleServerFields.present m) then 0%Q
          else if JS.truthy (SimpleServerFields.value m) then 9 # 10 else 7 # 10)
    /\ (if bool_decide (SimpleServerFields.valuePatterns !! field = None)
        then SimpleServerFields.value m = None
             /\ SimpleServerFields.fm_confidence m
                = (if SimpleServerFields.present m then 7 # 10 else 0%Q)
        else True).
Proof.
  intros text ty field cfg fs m.
  destruct (server_checkFieldCompleteness_spec text ty) as (Hr & Ho & _).
  fold fs cfg in Hr, Ho. rewrite Hr, Ho, !written_lookup, !lookup_empty.
  split; [reflexivity|]. split; [reflexivity|].
  subst m. unfold SimpleServerFields.field_match, SimpleServerFields.calculateFieldConfidence.
  cbn [SimpleServerFields.present SimpleServerFields.value SimpleServerFields.fm_confidence].
  destruct (bool_decide (SimpleServerFields.valuePatterns !! field = None)) eqn:Ev.
  - apply bool_decide_eq_true in Ev.
    assert (Hx : SimpleServerFields.extractFieldValue text field = None)
      by (unfold SimpleServerFields.extractFieldValue; rewrite Ev; reflexivity).
    rewrite Hx. destruct (SimpleServerFields.isFieldPresent text field); repeat split.
  - destruct (SimpleServerFields.isFieldPresent text field); repeat split.
Qed.

(** Case analysis on a natural number that a hypothesis bounds. *)
Ltac count_up_to n :=
  destruct n as [|n]; [ | first [ solve [exfalso; lia] | count_up_to n ] ].

(** X10. The weighted score of [checkFieldCompleteness] in
    simple-server.js (80 points for the required fields, 20 for the
    optional ones) never exceeds 80 and the status is never "Complete",
    for any text and any document type: no optional field of the purchase,
    lease and board profiles and only one of the mortgage profile has a
    detection pattern.  A "Mortgage Statement" scores at most 23 and a
    "Notice of Assessment (CRA)" at most 16, so both are always
    "Incomplete". *)
Theorem X10_never_complete :
  (forall text ty : string,
     let c := SimpleServerFields.completeness
                (SimpleServerFields.checkFieldCompleteness text ty) in
     (0 <= SimpleServerFields.c_score c <= 80)%Z
     /\ String.eqb (SimpleServerFields.c_status c) "Complete" = false)
  /\ (forall text : string,
        let c := SimpleServerFields.completeness
                   (SimpleServerFields.checkFieldCompleteness text "Mortgage Statement") in
        (SimpleServerFields.c_score c <= 23)%Z
        /\ SimpleServerFields.c_status c = "Incomplete")
  /\ (forall text : string,
        let c := SimpleServerFields.completeness
                   (SimpleServerFields.checkFieldCompleteness text
                      "Notice of Assessment (CRA)") in
        (SimpleServerFields.c_score c <= 16)%Z
        /\ SimpleServerFields.c_status c = "Incomplete").
Proof.
  assert (Hcases : forall text ty,
    let c := SimpleServerFields.completeness
               (SimpleServerFields.checkFieldCompleteness text ty) in
    ((0 <= SimpleServerFields.c_score c <= 80)%Z
     /\ String.eqb (SimpleServerFields.c_status c) "Complete" = false)
    /\ (SimpleServer.docConfig ty = SimpleServer.MortgageStatement_config ->
        (SimpleServerFields.c_score c <= 23)%Z
        /\ SimpleServerFields.c_status c = "Incomplete")
    /\ (SimpleServer.docConfig ty = SimpleServer.NoticeOfAssessment_config ->
        (SimpleServerFields.c_score c <= 16)%Z
        /\ SimpleServerFields.c_status c = "Incomplete")).
  { intros text ty c. subst c.
    destruct (server_checkFieldCompleteness_spec text ty)
      as (_ & _ & _ & _ & _ & _ & Hscore & Hstatus).
    rewrite Hstatus, Hscore. clear Hscore Hstatus.
    pose proof (server_docConfig_cases ty) as H. cbn [In] in H.
    destruct H as [<-|[<-|[<-|[<-|[<-|[]]]]]];
      match goal with
      | |- context [SimpleServer.requiredFields ?cfg] =>
          destruct (present_counts text (SimpleServer.requiredFields cfg)
                      (SimpleServer.optionalFields cfg) _ _ eq_refl eq_refl)
            as (p & o & Hp & Ho & Ep & Eo)
      end;
      rewrite Ep, Eo; clear Ep Eo; vm_compute in Hp, Ho;
      count_up_to p; count_up_to o;
      (split; [vm_compute; repeat split; congruence|]);
      split; intros Hcfg; try discriminate Hcfg;
      vm_compute; repeat split; congruence. }
  split; [|split].
  - intros text ty. apply Hcases.
  - intros text. apply (Hcases text "Mortgage Statement"). reflexivity.
  - intros text. apply (Hcases text "Notice of Assessment (CRA)"). reflexivity.
Qed.

(** ** simple-server.js: the status of the validity check *)

Section SimpleServerStatus.
Import SimpleServer.

Lemma check_age_status (host : Host) (text : string) (rules : ValidityRules)
    (v : ValidityCheck) :
  let v' := check_age host text rules v in
  (status v' = status v /\ isExpired (expiryInfo v') = isExpired (expiryInfo v)
   /\ (score v' <= score v)%Z)
  \/ (status v' = "Expired" /\ isExpired (expiryInfo v') = true
      /\ score v' = (score v - 30)%Z).
Proof.
  unfold check_age. split_branches; first [ left; repeat split; lia | right; repeat split ].
Qed.

Lemma check_signatures_status (text : string) (rules : ValidityRules) (v : ValidityCheck) :
  status (check_signatures text rules v) = status v
  /\ expiryInfo (check_signatures text rules v) = expiryInfo v.
Proof.
  unfold check_signatures. generalize (requiredSignatures rules) as sigs.
  intros sigs. revert v. induction sigs as [|sig sigs IH]; intros v; cbn [fold_left].
  - split; reflexivity.
  - destruct (IH (signature_step text v sig)) as (Hs & He). rewrite Hs, He.
    unfold signature_step. destruct (checkSignature text sig); split; reflexivity.
Qed.

Lemma check_deposit_status (text ty : string) (rules : ValidityRules) (v : ValidityCheck) :
  status (check_deposit text ty rules v) = status v
  /\ expiryInfo (check_deposit text ty rules v) = expiryInfo v.
Proof.
  unfold check_deposit. split_branches; split; reflexivity.
Qed.

Lemma check_form_number_status (text ty : string) (rules : ValidityRules)
    (v : ValidityCheck) :
  status (check_form_number text ty rules v) = status v
  /\ expiryInfo (check_form_number text ty rules v) = expiryInfo v.
Proof.
  unfold check_form_number. split_branches; split; reflexivity.
Qed.

Lemma final_status_spec (v : ValidityCheck) :
  expiryInfo (final_status v) = expiryInfo v
  /\ issues (final_status v) = issues v
  /\ status (final_status v)
     = (if (score v <? 50)%Z then "Invalid"
        else if (score v <? 80)%Z then "Potentially Invalid"
        else if (0 <? List.length (issues v))%nat then "Valid with Issues"
        else status v).
Proof.
  unfold final_status.
  destruct (score v <? 50)%Z; [repeat split|].
  destruct (score v <? 80)%Z; [repeat split|].
  destruct (0 <? List.length (issues v))%nat; repeat split.
Qed.

End SimpleServerStatus.

(** X11. [checkDocumentValidity] of simple-server.js sets the status
    "Expired" for a document older than [maxAge], but never returns it: the
    30 points that expiry costs bring the score to 70 or less, and the
    final step then overwrites the status with "Invalid" or "Potentially
    Invalid".  The status returned is always the one the final step
    derives from score and issues; expiry remains visible only in
    [expiryInfo.isExpired]. *)
Theorem X11_expired_status_is_overwritten :
  forall (host : SimpleServer.Host) (text ty : string),
    let v := SimpleServer.checkDocumentValidity host text ty in
    SimpleServer.status v
    = (if (SimpleServer.score v <? 50)%Z then "Invalid"
       else if (SimpleServer.score v <? 80)%Z then "Potentially Invalid"
       else if (0 <? List.length (SimpleServer.issues v))%nat then "Valid with Issues"
       else "Valid")
    /\ String.eqb (SimpleServer.status v) "Expired" = false
    /\ (SimpleServer.isExpired (SimpleServer.expiryInfo v) = true ->
        (SimpleServer.score v <= 70)%Z
        /\ (SimpleServer.status v = "Invalid"
            \/ SimpleServer.status v = "Potentially Invalid")).
Proof.
  intros host text ty v.
  assert (Hmain :
    SimpleServer.status v
    = (if (SimpleServer.score v <? 50)%Z then "Invalid"
       else if (SimpleServer.score v <? 80)%Z then "Potentially Invalid"
       else if (0 <? List.length (SimpleServer.issues v))%nat then "Valid with Issues"
       else "Valid")
    /\ (SimpleServer.isExpired (SimpleServer.expiryInfo v) = true ->
        (SimpleServer.score v <= 70)%Z)).
  { subst v. unfold SimpleServer.checkDocumentValidity.
    set (rules := SimpleServer.validityRules (SimpleServer.docConfig ty)).
    set (v0 := SimpleServer.mkValidity _ _ _ _ _ _ _).
    pose proof (check_age_status host text rules v0) as Ha.
    set (v1 := SimpleServer.check_age host text rules v0) in *.
    destruct (check_signatures_status text rules v1) as (Hs2 & He2).
    destruct (check_signatures_spec text rules v1) as (Hc2 & _).
    set (v2 := SimpleServer.check_signatures text rules v1) in *.
    destruct (check_deposit_status text ty rules v2) as (Hs3 & He3).
    destruct (check_deposit_score text ty rules v2) as (Hc3 & _).
    set (v3 := SimpleServer.check_deposit text ty rules v2) in *.
    destruct (check_form_number_status text ty rules v3) as (Hs4 & He4).
    destruct (check_form_number_score text ty rules v3) as (Hc4 & _).
    set (v4 := SimpleServer.check_form_number text ty rules v3) in *.
    destruct (final_status_spec v4) as (He5 & Hi5 & Hs5).
    rewrite final_status_score, Hi5, Hs5, He5, Hs4, Hs3, Hs2, He4, He3, He2.
    change (SimpleServer.score v0) with 100%Z in Ha.
    change (SimpleServer.status v0) with "Valid" in Ha.
    change (SimpleServer.isExpired (SimpleServer.expiryInfo v0)) with false in Ha.
    cbv zeta in Ha.
    destruct Ha as [(Hst & Hex & Hsc)|(Hst & Hex & Hsc)].
    - rewrite Hst, Hex. split; [reflexivity | discriminate].
    - rewrite Hst. assert (Hle : (SimpleServer.score v4 <= 70)%Z) by lia.
      split; [|intros _; exact Hle].
      destruct (Z.ltb_spec (SimpleServer.score v4) 50); [reflexivity|].
      destruct (Z.ltb_spec (SimpleServer.score v4) 80); [reflexivity | lia]. }
  destruct Hmain as (Hst & Hexp).
  split; [exact Hst|]. split.
  - rewrite Hst.
    destruct (SimpleServer.score v <? 50)%Z; [reflexivity|].
    destruct (SimpleServer.score v <? 80)%Z; [reflexivity|].
    destruct (0 <? List.length (SimpleServer.issues v))%nat; reflexivity.
  - intros Hx. specialize (Hexp Hx). split; [exact Hexp|]. rewrite Hst.
    destruct (Z.ltb_spec (SimpleServer.score v) 50); [left; reflexivity|].
    destruct (Z.ltb_spec (SimpleServer.score v) 80); [right; reflexivity | lia].
Qed.

Lemma X11_expired_status_is_overwritten_witness :
  let v := SimpleServer.checkDocumentValidity Samples.server_host "Dated: 06/15/2024"
             SimpleServer.LTB in
  SimpleServer.isExpired (SimpleServer.expiryInfo v) = true
  /\ (SimpleServer.score v <= 70)%Z
  /\ String.eqb (SimpleServer.status v) "Expired" = false.
Proof.
  destruct (X11_expired_status_is_overwritten Samples.server_host "Dated: 06/15/2024"
              SimpleServer.LTB) as (_ & Hne & Hexp).
  split; [vm_compute; reflexivity|]. split; [|exact Hne].
  apply Hexp. vm_compute. reflexivity.
Defined.

(** X12. [extractDate] of simple-server.js with the general date pattern
    (the key 'date', and the key 'created', which is not in its table and
    takes the pattern of 'date') reads elements 2 and 1 of the array of a
    global match, that is the third date of the text, or else the second;
    the first date is never returned.  So for a text with a single date and no "issue date"
    or "dated" label the age check finds no date: it adds the warning "No
    issue date found, cannot determine document age" and takes 5 points,
    whatever the date is. *)
Theorem X12_single_date_is_not_found :
  exists pattern : RegExp.RegExpObj,
    SimpleServer.datePatterns !! "date" = Some pattern
    /\ RegExp.global pattern = true
    /\ (forall text : string,
          SimpleServer.extractDate text "created" = SimpleServer.extractDate text "date")
    /\ (forall text : string,
          let dates := RegExp.match_all (RegExp.source pattern) text in
          SimpleServer.extractDate text "date"
          = JS.or (nth_error dates 2) (nth_error dates 1))
    /\ (forall (host : SimpleServer.Host) (text : string) (rules : SimpleServer.ValidityRules)
               (v : SimpleServer.ValidityCheck),
          SimpleServer.extractDate text "issueDate" = None ->
          (List.length (RegExp.match_all (RegExp.source pattern) text) <= 1)%nat ->
          SimpleServer.check_age host text rules v
          = SimpleServer.sub_score 5
              (SimpleServer.push_warning
                 "No issue date found, cannot determine document age" v)).
Proof.
  destruct (SimpleServer.datePatterns !! "date") as [pattern|] eqn:E;
    [|vm_compute in E; discriminate E].
  assert (Hg : RegExp.global pattern = true).
  { pose proof (f_equal (fun o => match o with
                                  | Some p => RegExp.global p
                                  | None => false
                                  end) E) as Hg.
    vm_compute in Hg. symmetry. exact Hg. }
  assert (Hdate : forall text,
            SimpleServer.extractDate text "date"
            = JS.or (nth_error (RegExp.match_all (RegExp.source pattern) text) 2)
                    (nth_error (RegExp.match_all (RegExp.source pattern) text) 1)).
  { intros text. unfold SimpleServer.extractDate. rewrite E. cbn [JS.or_obj].
    unfold RegExp.String_match. rewrite Hg.
    destruct (RegExp.match_all (RegExp.source pattern) text) as [|d1 [|d2 [|d3 ds]]];
      reflexivity. }
  assert (Hcreated : forall text,
            SimpleServer.extractDate text "created" = SimpleServer.extractDate text "date").
  { intros text. unfold SimpleServer.extractDate.
    replace (SimpleServer.datePatterns !! "created") with (@None RegExp.RegExpObj)
      by (vm_compute; reflexivity).
    rewrite E. reflexivity. }
  exists pattern. split; [reflexivity|]. split; [exact Hg|]. split; [exact Hcreated|].
  split; [exact Hdate|].
  intros host text rules v Hissue Hone. unfold SimpleServer.check_age.
  rewrite Hissue, Hcreated, Hdate.
  destruct (RegExp.match_all (RegExp.source pattern) text) as [|d1 [|d2 ds]];
    [reflexivity | reflexivity | simpl in Hone; lia].
Qed.

Lemma X12_single_date_is_not_found_witness :
  SimpleServer.warnings
    (SimpleServer.check_age Samples.server_host Samples.aps_text
       (SimpleServer.validityRules SimpleServer.APS_config)
       (SimpleServer.mkValidity "Valid" 100 [] []
          (SimpleServer.mkExpiry false None None None)
          (SimpleServer.mkSigCheck ["buyer"; "seller"] [] [] true)
          (SimpleServer.mkFieldValidation true [])))
  = ["No issue date found, cannot determine document age"].
Proof.
  destruct X12_single_date_is_not_found as (pattern & E & _ & _ & _ & Hage).
  rewrite Hage.
  - reflexivity.
  - vm_compute. reflexivity.
  - replace pattern
      with (default (RegExp.mkRegExp RegExp.Empty false) (SimpleServer.datePatterns !! "date"))
      by (rewrite E; reflexivity).
    vm_compute. lia.
Defined.

(** ** simple-server.js: detection of the document type from the file name *)

(** One test of a chain of [if (name.includes(k) || ...) ... else if ...]:
    the branch that is taken gives a constant answer. *)
Ltac constant_answer :=
  lazymatch goal with
  | |- context [JS.includes _ _] => fail
  | |- _ =>
      solve [ repeat split;
              first [ reflexivity
                    | cbn [In]; repeat (first [left; reflexivity | right])
                    | vm_compute; reflexivity ] ]
  end.

Ltac includes_branch l k :=
  destruct (JS.includes l k) eqn:?; cbn [orb]; try constant_answer.

(** X13. The file-name fallback [detectDocumentTypeFromFilename] of class
    DocumentAnalyzer answers one of six types, three of which ("Fee Waiver
    Request", "Mortgage Document", "Legal Document") are no key of
    [documentTypes] and are therefore checked against the profile of the
    purchase agreement.  The profiles "Landlord and Tenant Board Form" and
    "Mortgage Statement" are never selected after file-name detection. *)
Theorem X13_filename_detection_profiles :
  forall filename : string,
    let c := SimpleServerFields.detectDocumentTypeFromFilename filename in
    let ty := SimpleServerFields.documentType c in
    In ty ["Fee Waiver Request"; "Residential Lease Agreement";
           "Agreement of Purchase and Sale (APS)"; "Mortgage Document";
           "Notice of Assessment (CRA)"; "Legal Document"]
    /\ SimpleServer.docConfig ty
       = (if String.eqb ty "Residential Lease Agreement" then SimpleServer.Lease_config
          else if String.eqb ty "Notice of Assessment (CRA)"
               then SimpleServer.NoticeOfAssessment_config
               else SimpleServer.APS_config)
    /\ SimpleServerFields.jurisdiction c = "Ontario".
Proof.
  intros filename. unfold SimpleServerFields.detectDocumentTypeFromFilename. cbv zeta.
  set (l := JS.toLowerCase filename).
  includes_branch l "fee waiver". includes_branch l "waiver".
  includes_branch l "lease". includes_branch l "rental". includes_branch l "tenancy".
  includes_branch l "purchase". includes_branch l "sale". includes_branch l "aps".
  includes_branch l "orea".
  includes_branch l "mortgage". includes_branch l "charge".
  includes_branch l "noa". includes_branch l "notice". includes_branch l "assessment".
Qed.

(** X14. [detectDocumentType] of the mock server never answers
    "Condominium Insurance Certificate": a file name that contains "condo
    insurance" or "condominium insurance" contains "insurance" and is
    answered "Insurance Policy" (or by an earlier test) before that test is
    reached.  Every answer has a confidence between 0.60 and 0.95. *)
Theorem X14_condominium_insurance_unreachable :
  forall filename : string,
    let d := MockServer.detectDocumentType filename in
    String.eqb (MockServer.type d) "Condominium Insurance Certificate" = false
    /\ Qle_bool (60 # 100) (MockServer.confidence d)
       && Qle_bool (MockServer.confidence d) (95 # 100) = true.
Proof.
  intros filename. unfold MockServer.detectDocumentType. cbv zeta.
  set (l := JS.toLowerCase filename).
  assert (Hdead : JS.includes l "insurance" = false ->
                  JS.includes l "condo insurance" = false
                  /\ JS.includes l "condominium insurance" = false).
  { intros Hno. split.
    - destruct (JS.includes l "condo insurance") eqn:E; [|reflexivity].
      rewrite (includes_suffix l "condo " "insurance" E) in Hno. discriminate Hno.
    - destruct (JS.includes l "condominium insurance") eqn:E; [|reflexivity].
      rewrite (includes_suffix l "condominium " "insurance" E) in Hno. discriminate Hno. }
  destruct (JS.includes l "insurance") eqn:Ei;
    [clear Hdead | destruct (Hdead eq_refl) as (-> & ->); clear Hdead].
  all: includes_branch l "fee waiver"; includes_branch l "waiver".
  all: includes_branch l "lease"; includes_branch l "rental"; includes_branch l "tenancy".
  all: includes_branch l "purchase"; includes_branch l "sale"; includes_branch l "aps";
    includes_branch l "orea".
  all: includes_branch l "mortgage"; includes_branch l "charge".
  all: includes_branch l "noa"; includes_branch l "notice"; includes_branch l "assessment".
  all: includes_branch l "utility"; includes_branch l "bill"; includes_branch l "hydro";
    includes_branch l "electric".
  all: includes_branch l "bank"; includes_branch l "statement"; includes_branch l "account".
  all: includes_branch l "pay"; includes_branch l "stub"; includes_branch l "payroll".
  all: includes_branch l "policy".
  all: includes_branch l "appraisal"; includes_branch l "valuation".
  all: includes_branch l "status"; includes_branch l "certificate"; includes_branch l "condo".
  all: includes_branch l "discharge"; includes_branch l "payout";
    includes_branch l "mortgage payout".
  all: includes_branch l "refinance"; includes_branch l "refinancing".
  all: includes_branch l "reserve"; includes_branch l "fund study".
Qed.

(** ** The ML plugins: classification by file name *)

Section MLClassifierFacts.
Import MLPlugins.

Lemma analyzeFileContent_cases (filename : string) :
  let m := analyzeFileContent filename in
  (String.eqb (type m) "Unknown Document" && Qeq_bool (confidence m) (2 # 10))
  || (negb (String.eqb (type m) "Unknown Document")
      && Qle_bool (6 # 10) (confidence m) && Qle_bool (confidence m) (9 # 10)) = true.
Proof.
  unfold analyzeFileContent. cbv zeta. set (l := JS.toLowerCase filename).
  includes_branch l "a2". includes_branch l "a-2".
  includes_branch l "lease". includes_branch l "rental".
  includes_branch l "ltb". includes_branch l "landlord". includes_branch l "tenant".
  includes_branch l "waiver". includes_branch l "fee".
  includes_branch l "mortgage". includes_branch l "loan".
  includes_branch l "insurance". includes_branch l "policy".
  includes_branch l "contract". includes_branch l "agreement".
  includes_branch l "invoice". includes_branch l "bill".
  includes_branch l "receipt". includes_branch l "payment".
  includes_branch l "statement". includes_branch l "account".
  includes_branch l "report". includes_branch l "analysis".
  includes_branch l "letter". includes_branch l "correspondence".
  includes_branch l "form". includes_branch l "application".
Qed.

Lemma calculateScore_le (filename : string) (model : Model) :
  (calculateScore filename model <= 95 # 100)%Q.
Proof.
  unfold calculateScore, JS.Qmin. cbv zeta.
  match goal with
  | |- context [Qle_bool ?s (95 # 100)] =>
      destruct (Qle_bool s (95 # 100)) eqn:E; [apply Qle_bool_iff, E | apply Qle_refl]
  end.
Qed.

(** The types that the classifier answers are constants of the program,
    none of them the name of a member inherited from [Object.prototype]. *)
Lemma analyzeFileContent_not_inherited (filename : string) :
  JS.inherited (type (analyzeFileContent filename)) = false.
Proof.
  unfold analyzeFileContent. cbv zeta. set (l := JS.toLowerCase filename).
  includes_branch l "a2". includes_branch l "a-2".
  includes_branch l "lease". includes_branch l "rental".
  includes_branch l "ltb". includes_branch l "landlord". includes_branch l "tenant".
  includes_branch l "waiver". includes_branch l "fee".
  includes_branch l "mortgage". includes_branch l "loan".
  includes_branch l "insurance". includes_branch l "policy".
  includes_branch l "contract". includes_branch l "agreement".
  includes_branch l "invoice". includes_branch l "bill".
  includes_branch l "receipt". includes_branch l "payment".
  includes_branch l "statement". includes_branch l "account".
  includes_branch l "report". includes_branch l "analysis".
  includes_branch l "letter". includes_branch l "correspondence".
  includes_branch l "form". includes_branch l "application".
Qed.

Lemma classify_not_inherited (filename : string) :
  JS.inherited (type (classify filename)) = false.
Proof.
  unfold classify. cbv zeta. unfold models. cbn [fold_left].
  pose proof (analyzeFileContent_not_inherited filename) as Ha.
  destruct (analyzeFileContent filename) as [ta ca]. cbn [type] in Ha.
  repeat match goal with
         | |- context [JS.Qlt_bool ?a ?b] =>
             destruct (JS.Qlt_bool a b); cbn [type confidence]
         end;
    first [exact Ha | reflexivity].
Qed.

End MLClassifierFacts.

(** X15. [DocumentClassifier.classify] never answers "Unknown Document",
    although that is its initial best match and the fallback of
    [analyzeFileContent]: a best match below 0.4 is replaced by "General
    Legal Document" with confidence 0.3.  Every other answer has a
    confidence between 0.4 and 0.95. *)
Theorem X15_classify_never_unknown :
  forall filename : string,
    let m := MLPlugins.classify filename in
    String.eqb (MLPlugins.type m) "Unknown Document" = false
    /\ (m = MLPlugins.mkMatch "General Legal Document" (3 # 10)
        \/ ((4 # 10 <= MLPlugins.confidence m)%Q
            /\ (MLPlugins.confidence m <= 95 # 100)%Q)).
Proof.
  intros filename. unfold MLPlugins.classify. cbv zeta.
  unfold MLPlugins.models. cbn [fold_left].
  set (l := JS.toLowerCase filename).
  pose proof (analyzeFileContent_cases filename) as Ha. cbv zeta in Ha.
  destruct (MLPlugins.analyzeFileContent filename) as [ta ca].
  cbn [MLPlugins.type MLPlugins.confidence] in Ha.
  assert (Ha' : (String.eqb ta "Unknown Document" = true /\ (ca == 2 # 10)%Q)
                \/ (String.eqb ta "Unknown Document" = false
                    /\ (6 # 10 <= ca)%Q /\ (ca <= 9 # 10)%Q)).
  { apply orb_true_iff in Ha as [Ha|Ha].
    - apply andb_true_iff in Ha as [H1 H2]. apply Qeq_bool_iff in H2. left. tauto.
    - apply andb_true_iff in Ha as [Ha H3]. apply andb_true_iff in Ha as [H1 H2].
      apply negb_true_iff in H1. apply Qle_bool_iff in H2, H3. right. tauto. }
  clear Ha.
  match goal with
  | |- context [MLPlugins.calculateScore l ?m1] =>
      pose proof (calculateScore_le l m1) as H1; set (s1 := MLPlugins.calculateScore l m1) in *
  end.
  match goal with
  | |- context [MLPlugins.calculateScore l ?m2] =>
      pose proof (calculateScore_le l m2) as H2; set (s2 := MLPlugins.calculateScore l m2) in *
  end.
  match goal with
  | |- context [MLPlugins.calculateScore l ?m3] =>
      pose proof (calculateScore_le l m3) as H3; set (s3 := MLPlugins.calculateScore l m3) in *
  end.
  clearbody s1 s2 s3.
  repeat match goal with
         | |- context [JS.Qlt_bool ?a ?b] =>
             let E := fresh "E" in
             destruct (JS.Qlt_bool a b) eqn:E;
             [apply Qlt_bool_iff in E | apply Qlt_bool_false_iff in E];
             cbn [MLPlugins.type MLPlugins.confidence] in *
         end;
    destruct Ha' as [(Ht & Hc)|(Ht & Hc1 & Hc2)];
    (split; [first [reflexivity | exact Ht | exfalso; lra]
            | first [left; reflexivity | right; split; lra | exfalso; lra]]).
Qed.

(** ** The ML plugins: validity prediction and the whole analysis *)

Section MLPipelineFacts.
Import MLPipeline.

(** [this.validityRules[documentType] || this.validityRules[APS]] is the
    one profile there is. *)
Lemma rules_always_APS (documentType : string) :
  default APS_rules (validityRules !! documentType) = APS_rules.
Proof.
  unfold validityRules. destruct (decide (documentType = APS)) as [->|Hne].
  - rewrite lookup_singleton_eq. reflexivity.
  - rewrite lookup_singleton_ne by congruence. reflexivity.
Qed.

End MLPipelineFacts.

(** X16. [ValidityPredictor.predict] uses the rules of the purchase
    agreement for every document type that is not named like a member
    inherited from [Object.prototype], and so for every type that the
    classifier answers.  The score lies between 0 and 1; six fields are
    counted in all; and the status is "Valid" exactly when at least one of
    the four required fields has a non-empty value: one required field
    (0.8) reaches [minScore] 0.7, the two optional fields together (0.4)
    do not. *)
Theorem X16_predict_status :
  (forall (fields : MLPipeline.Fields) (documentType : string),
     let p := MLPipeline.predict fields documentType in
     let present names :=
       List.length (List.filter (fun field => JS.truthy (MLPipeline.get fields field)) names) in
     (JS.inherited documentType = false -> p = MLPipeline.predict fields MLPipeline.APS)
     /\ (0 <= MLPipeline.p_score p)%Q /\ (MLPipeline.p_score p <= 1)%Q
     /\ MLPipeline.totalFields p = 6%nat
     /\ MLPipeline.presentFields p
        = (present (MLPipeline.requiredFields MLPipeline.APS_rules)
           + present (MLPipeline.optionalFields MLPipeline.APS_rules))%nat
     /\ MLPipeline.p_status p
        = (if (0 <? present (MLPipeline.requiredFields MLPipeline.APS_rules))%nat
           then "Valid" else "Needs Review"))
  /\ (forall (fields : MLPipeline.Fields) (filename : string),
        let documentType := MLPlugins.type (MLPlugins.classify filename) in
        JS.inherited documentType = false
        /\ MLPipeline.predict fields documentType
           = MLPipeline.predict fields MLPipeline.APS).
Proof.
  split.
  - intros fields documentType. cbv zeta. unfold MLPipeline.predict.
    rewrite !rules_always_APS. split; [intros _; reflexivity|].
    unfold MLPipeline.APS_rules, MLPipeline.count_fields.
    cbn [MLPipeline.requiredFields MLPipeline.optionalFields MLPipeline.minScore
         fold_left List.filter List.length].
    destruct (JS.truthy (MLPipeline.get fields "purchasePrice"));
      destruct (JS.truthy (MLPipeline.get fields "closingDate"));
      destruct (JS.truthy (MLPipeline.get fields "buyerName"));
      destruct (JS.truthy (MLPipeline.get fields "sellerName"));
      destruct (JS.truthy (MLPipeline.get fields "propertyAddress"));
      destruct (JS.truthy (MLPipeline.get fields "depositAmount"));
      vm_compute; repeat split; congruence.
  - intros fields filename. cbv zeta. split; [apply classify_not_inherited|].
    unfold MLPipeline.predict. rewrite !rules_always_APS. reflexivity.
Qed.

Lemma X16_predict_status_witness :
  MLPipeline.predict [("buyerName", "John Doe")] "Residential Lease Agreement"
  = MLPipeline.predict [("buyerName", "John Doe")] MLPipeline.APS.
Proof.
  apply (proj1 X16_predict_status [("buyerName", "John Doe")] "Residential Lease Agreement").
  reflexivity.
Defined.

(** X17. [MLPlugins.analyzeDocument] for any file name: the fields are
    the five mock values when the classifier answers "Agreement of
    Purchase and Sale (APS)" and none otherwise, so the validity score is
    1 or 0 accordingly; the sentiment is always "neutral"; and the
    recommendations are the remark on low confidence when the confidence
    is below 0.8, followed by the remark on validity for every type other
    than the purchase agreement.  The remark on negative language is never
    made. *)
Theorem X17_ml_analysis :
  forall filename : string,
    let r := MLPipeline.analyzeDocument filename in
    let isAPS := String.eqb (MLPipeline.documentType r) MLPipeline.APS in
    MLPipeline.documentType r = MLPlugins.type (MLPlugins.classify filename)
    /\ MLPipeline.confidence r = MLPlugins.confidence (MLPlugins.classify filename)
    /\ MLPipeline.extractedFields r = (if isAPS then MLPipeline.extract MLPipeline.APS else [])
    /\ MLPipeline.validityScore r = (if isAPS then 1%Q else 0%Q)
    /\ MLPipeline.sentiment r = "neutral"
    /\ MLPipeline.recommendations r
       = (if JS.Qlt_bool (MLPipeline.confidence r) (8 # 10)
          then ["Document type confidence is low. Consider manual review."] else [])
         ++ (if isAPS then []
             else ["Document validity is questionable. Review required fields."]).
Proof.
  intros filename. cbv zeta. unfold MLPipeline.analyzeDocument. cbv zeta.
  destruct (MLPlugins.classify filename) as [ty conf].
  cbn [MLPlugins.type MLPlugins.confidence MLPipeline.documentType MLPipeline.confidence
       MLPipeline.extractedFields MLPipeline.validityScore MLPipeline.sentiment
       MLPipeline.recommendations].
  unfold MLPipeline.predict. rewrite rules_always_APS.
  unfold MLPipeline.extract, MLPipeline.generateRecommendations.
  destruct (String.eqb ty MLPipeline.APS) eqn:E.
  - destruct (JS.Qlt_bool conf (8 # 10)); vm_compute; repeat split.
  - destruct (JS.Qlt_bool conf (8 # 10)); vm_compute; repeat split.
Qed.

(** ** The chat system: questions, suggestions and the session *)

Section ChatSessionFacts.
Import Chat ChatSession.

Lemma keyFields_lookup (documentData : option DocumentData) (name : string) :
  extractKeyFields documentData !! name
  = let member f := JS.member documentData f in
    let copy value := if JS.truthy value then value else None in
    if String.eqb "depositAmount" name then copy (member depositAmount)
    else if String.eqb "propertyAddress" name then copy (member propertyAddress)
    else if String.eqb "sellerName" name then copy (member sellerName)
    else if String.eqb "buyerName" name then copy (member buyerName)
    else if String.eqb "closingDate" name then copy (member closingDate)
    else if String.eqb "purchasePrice" name then copy (member purchasePrice)
    else if String.eqb "jurisdiction" name then copy (member jurisdiction)
    else if String.eqb "expiryDate" name then copy (member expiryDate)
    else if String.eqb "issueDate" name then copy (member issueDate)
    else None.
Proof.
  unfold extractKeyFields. cbv zeta. rewrite !copy_field_lookup, lookup_empty.
  repeat match goal with
         | |- context [String.eqb ?a name] =>
             destruct (String.eqb_spec a name) as [<-|?];
             [ cbn [String.eqb Ascii.eqb Bool.eqb andb];
               match goal with
               | |- context [JS.truthy ?v] => destruct (JS.truthy v); reflexivity
               end
             | cbn [andb] ]
         end.
  reflexivity.
Qed.

Lemma includes_trans (a b c : string) :
  JS.includes a b = true -> JS.includes b c = true -> JS.includes a c = true.
Proof.
  intros Hab Hbc.
  destruct (includes_decompose a b Hab) as (p1 & s1 & ->).
  destruct (includes_decompose b c Hbc) as (p2 & s2 & ->).
  apply includes_append_r, includes_append_l, includes_append_r, includes_append_l,
    includes_refl.
Qed.

Lemma perform_snoc (calls : list Call) (call : Call) :
  after (calls ++ [call]) = perform (after calls) call.
Proof. unfold after. rewrite fold_left_app. reflexivity. Qed.

End ChatSessionFacts.

(** X18. The second question that the chat system itself always
    suggests, "What information is missing?", never gets the completeness
    answer: for every analysis result it is answered with the text about
    the purpose of the document, at confidence 0.9.  The cause is general:
    a question that contains "what" and any word containing "for" or
    "document" ("information", "form", "before", "performed") is taken as
    a question about the purpose, whatever else it asks.  Of the questions
    the system suggests, for any analysis result, none is classified as a
    question about completeness: they are answered as purpose, validity or
    financial questions. *)
Theorem X18_what_for_is_purpose :
  (forall documentData : option Chat.DocumentData,
     let context := Chat.extractDocumentContext documentData in
     In "What information is missing?" (ChatSession.generateQuestionSuggestions documentData)
     /\ Chat.processQuestion "What information is missing?" documentData
        = Chat.mkResponse (Chat.generateDocumentPurposeResponse context) (9 # 10)
                          (Chat.c_documentType context) "document_purpose")
  /\ (forall (question word : string) (documentData : option Chat.DocumentData),
        JS.includes (JS.toLowerCase question) "what" = true ->
        JS.includes (JS.toLowerCase question) word = true ->
        JS.includes word "for" || JS.includes word "document" = true ->
        Chat.classifyQuestion question = "document_purpose"
        /\ Chat.processQuestion question documentData
           = Chat.mkResponse
               (Chat.generateDocumentPurposeResponse (Chat.extractDocumentContext documentData))
               (9 # 10)
               (Chat.c_documentType (Chat.extractDocumentContext documentData))
               "document_purpose")
  /\ (forall (documentData : option Chat.DocumentData) (question : string),
        In question (ChatSession.generateQuestionSuggestions documentData) ->
        Chat.classifyQuestion question
        = (if String.eqb question "Is this document valid?" then "validity"
           else if String.eqb question "What is the purchase price?"
                   || String.eqb question "What is the rent amount?" then "financial"
           else "document_purpose")
        /\ String.eqb (Chat.classifyQuestion question) "completeness" = false).
Proof.
  assert (Hgeneral :
    forall (question word : string) (documentData : option Chat.DocumentData),
      JS.includes (JS.toLowerCase question) "what" = true ->
      JS.includes (JS.toLowerCase question) word = true ->
      JS.includes word "for" || JS.includes word "document" = true ->
      Chat.classifyQuestion question = "document_purpose"
      /\ Chat.processQuestion question documentData
         = Chat.mkResponse
             (Chat.generateDocumentPurposeResponse (Chat.extractDocumentContext documentData))
             (9 # 10)
             (Chat.c_documentType (Chat.extractDocumentContext documentData))
             "document_purpose").
  { intros question word documentData Hwhat Hword Hfor.
    assert (Hguard : JS.includes (JS.toLowerCase question) "document"
                     || JS.includes (JS.toLowerCase question) "for" = true).
    { apply orb_true_iff. apply orb_true_iff in Hfor as [Hfor|Hdoc].
      - right. exact (includes_trans _ _ _ Hword Hfor).
      - left. exact (includes_trans _ _ _ Hword Hdoc). }
    assert (Hc : Chat.classifyQuestion question = "document_purpose").
    { unfold Chat.classifyQuestion. cbv zeta. rewrite Hwhat, Hguard. reflexivity. }
    split; [exact Hc|].
    unfold Chat.processQuestion. cbv zeta. rewrite Hc. reflexivity. }
  split; [|split; [exact Hgeneral|]].
  - intros documentData. cbv zeta. split.
    + unfold ChatSession.generateQuestionSuggestions. cbv zeta.
      repeat match goal with
             | |- context [if ?b then _ else _] => destruct b
             end; cbn; tauto.
    + apply (Hgeneral "What information is missing?" "information" documentData);
        reflexivity.
  - intros documentData question Hin.
    unfold ChatSession.generateQuestionSuggestions in Hin. cbv zeta in Hin.
    repeat match type of Hin with
           | context [if ?b then _ else _] => destruct b
           end;
      cbn [firstn app In] in Hin;
      repeat (destruct Hin as [<-|Hin]; [split; vm_compute; reflexivity|]);
      destruct Hin.
Qed.

Lemma X18_what_for_is_purpose_witness :
  Chat.classifyQuestion "What form is this, and is anything missing?" = "document_purpose".
Proof.
  apply (proj1 (proj2 X18_what_for_is_purpose)
           "What form is this, and is anything missing?" "form" None);
    reflexivity.
Defined.

(** X19. [generateQuestionSuggestions] always returns the three general
    questions, followed by at most one question for the document type: the
    cut to four suggestions leaves only the first of each group, so seven
    of the ten type-specific questions are never offered.  The welcome of
    [initializeWithDocument] carries exactly these suggestions. *)
Theorem X19_suggestions :
  forall (documentData : option Chat.DocumentData) (this : ChatSession.System),
    let suggestions := ChatSession.generateQuestionSuggestions documentData in
    (exists extra,
       suggestions
       = ["What is this document for?"; "What information is missing?";
          "Is this document valid?"] ++ extra
       /\ In extra [[]; ["What is the purchase price?"]; ["What is the rent amount?"];
                    ["What is the reason for the fee waiver?"]])
    /\ ChatSession.suggestions (fst (ChatSession.initializeWithDocument documentData this))
       = suggestions.
Proof.
  intros documentData this. cbv zeta. split; [|reflexivity].
  unfold ChatSession.generateQuestionSuggestions. cbv zeta.
  repeat match goal with
         | |- context [if ?b then _ else _] => destruct b
         end; cbn [firstn app]; eexists; (split; [reflexivity|]); cbn [In]; tauto.
Qed.

(** X20. The key fields that the chat system takes from an analysis
    result are nine at most, each with a non-empty value; rent, lease
    dates, tenant, landlord and applicant are never among them.  Hence the
    answer about the parties is made of buyer and seller alone, the answer
    about money of purchase price and deposit alone, and the answer about
    dates of issue, expiry and closing date alone, for every analysis
    result. *)
Theorem X20_key_fields :
  forall documentData : option Chat.DocumentData,
    let context := Chat.extractDocumentContext documentData in
    let fields := Chat.keyFields context in
    (forall name value : string,
       fields !! name = Some value ->
       value <> ""
       /\ In name ["issueDate"; "expiryDate"; "jurisdiction"; "purchasePrice"; "closingDate";
                   "buyerName"; "sellerName"; "propertyAddress"; "depositAmount"])
    /\ Chat.generatePartiesResponse context
       = (let response := "## Parties Involved" +:+ JS.nl +:+ JS.nl in
          let response := Chat.field_line fields "buyerName" "Buyer" JS.nl response in
          let response := Chat.field_line fields "sellerName" "Seller" JS.nl response in
          if negb (Chat.has_field fields "buyerName") && negb (Chat.has_field fields "sellerName")
          then ((response +:+ "I don't see any party information in this document. ")
                  +:+ "This might be because the document type doesn't typically contain party details, ")
                 +:+ "or the information wasn't extracted properly."
          else response)
    /\ Chat.generateFinancialResponse context
       = (let response := "## Financial Information" +:+ JS.nl +:+ JS.nl in
          let response :=
            Chat.field_line fields "purchasePrice" "Purchase Price" (JS.nl +:+ JS.nl) response in
          let response :=
            Chat.field_line fields "depositAmount" "Deposit Amount" (JS.nl +:+ JS.nl) response in
          if negb (Chat.has_field fields "purchasePrice")
             && negb (Chat.has_field fields "depositAmount")
          then ((response +:+ "I don't see any financial information in this document. ")
                  +:+ "This might be because the document type doesn't typically contain financial details, ")
                 +:+ "or the information wasn't extracted properly."
          else response)
    /\ Chat.generateTemporalResponse context
       = (let response := "## Important Dates" +:+ JS.nl +:+ JS.nl in
          let response := Chat.field_line fields "issueDate" "Issue Date" JS.nl response in
          let response := Chat.field_line fields "expiryDate" "Expiry Date" JS.nl response in
          let response := Chat.field_line fields "closingDate" "Closing Date" JS.nl response in
          if negb (Chat.has_field fields "issueDate") && negb (Chat.has_field fields "expiryDate")
             && negb (Chat.has_field fields "closingDate")
          then ((response +:+ "I don't see any specific dates in this document. ")
                  +:+ "This might be because the document type doesn't typically contain date information, ")
                 +:+ "or the dates weren't extracted properly."
          else response).
Proof.
  intros documentData. cbv zeta.
  change (Chat.keyFields (Chat.extractDocumentContext documentData))
    with (Chat.extractKeyFields documentData).
  assert (Hnone : forall name,
            In name ["rentAmount"; "leaseStartDate"; "leaseEndDate"; "tenantName";
                     "landlordName"; "applicantName"] ->
            Chat.extractKeyFields documentData !! name = None).
  { intros name Hin. rewrite keyFields_lookup. cbn [In] in Hin.
    repeat (destruct Hin as [<-|Hin]; [reflexivity|]). destruct Hin. }
  split; [|split; [|split]].
  - intros name value. rewrite keyFields_lookup. cbv zeta.
    repeat match goal with
           | |- context [String.eqb ?a name] =>
               destruct (String.eqb_spec a name) as [<-|?];
               [ match goal with
                 | |- context [JS.truthy ?v] =>
                     destruct v as [x|]; cbn [JS.truthy];
                     [ destruct (String.eqb_spec x "") as [->|Hne]; cbn [negb];
                       [ discriminate
                       | intros [= <-]; split; [exact Hne | cbn [In]; tauto] ]
                     | discriminate ]
                 end
               | ]
           end.
    discriminate.
  - unfold Chat.generatePartiesResponse, Chat.field_line, Chat.has_field. cbv zeta.
    change (Chat.keyFields (Chat.extractDocumentContext documentData))
      with (Chat.extractKeyFields documentData).
    rewrite (Hnone "tenantName"), (Hnone "landlordName"), (Hnone "applicantName")
      by (cbn [In]; tauto).
    cbn [JS.truthy negb]. rewrite !andb_true_r. reflexivity.
  - unfold Chat.generateFinancialResponse, Chat.field_line, Chat.has_field. cbv zeta.
    change (Chat.keyFields (Chat.extractDocumentContext documentData))
      with (Chat.extractKeyFields documentData).
    rewrite (Hnone "rentAmount") by (cbn [In]; tauto).
    cbn [JS.truthy negb]. rewrite !andb_true_r. reflexivity.
  - unfold Chat.generateTemporalResponse, Chat.field_line, Chat.has_field. cbv zeta.
    change (Chat.keyFields (Chat.extractDocumentContext documentData))
      with (Chat.extractKeyFields documentData).
    rewrite (Hnone "leaseStartDate"), (Hnone "leaseEndDate") by (cbn [In]; tauto).
    reflexivity.
Qed.

Lemma X20_key_fields_witness :
  "$750,000" <> ""
  /\ In "purchasePrice"
        ["issueDate"; "expiryDate"; "jurisdiction"; "purchasePrice"; "closingDate";
         "buyerName"; "sellerName"; "propertyAddress"; "depositAmount"].
Proof.
  apply (proj1 (X20_key_fields (Some Samples.priced_result)) "purchasePrice" "$750,000").
  vm_compute. reflexivity.
Defined.

(** X21. The session of the chat system after any sequence of calls
    (initialise, question, feedback, clear), starting from a new system.
    The counters [totalQuestions] and [successfulAnswers] are never
    numbers: the constructor does not set them, so they are [undefined]
    until the first increment and [NaN] ever after.  The accuracy reported
    by [getLearningStats] is therefore 0 whatever feedback was given.
    [totalConversations] counts the questions asked, [totalFeedback] the
    feedback calls, and the conversation history holds two entries for
    every question asked since it was last reset. *)
Theorem X21_session_statistics :
  forall calls : list ChatSession.Call,
    let this := ChatSession.after calls in
    let stats := ChatSession.getLearningStats this in
    ChatSession.accuracy stats = ChatSession.RNum 0
    /\ ChatSession.st_totalQuestions stats
       = (if (0 <? Spec.questions calls)%nat then ChatSession.NaN else ChatSession.Undefined)
    /\ In (ChatSession.st_successfulAnswers stats) [ChatSession.Undefined; ChatSession.NaN]
    /\ ChatSession.st_totalConversations stats
       = ChatSession.Num (Z.of_nat (Spec.questions calls))
    /\ ChatSession.totalFeedback stats = Spec.feedbacks calls
    /\ List.length (ChatSession.getConversationHistory this)
       = (2 * Spec.questions_since_reset calls)%nat.
Proof.
  intros calls. cbv zeta.
  unfold ChatSession.getLearningStats, ChatSession.getConversationHistory.
  cbn [ChatSession.accuracy ChatSession.st_totalQuestions ChatSession.st_successfulAnswers
       ChatSession.st_totalConversations ChatSession.totalFeedback].
  assert (Hinv :
    ChatSession.totalQuestions (ChatSession.learningData (ChatSession.after calls))
    = (if (0 <? Spec.questions calls)%nat then ChatSession.NaN else ChatSession.Undefined)
    /\ In (ChatSession.successfulAnswers (ChatSession.learningData (ChatSession.after calls)))
          [ChatSession.Undefined; ChatSession.NaN]
    /\ ChatSession.totalConversations (ChatSession.learningData (ChatSession.after calls))
       = ChatSession.Num (Z.of_nat (Spec.questions calls))
    /\ List.length (ChatSession.userFeedback (ChatSession.learningData (ChatSession.after calls)))
       = Spec.feedbacks calls
    /\ List.length (ChatSession.conversationHistory (ChatSession.after calls))
       = (2 * Spec.questions_since_reset calls)%nat).
  { induction calls as [|call calls IH] using rev_ind.
    - cbn. tauto.
    - rewrite perform_snoc.
      unfold Spec.questions, Spec.feedbacks, Spec.questions_since_reset in *.
      rewrite !List.filter_app, !length_app, fold_left_app.
      destruct IH as (Hq & Hs & Hc & Hf & Hh).
      destruct call as [d|times question d|fb question response timestamp|];
        cbn [ChatSession.perform ChatSession.initializeWithDocument
             ChatSession.processQuestion ChatSession.learnFromInteraction
             ChatSession.recordFeedback ChatSession.clearConversation snd
             ChatSession.learningData ChatSession.conversationHistory
             ChatSession.totalQuestions ChatSession.successfulAnswers
             ChatSession.totalConversations ChatSession.userFeedback
             List.filter List.length fold_left];
        rewrite ?length_app, ?Hq, ?Hc, ?Hf, ?Hh; cbn [List.length];
        rewrite ?Nat.add_0_r.
      + repeat split; try assumption; try reflexivity.
      + split; [|split; [|split; [|split]]].
        * replace (0 <? _ + 1)%nat with true by (symmetry; apply Nat.ltb_lt; lia).
          destruct (0 <? _)%nat; reflexivity.
        * exact Hs.
        * cbn [ChatSession.increment]. f_equal. lia.
        * lia.
        * lia.
      + repeat split; try assumption; try lia.
        destruct (String.eqb fb "helpful"); [|exact Hs].
        cbn [In] in Hs |- *.
        destruct Hs as [<-|[<-|[]]]; cbn [ChatSession.increment]; tauto.
      + repeat split; try assumption; try reflexivity. }
  destruct Hinv as (Hq & Hs & Hc & Hf & Hh).
  split; [|tauto].
  unfold ChatSession.accuracy_of. rewrite Hq. destruct (0 <? _)%nat; reflexivity.
Qed.

(** ** function-app.js: the reply of POST /api/qa *)

Section QAFacts.

Lemma join_includes (sep : string) (parts : list string) (x : string) :
  In x parts -> JS.includes (JS.join sep parts) x = true.
Proof.
  induction parts as [|p rest IH]; intros Hin; [destruct Hin|].
  destruct rest as [|p' rest].
  - destruct Hin as [<-|[]]. apply includes_refl.
  - change (JS.join sep (p :: p' :: rest)) with (p +:+ sep +:+ JS.join sep (p' :: rest)).
    destruct Hin as [<-|Hin].
    + apply includes_append_l, includes_refl.
    + apply includes_append_r, includes_append_r, IH, Hin.
Qed.

End QAFacts.

(** A piece that one of the appends of a reply has added, with its text
    up to some point, is part of the reply. *)
Ltac in_reply :=
  first [ solve [ apply includes_append_r; rewrite <- string_app_assoc;
                  apply includes_append_l, includes_refl ]
        | apply includes_append_l; in_reply ].

(** X22. The reply of [POST /api/qa] in function-app.js to any question:
    when the analysis sent along has missing required fields, the reply
    lists all of them, in the summary after "**Missing Required Fields:** "
    and in the next steps after "- Complete the missing required fields: ",
    so every missing field is named in the reply whatever was asked; and
    likewise all validity issues after "**Issues:** ". *)
Theorem X22_reply_lists_missing_fields :
  forall (question documentType : string) (fc : option FunctionApp.FieldStatus)
         (vc : option FunctionApp.ValidityCheck) (price : option string),
    let answer :=
      FunctionApp.answerMarkdown question documentType
        (Some (FunctionApp.mkExtracted fc vc price)) in
    (forall f : FunctionApp.FieldStatus,
       fc = Some f ->
       let missing := FunctionApp.missingRequired (FunctionApp.completeness f) in
       missing <> [] ->
       JS.includes answer ("**Missing Required Fields:** " +:+ JS.join ", " missing) = true
       /\ JS.includes answer
            ("- Complete the missing required fields: " +:+ JS.join ", " missing) = true
       /\ forall field, In field missing -> JS.includes answer field = true)
    /\ (forall v : FunctionApp.ValidityCheck,
          vc = Some v ->
          FunctionApp.issues v <> [] ->
          JS.includes answer ("**Issues:** " +:+ JS.join ", " (FunctionApp.issues v)) = true
          /\ forall issue, In issue (FunctionApp.issues v) -> JS.includes answer issue = true).
Proof.
  intros question documentType fc vc price answer.
  assert (Hpos : forall l : list string, l <> [] -> (0 <? List.length l)%nat = true).
  { intros [|x l] H; [contradiction | reflexivity]. }
  split.
  - intros f -> missing Hmissing.
    assert (H1 : JS.includes answer
                   ("**Missing Required Fields:** " +:+ JS.join ", " missing) = true).
    { subst answer. unfold FunctionApp.answerMarkdown. cbv zeta.
      cbn [JS.member FunctionApp.fieldCompleteness FunctionApp.validityCheck].
      fold missing. rewrite (Hpos missing Hmissing).
      destruct vc as [v|];
        repeat match goal with
               | |- context [if ?b then _ else _] => destruct b
               end; in_reply. }
    assert (H2 : JS.includes answer
                   ("- Complete the missing required fields: " +:+ JS.join ", " missing)
                 = true).
    { subst answer. unfold FunctionApp.answerMarkdown. cbv zeta.
      cbn [JS.member FunctionApp.fieldCompleteness FunctionApp.validityCheck].
      fold missing. rewrite (Hpos missing Hmissing).
      destruct vc as [v|];
        repeat match goal with
               | |- context [if ?b then _ else _] => destruct b
               end; in_reply. }
    split; [exact H1|]. split; [exact H2|].
    intros field Hin. apply (includes_trans _ _ _ H2).
    apply includes_append_r, join_includes, Hin.
  - intros v -> Hissues.
    assert (H1 : JS.includes answer
                   ("**Issues:** " +:+ JS.join ", " (FunctionApp.issues v)) = true).
    { subst answer. unfold FunctionApp.answerMarkdown. cbv zeta.
      cbn [JS.member FunctionApp.fieldCompleteness FunctionApp.validityCheck].
      rewrite (Hpos _ Hissues).
      destruct fc as [f|];
        repeat match goal with
               | |- context [if ?b then _ else _] => destruct b
               end; in_reply. }
    split; [exact H1|].
    intros issue Hin. apply (includes_trans _ _ _ H1).
    apply includes_append_r, join_includes, Hin.
Qed.

Lemma X22_reply_lists_missing_fields_witness :
  JS.includes
    (FunctionApp.answerMarkdown "Is it ready?" FunctionApp.APS
       (Some (FunctionApp.mkExtracted
                (Some (FunctionApp.checkFieldCompleteness "Buyer: John Smith" FunctionApp.APS))
                (Some (FunctionApp.checkDocumentValidity "Buyer: John Smith" FunctionApp.APS))
                None)))
    "depositAmount" = true
  /\ JS.includes
       (FunctionApp.answerMarkdown "Is it ready?" FunctionApp.APS
          (Some (FunctionApp.mkExtracted
                   (Some (FunctionApp.checkFieldCompleteness "Buyer: John Smith"
                            FunctionApp.APS))
                   (Some (FunctionApp.checkDocumentValidity "Buyer: John Smith"
                            FunctionApp.APS))
                   None)))
       "Missing required signature: seller" = true.
Proof.
  destruct (X22_reply_lists_missing_fields "Is it ready?" FunctionApp.APS
              (Some (FunctionApp.checkFieldCompleteness "Buyer: John Smith" FunctionApp.APS))
              (Some (FunctionApp.checkDocumentValidity "Buyer: John Smith" FunctionApp.APS))
              None) as (Hmissing & Hissues).
  split.
  - destruct (Hmissing _ eq_refl) as (_ & _ & Hfield).
    + vm_compute. discriminate.
    + apply Hfield. vm_compute. tauto.
  - destruct (Hissues _ eq_refl) as (_ & Hissue).
    + vm_compute. discriminate.
    + apply Hissue. vm_compute. tauto.
Defined.

(** ** AIDocumentAnalyzer: adding a profile *)

Section AIAddPattern.
Import AI.


End AIAddPattern.


